(** * code-input: the editable/display element and its template registry

    A shallow embedding of [src/code-input/code-input.js].

    Conventions of the embedding:
    - a JavaScript string is a [string], one [ascii] for each of its code
      units, which are taken below 256: the length of the [string] is the
      [length] of the JavaScript string; the characters the code inspects
      ([&], [<], [>], line feed, the ASCII letters) are all ASCII;
    - an object used as a dictionary ([usedTemplates],
      [templateNotYetRegisteredQueue], [boundEventCallbacks], the attributes
      of an element) is a [gmap] over its string keys; the key [undefined]
      is the string ["undefined"], as property access converts it;
    - a method that mutates [this] is a function from the element to an
      [Outcome]: the element after the call, or the exception raised
      together with the element as it was when the exception was raised;
    - the code that the library calls but does not contain (the highlight
      function of a template, the hooks of a plugin, the listeners of the
      page) is recorded in the [log] of the element, one [Event] for each
      call; the highlight function rewrites the content of the [code]
      node, the hooks and listeners are taken not to touch the element;
    - the [innerHTML] of a node is the markup that was last assigned to it;
      what the browser makes of the markup when the property is read back
      is written out where the code reads it back;
    - what the platform checks is checked: a textarea gives its value with
      the line breaks normalised, a class list refuses a token that is
      empty or holds white space, and a lookup in [usedTemplates] finds
      the properties that every object inherits. *)

From Stdlib Require Import String Ascii List Bool Arith Lia.
From stdpp Require Import gmap strings list.

Local Open Scope string_scope.

(* stdpp freezes [String.append] under [simpl]; the proofs below compute
   with it on literal prefixes. *)
Local Arguments String.append !_ _ : simpl nomatch.

(** ** Strings *)

(** [s.startsWith(pat)] *)
Fixpoint startsWith (pat s : string) : bool :=
  match pat with
  | EmptyString => true
  | String a pat' =>
      match s with
      | EmptyString => false
      | String b s' => if Ascii.eqb b a then startsWith pat' s' else false
      end
  end.

(** [s.includes(pat)] *)
Fixpoint includes (pat s : string) : bool :=
  startsWith pat s ||
  match s with
  | EmptyString => false
  | String _ s' => includes pat s'
  end.

(** [s.replace(new RegExp(pat, "g"), rep)] for a pattern without
    metacharacters and a replacement without [$]: the matches are found
    from left to right and do not overlap.  [skip] counts the characters of
    the current match that are still to be consumed. *)
Fixpoint replaceAll_from (pat rep : string) (skip : nat) (s : string) : string :=
  match s with
  | EmptyString => EmptyString
  | String c s' =>
      match skip with
      | S k => replaceAll_from pat rep k s'
      | O =>
          if startsWith pat s
          then rep +:+ replaceAll_from pat rep (String.length pat - 1) s'
          else String c (replaceAll_from pat rep 0 s')
      end
  end.

Definition replaceAll (pat rep s : string) : string :=
  replaceAll_from pat rep 0 s.

(** [CodeInput.escapeHtml] *)
Definition escapeHtml (text : string) : string :=
  replaceAll "<" "&lt;" (replaceAll "&" "&amp;" text).

(** [CodeInput.unescapeHtml] *)
Definition unescapeHtml (text : string) : string :=
  replaceAll "&gt;" ">" (replaceAll "&lt;" "<" (replaceAll "&amp;" "&" text)).

(** The image of one character under [escapeHtml]. *)
Definition escapeChar (c : ascii) : string :=
  if Ascii.eqb c "&" then "&amp;"
  else if Ascii.eqb c "<" then "&lt;"
  else String c EmptyString.

(** A string rewritten character by character. *)
Fixpoint flatMap (f : ascii -> string) (s : string) : string :=
  match s with
  | EmptyString => EmptyString
  | String c s' => f c +:+ flatMap f s'
  end.

(** [c.toLowerCase()] on the ASCII letters. *)
Definition lowerChar (c : ascii) : ascii :=
  let n := nat_of_ascii c in
  if ((65 <=? n) && (n <=? 90))%nat then ascii_of_nat (n + 32) else c.

(** [s.toLowerCase()] *)
Fixpoint toLowerCase (s : string) : string :=
  match s with
  | EmptyString => EmptyString
  | String c s' => String (lowerChar c) (toLowerCase s')
  end.

(** [value[value.length - 1] == "\n"] *)
Fixpoint endsWithNewline (s : string) : bool :=
  match s with
  | EmptyString => false
  | String c EmptyString => Ascii.eqb c "010"
  | String _ s' => endsWithNewline s'
  end.

(** The value that a textarea gives for the text it holds: a carriage
    return followed by a line feed, and a carriage return alone, are one
    line feed.  [afterCR] tells that the character before was a carriage
    return. *)
Fixpoint normalizeNewlines_from (afterCR : bool) (s : string) : string :=
  match s with
  | EmptyString => EmptyString
  | String c s' =>
      if Ascii.eqb c "013" then String "010" (normalizeNewlines_from true s')
      else if Ascii.eqb c "010" && afterCR then normalizeNewlines_from false s'
      else String c (normalizeNewlines_from false s')
  end.

Definition normalizeNewlines (s : string) : string :=
  normalizeNewlines_from false s.

(** [s.includes("\r")] *)
Definition hasCarriageReturn (s : string) : bool := includes (String "013" "") s.

(** ASCII white space: tab, line feed, form feed, carriage return and
    space. *)
Definition isAsciiWhitespace (c : ascii) : bool :=
  Ascii.eqb c "009" || Ascii.eqb c "010" || Ascii.eqb c "012"
  || Ascii.eqb c "013" || Ascii.eqb c " ".

Fixpoint hasWhitespace (s : string) : bool :=
  match s with
  | EmptyString => false
  | String c s' => isAsciiWhitespace c || hasWhitespace s'
  end.

(** What is left of an escaped text once [&amp;] is turned back. *)
Definition ltChar (c : ascii) : string :=
  if Ascii.eqb c "<" then "&lt;" else String c EmptyString.

(** ** Wildcard attribute names *)

(** [new RegExp("^" + prefix + ".*" + suffix + "$", "i")], what
    [wildcard2regex] builds from a name with one [*].  The embedding is
    for names with at most one [*] and without line terminator, as the
    names of [textareaSyncAttributes] are: a further [*] would stand in
    the pattern as a quantifier, or make [new RegExp] throw. *)
Record Wildcard := mkWildcard { wildcardPrefix : string; wildcardSuffix : string }.

(** The text before and after the first [*]. *)
Fixpoint splitStar (s : string) : option (string * string) :=
  match s with
  | EmptyString => None
  | String c s' =>
      if Ascii.eqb c "*" then Some (EmptyString, s')
      else match splitStar s' with
           | Some (a, b) => Some (String c a, b)
           | None => None
           end
  end.

(** [codeInput.wildcard2regex] *)
Definition wildcard2regex (wildcard : string) : option Wildcard :=
  match splitStar wildcard with
  | None => None
  | Some (a, b) => Some (mkWildcard a b)
  end.

Fixpoint dropChars (n : nat) (s : string) : string :=
  match n, s with
  | S k, String _ s' => dropChars k s'
  | _, _ => s
  end.

(** [name.match(reg)] *)
Definition matchWildcard (reg : Wildcard) (name : string) : bool :=
  let name := toLowerCase name in
  let pre := toLowerCase (wildcardPrefix reg) in
  let suf := toLowerCase (wildcardSuffix reg) in
  startsWith pre name
  && (String.length pre + String.length suf <=? String.length name)%nat
  && String.eqb (dropChars (String.length name - String.length suf) name) suf.

(** The list [codeInput.textareaSyncAttributes] as the source declares it. *)
Definition textareaSyncAttributes_declared : list string :=
  [ "aria-*"; "value"; "min"; "max"; "type"; "pattern";
    "autocomplete"; "autocorrect"; "autofocus"; "cols"; "dirname";
    "disabled"; "form"; "maxlength"; "minlength"; "name"; "placeholder";
    "readonly"; "required"; "rows"; "spellcheck"; "wrap" ].

(** [codeInput.arrayWildcards2regex] moves the names with a [*] out of the
    list and into its [regexp] property. *)
Definition arrayWildcards2regex (names : list string) : list string * list Wildcard :=
  (List.filter (fun n => negb (includes "*" n)) names,
   omap wildcard2regex names).

Definition textareaSyncAttributes : list string :=
  fst (arrayWildcards2regex textareaSyncAttributes_declared).

Definition textareaSyncAttributes_regexp : list Wildcard :=
  snd (arrayWildcards2regex textareaSyncAttributes_declared).

(** [codeInput.textareaSyncEvents] *)
Definition textareaSyncEvents : list string :=
  [ "change"; "selectionchange"; "invalid"; "input" ].

(** [list.includes(name)] *)
Definition listIncludes (name : string) (l : list string) : bool :=
  existsb (String.eqb name) l.

(** ** Outcomes *)

(** The fields of a template that [registerTemplate] checks. *)
Inductive Field :=
| FHighlight
| FIncludeCodeInputInHighlightFunc
| FPreElementStyled
| FIsCode
| FPlugins
| FPluginAt (index : nat).

Inductive JsError :=
| InvalidTemplate (templateName : string) (field : Field)
    (** the [TypeError] that [registerTemplate] throws; its message names
        the template and the field *)
| PropertyOfNull (property : string)
    (** the [TypeError] of reading or calling [property] on [undefined]
        or [null] *)
| NotAFunction (property : string)
    (** the [TypeError] of calling a [property] that is [undefined] *)
| DOMException (name : string).
    (** the exception of that name, thrown by a method of the page *)

(** The result of running a method on a state [S]. *)
Inductive Outcome (S : Type) : Type :=
| Done (s : S)
| Throw (err : JsError) (s : S)
| OutOfFuel.

Arguments Done {S} s.
Arguments Throw {S} err s.
Arguments OutOfFuel {S}.

Definition andThen {S : Type} (o : Outcome S) (k : S -> Outcome S) : Outcome S :=
  match o with
  | Done s => k s
  | Throw err s => Throw err s
  | OutOfFuel => OutOfFuel
  end.

Notation "'run' x <- o 'in' k" := (andThen o (fun x => k))
  (at level 10, x name, o at level 100, k at level 200, only parsing).

(** ** Plugins, templates and listeners *)

(** An instance of [codeInput.Plugin]: it inherits the five hooks of the
    class, so [eventName in plugin] holds for each of them. *)
Record Plugin := mkPlugin { pluginId : nat }.

(** What the library hands to the code of the page. *)
Inductive Event :=
| EvPlugin (plugin : nat) (eventName : string) (args : list (option string))
| EvHighlight (resultElement : string) (withCodeInput : bool)
| EvListener (listener : nat) (type : string).

(** What a highlight function can read of the element that is passed to
    it: its value and its attributes. *)
Record Owner := mkOwner {
  ownerValue : string;
  ownerAttributes : gmap string string
}.

(** A highlight function: from the content of the [code] node, and the
    element when it is passed, to the new content. *)
Definition HighlightFn : Type := string -> option Owner -> string.

(** A template object that passed the checks of [registerTemplate]. *)
Record Template := mkTemplate {
  highlight : HighlightFn;
  preElementStyled : bool;
  isCode : bool;
  includeCodeInputInHighlightFunc : bool;
  plugins : list Plugin
}.

(** The names that every object inherits from [Object.prototype]. *)
Definition inheritedKeys : list string :=
  [ "constructor"; "__defineGetter__"; "__defineSetter__"; "hasOwnProperty";
    "__lookupGetter__"; "__lookupSetter__"; "isPrototypeOf";
    "propertyIsEnumerable"; "toString"; "valueOf"; "__proto__";
    "toLocaleString" ].

(** What [this.template] holds: a template that was registered, or the
    property of [Object.prototype] that a lookup in [usedTemplates] finds
    under one of the inherited names.  Such a property has none of the
    fields of a template: its flags read as [undefined], a loop over its
    plugins makes no round, and its [highlight] cannot be called. *)
Inductive TemplateObject :=
| Registered (t : Template)
| Inherited (key : string).

(** [usedTemplates[key]], on the templates that were registered. *)
Definition propertyOf (usedTemplates : gmap string Template) (key : string)
  : option TemplateObject :=
  match usedTemplates !! key with
  | Some t => Some (Registered t)
  | None =>
      if existsb (String.eqb key) inheritedKeys then Some (Inherited key) else None
  end.

(** A value of the host language, as far as a template object may hold one. *)
#[warnings="-register-all"]
Inductive JsVal :=
| VUndefined
| VNull
| VBool (b : bool)
| VBoolObject (b : bool)          (** [new Boolean(b)] *)
| VNumber (n : Z)
| VString (s : string)
| VFunction (f : HighlightFn)
| VArray (items : list JsVal)
| VPlugin (p : Plugin)            (** an instance of [codeInput.Plugin] *)
| VObject.                        (** any other object *)

(** The object passed to [registerTemplate], before it is checked. *)
Module Descriptor.
Record t := mk {
  highlight : JsVal;
  preElementStyled : JsVal;
  isCode : JsVal;
  includeCodeInputInHighlightFunc : JsVal;
  plugins : JsVal
}.
End Descriptor.

(** A function given to [addEventListener], and the function that
    [listener.bind(this)] returns for it.  A bound function is a new object
    on each call of [bind]; [boundId] is its identity. *)
Inductive Listener :=
| UserListener (id : nat) (source : string)
    (** a function of the page, with its identity and its source text *)
| DeferredUpdate (value : string)
    (** [() => { this.update(value) }] *)
| DeferredAttach (type : string) (boundCallback : BoundCallback) (options : option bool)
    (** [() => { this.textareaElement.addEventListener(type, boundCallback, options) }] *)
with BoundCallback :=
| Bind (boundId : nat) (listener : Listener).

Definition boundId (b : BoundCallback) : nat :=
  match b with Bind i _ => i end.

Definition boundListener (b : BoundCallback) : Listener :=
  match b with Bind _ l => l end.

(** [String(listener)], the key under which [boundEventCallbacks] files a
    listener. *)
Definition sourceText (l : Listener) : string :=
  match l with
  | UserListener _ source => source
  | DeferredUpdate _ => "() => { this.update(value) }"
  | DeferredAttach _ _ None =>
      "() => { this.textareaElement.addEventListener(type, boundCallback); }"
  | DeferredAttach _ _ (Some _) =>
      "() => { this.textareaElement.addEventListener(type, boundCallback, options); }"
  end.

(** What a node holds as the callback of a listener. *)
Inductive Callback :=
| Internal (name : string)        (** a listener that [setup] installs *)
| Bound (b : BoundCallback)
| Unbound (l : Listener).

(** Identity of function objects. *)
Definition sameCallback (c1 c2 : Callback) : bool :=
  match c1, c2 with
  | Internal a, Internal b => String.eqb a b
  | Bound a, Bound b => Nat.eqb (boundId a) (boundId b)
  | Unbound (UserListener a _), Unbound (UserListener b _) => Nat.eqb a b
  | _, _ => false
  end.

Record Registration := mkRegistration {
  regType : string;
  regCallback : Callback;
  regCapture : bool
}.

Definition sameRegistration (type : string) (cb : Callback) (capture : bool)
  (r : Registration) : bool :=
  String.eqb (regType r) type && sameCallback (regCallback r) cb
  && Bool.eqb (regCapture r) capture.

(** [EventTarget.addEventListener]: a listener already registered with the
    same type, callback and capture flag is not added again. *)
Definition eventTarget_add (type : string) (cb : Callback) (options : option bool)
  (l : list Registration) : list Registration :=
  let capture := default false options in
  if existsb (sameRegistration type cb capture) l then l
  else l ++ [mkRegistration type cb capture].

(** [EventTarget.removeEventListener]; an [undefined] callback removes
    nothing. *)
Definition eventTarget_remove (type : string) (cb : option Callback)
  (options : option bool) (l : list Registration) : list Registration :=
  match cb with
  | None => l
  | Some cb =>
      List.filter (fun r => negb (sameRegistration type cb (default false options) r)) l
  end.

(** ** Class lists *)

(** [classList.contains(c)]; it takes any token. *)
Definition classList_contains (c : string) (l : list string) : bool :=
  existsb (String.eqb c) l.

(** The tokens of a class list once [c] is added or removed. *)
Definition tokens_add (c : string) (l : list string) : list string :=
  if classList_contains c l then l else l ++ [c].

Definition tokens_remove (c : string) (l : list string) : list string :=
  List.filter (fun x => negb (String.eqb x c)) l.

(** The exception of [classList.add] and [classList.remove] for a token
    that is empty or holds white space. *)
Definition tokenError (token : string) : option JsError :=
  if String.eqb token "" then Some (DOMException "SyntaxError")
  else if hasWhitespace token then Some (DOMException "InvalidCharacterError")
  else None.

(** [classList.add(c)] and [classList.remove(c)] *)
Definition classList_add (c : string) (l : list string) : JsError + list string :=
  match tokenError c with
  | Some err => inl err
  | None => inr (tokens_add c l)
  end.

Definition classList_remove (c : string) (l : list string) : JsError + list string :=
  match tokenError c with
  | Some err => inl err
  | None => inr (tokens_remove c l)
  end.

(** ** Nodes *)

(** The [textarea] that [setup] creates.  [placeholder] reflects the
    attribute of that name; [value] gives the text that the textarea
    holds with its line breaks normalised; [innerHTML] is the markup that
    was assigned. *)
Module Textarea.
Record t := mk {
  node : nat;
  rawValue : string;
  innerHTML : string;
  attributes : gmap string string;
  listeners : list Registration
}.

Definition value (ta : t) : string := normalizeNewlines (rawValue ta).

Definition placeholder (ta : t) : string :=
  default "" (attributes ta !! "placeholder").

Definition setValue (v : string) (ta : t) : t :=
  mk (node ta) v (innerHTML ta) (attributes ta) (listeners ta).

Definition setInnerHTML (h : string) (ta : t) : t :=
  mk (node ta) (rawValue ta) h (attributes ta) (listeners ta).

Definition setAttribute (name v : string) (ta : t) : t :=
  mk (node ta) (rawValue ta) (innerHTML ta) (<[name := v]> (attributes ta)) (listeners ta).

Definition removeAttribute (name : string) (ta : t) : t :=
  mk (node ta) (rawValue ta) (innerHTML ta) (delete name (attributes ta)) (listeners ta).

Definition setPlaceholder (v : string) (ta : t) : t :=
  setAttribute "placeholder" v ta.

Definition addEventListener (type : string) (cb : Callback) (options : option bool)
  (ta : t) : t :=
  mk (node ta) (rawValue ta) (innerHTML ta) (attributes ta)
     (eventTarget_add type cb options (listeners ta)).

Definition removeEventListener (type : string) (cb : option Callback)
  (options : option bool) (ta : t) : t :=
  mk (node ta) (rawValue ta) (innerHTML ta) (attributes ta)
     (eventTarget_remove type cb options (listeners ta)).
End Textarea.

(** The [pre] and [code] nodes; [innerHTML] is the markup that was
    assigned. *)
Module Node.
Record t := mk {
  node : nat;
  tagName : string;
  classList : list string;
  innerHTML : string;
  attributes : gmap string string
}.

Definition setClassList (l : list string) (n : t) : t :=
  mk (node n) (tagName n) l (innerHTML n) (attributes n).

(** [n.classList.add(c)] and [n.classList.remove(c)] *)
Definition addClass (c : string) (n : t) : JsError + t :=
  match classList_add c (classList n) with
  | inl err => inl err
  | inr l => inr (setClassList l n)
  end.

Definition removeClass (c : string) (n : t) : JsError + t :=
  match classList_remove c (classList n) with
  | inl err => inl err
  | inr l => inr (setClassList l n)
  end.

Definition setInnerHTML (h : string) (n : t) : t :=
  mk (node n) (tagName n) (classList n) h (attributes n).

Definition setAttribute (name v : string) (n : t) : t :=
  mk (node n) (tagName n) (classList n) (innerHTML n) (<[name := v]> (attributes n)).
End Node.

(** A string assigned to a DOM property: [null] becomes ["null"]. *)
Definition domString (v : option string) : string := default "null" v.

(** ** The element *)

Record CodeInput := mkCodeInput {
  attributes : gmap string string;     (** the attributes of the element *)
  innerHTML : string;
  classList : list string;
  isConnected : bool;
  _value : string;
  textareaElement : option Textarea.t;
  preElement : option Node.t;
  codeElement : option Node.t;
  template : option TemplateObject;
  ignoreValueUpdate : bool;
  initialValue : option string;
  boundEventCallbacks : gmap string BoundCallback;
  listeners : list Registration;       (** the listeners on the element itself *)
  observers : nat;                     (** the mutation observers made for it *)
  binds : nat;                         (** the bound functions made so far *)
  log : list Event
}.

Section Setters.
Variable e : CodeInput.

Definition set_innerHTML (v : string) : CodeInput :=
  mkCodeInput (attributes e) v (classList e) (isConnected e) (_value e)
    (textareaElement e) (preElement e) (codeElement e) (template e)
    (ignoreValueUpdate e) (initialValue e) (boundEventCallbacks e)
    (listeners e) (observers e) (binds e) (log e).

Definition set_classList (v : list string) : CodeInput :=
  mkCodeInput (attributes e) (innerHTML e) v (isConnected e) (_value e)
    (textareaElement e) (preElement e) (codeElement e) (template e)
    (ignoreValueUpdate e) (initialValue e) (boundEventCallbacks e)
    (listeners e) (observers e) (binds e) (log e).

Definition set__value (v : string) : CodeInput :=
  mkCodeInput (attributes e) (innerHTML e) (classList e) (isConnected e) v
    (textareaElement e) (preElement e) (codeElement e) (template e)
    (ignoreValueUpdate e) (initialValue e) (boundEventCallbacks e)
    (listeners e) (observers e) (binds e) (log e).

Definition set_textareaElement (v : option Textarea.t) : CodeInput :=
  mkCodeInput (attributes e) (innerHTML e) (classList e) (isConnected e) (_value e)
    v (preElement e) (codeElement e) (template e)
    (ignoreValueUpdate e) (initialValue e) (boundEventCallbacks e)
    (listeners e) (observers e) (binds e) (log e).

Definition set_preElement (v : option Node.t) : CodeInput :=
  mkCodeInput (attributes e) (innerHTML e) (classList e) (isConnected e) (_value e)
    (textareaElement e) v (codeElement e) (template e)
    (ignoreValueUpdate e) (initialValue e) (boundEventCallbacks e)
    (listeners e) (observers e) (binds e) (log e).

Definition set_codeElement (v : option Node.t) : CodeInput :=
  mkCodeInput (attributes e) (innerHTML e) (classList e) (isConnected e) (_value e)
    (textareaElement e) (preElement e) v (template e)
    (ignoreValueUpdate e) (initialValue e) (boundEventCallbacks e)
    (listeners e) (observers e) (binds e) (log e).

Definition set_template (v : option TemplateObject) : CodeInput :=
  mkCodeInput (attributes e) (innerHTML e) (classList e) (isConnected e) (_value e)
    (textareaElement e) (preElement e) (codeElement e) v
    (ignoreValueUpdate e) (initialValue e) (boundEventCallbacks e)
    (listeners e) (observers e) (binds e) (log e).

Definition set_ignoreValueUpdate (v : bool) : CodeInput :=
  mkCodeInput (attributes e) (innerHTML e) (classList e) (isConnected e) (_value e)
    (textareaElement e) (preElement e) (codeElement e) (template e)
    v (initialValue e) (boundEventCallbacks e)
    (listeners e) (observers e) (binds e) (log e).

Definition set_initialValue (v : option string) : CodeInput :=
  mkCodeInput (attributes e) (innerHTML e) (classList e) (isConnected e) (_value e)
    (textareaElement e) (preElement e) (codeElement e) (template e)
    (ignoreValueUpdate e) v (boundEventCallbacks e)
    (listeners e) (observers e) (binds e) (log e).

Definition set_boundEventCallbacks (v : gmap string BoundCallback) : CodeInput :=
  mkCodeInput (attributes e) (innerHTML e) (classList e) (isConnected e) (_value e)
    (textareaElement e) (preElement e) (codeElement e) (template e)
    (ignoreValueUpdate e) (initialValue e) v
    (listeners e) (observers e) (binds e) (log e).

Definition set_listeners (v : list Registration) : CodeInput :=
  mkCodeInput (attributes e) (innerHTML e) (classList e) (isConnected e) (_value e)
    (textareaElement e) (preElement e) (codeElement e) (template e)
    (ignoreValueUpdate e) (initialValue e) (boundEventCallbacks e)
    v (observers e) (binds e) (log e).

Definition set_observers (v : nat) : CodeInput :=
  mkCodeInput (attributes e) (innerHTML e) (classList e) (isConnected e) (_value e)
    (textareaElement e) (preElement e) (codeElement e) (template e)
    (ignoreValueUpdate e) (initialValue e) (boundEventCallbacks e)
    (listeners e) v (binds e) (log e).

Definition set_binds (v : nat) : CodeInput :=
  mkCodeInput (attributes e) (innerHTML e) (classList e) (isConnected e) (_value e)
    (textareaElement e) (preElement e) (codeElement e) (template e)
    (ignoreValueUpdate e) (initialValue e) (boundEventCallbacks e)
    (listeners e) (observers e) v (log e).

Definition set_log (v : list Event) : CodeInput :=
  mkCodeInput (attributes e) (innerHTML e) (classList e) (isConnected e) (_value e)
    (textareaElement e) (preElement e) (codeElement e) (template e)
    (ignoreValueUpdate e) (initialValue e) (boundEventCallbacks e)
    (listeners e) (observers e) (binds e) v.
End Setters.

(** A [code-input] element as its constructor leaves it, with the
    attributes and the content that the page gave it. *)
Definition newCodeInput (attrs : gmap string string) (content : string) : CodeInput :=
  mkCodeInput attrs content [] true "" None None None None false None ∅ [] 0 0 [].

(** ** Methods of the element *)

(** [a || b] on values that are a string, [null] or [undefined]. *)
Definition orElse (a b : option string) : option string :=
  match a with
  | Some s => if String.eqb s "" then b else Some s
  | None => b
  end.

(** A property key: [undefined] is converted to the string ["undefined"]. *)
Definition keyOf (name : option string) : string := default "undefined" name.

(** [CodeInput.pluginEvt] *)
Definition pluginEvt (eventName : string) (args : list (option string))
  (e : CodeInput) : Outcome CodeInput :=
  match template e with
  | None => Throw (PropertyOfNull "plugins") e
  | Some (Registered t) =>
      Done (set_log e
              (log e ++ map (fun p => EvPlugin (pluginId p) eventName args) (plugins t)))
  | Some (Inherited _) => Done e
  end.

(** [this.classList.add(c)] and [this.classList.remove(c)] *)
Definition addClass (c : string) (e : CodeInput) : Outcome CodeInput :=
  match classList_add c (classList e) with
  | inl err => Throw err e
  | inr l => Done (set_classList e l)
  end.

Definition removeClass (c : string) (e : CodeInput) : Outcome CodeInput :=
  match classList_remove c (classList e) with
  | inl err => Throw err e
  | inr l => Done (set_classList e l)
  end.

(** A method of the class list of the [code] node, and of the [pre] node
    that is its parent. *)
Definition onCode (method : Node.t -> JsError + Node.t) (e : CodeInput)
  : Outcome CodeInput :=
  match codeElement e with
  | None => Throw (PropertyOfNull "classList") e
  | Some code =>
      match method code with
      | inl err => Throw err e
      | inr code => Done (set_codeElement e (Some code))
      end
  end.

Definition onPre (method : Node.t -> JsError + Node.t) (e : CodeInput)
  : Outcome CodeInput :=
  match preElement e with
  | None => Throw (PropertyOfNull "classList") e
  | Some pre =>
      match method pre with
      | inl err => Throw err e
      | inr pre => Done (set_preElement e (Some pre))
      end
  end.

(** The body of [CodeInput.addEventListener]; [self] stands for
    [this.addEventListener]. *)
Definition addEventListener_body
  (self : string -> Listener -> option bool -> CodeInput -> Outcome CodeInput)
  (type : string) (listener : Listener) (options : option bool)
  (e : CodeInput) : Outcome CodeInput :=
  let boundCallback := Bind (binds e) listener in
  let e := set_binds e (S (binds e)) in
  let e := set_boundEventCallbacks e
             (<[sourceText listener := boundCallback]> (boundEventCallbacks e)) in
  if listIncludes type textareaSyncEvents then
    match textareaElement e with
    | None =>
        self "code-input_load" (DeferredAttach type boundCallback options) None e
    | Some ta =>
        Done (set_textareaElement e
                (Some (Textarea.addEventListener type (Bound boundCallback) options ta)))
    end
  else
    Done (set_listeners e
            (eventTarget_add type (Bound boundCallback) options (listeners e))).

Fixpoint addEventListener_fuel (fuel : nat) (type : string) (listener : Listener)
  (options : option bool) (e : CodeInput) : Outcome CodeInput :=
  match fuel with
  | O => OutOfFuel
  | S n => addEventListener_body (addEventListener_fuel n) type listener options e
  end.

(** [CodeInput.addEventListener]: the call made from inside the method is
    for ["code-input_load"], which is not rebound, so it makes no further
    call. *)
Definition addEventListener : string -> Listener -> option bool -> CodeInput -> Outcome CodeInput :=
  addEventListener_fuel 2.

(** [CodeInput.removeEventListener] *)
Definition removeEventListener (type : string) (listener : Listener)
  (options : option bool) (e : CodeInput) : Outcome CodeInput :=
  let boundCallback := boundEventCallbacks e !! sourceText listener in
  if String.eqb type "change" then
    match textareaElement e with
    | None => Throw (PropertyOfNull "removeEventListener") e
    | Some ta =>
        Done (set_textareaElement e
                (Some (Textarea.removeEventListener "change" (Bound <$> boundCallback) options ta)))
    end
  else if String.eqb type "selectionchange" then
    match textareaElement e with
    | None => Throw (PropertyOfNull "removeEventListener") e
    | Some ta =>
        Done (set_textareaElement e
                (Some (Textarea.removeEventListener "selectionchange" (Bound <$> boundCallback) options ta)))
    end
  else
    Done (set_listeners e
            (eventTarget_remove type (Some (Unbound listener)) options (listeners e))).

(** The setter of [value]; [update] stands for [this.update]. *)
Definition setValue_with (update : string -> CodeInput -> Outcome CodeInput)
  (val : option string) (e : CodeInput) : Outcome CodeInput :=
  let val := default "" val in
  let e := set__value e val in
  update val e.

(** The body of [CodeInput.update]; [self] stands for [this.update], which
    the setter of [value] calls. *)
Definition update_body (self : string -> CodeInput -> Outcome CodeInput)
  (value : string) (e : CodeInput) : Outcome CodeInput :=
  if ignoreValueUpdate e then Done e
  else
    match textareaElement e with
    | None => addEventListener "code-input_load" (DeferredUpdate value) None e
    | Some _ =>
        let e := set_ignoreValueUpdate e true in
        run e <- setValue_with self (Some value) e in
        let e := set_ignoreValueUpdate e false in
        run e <- match textareaElement e with
                 | None => Throw (PropertyOfNull "value") e
                 | Some ta =>
                     if String.eqb (Textarea.value ta) value then Done e
                     else Done (set_textareaElement e (Some (Textarea.setValue value ta)))
                 end in
        let value := if endsWithNewline value then value +:+ " " else value in
        run e <- match codeElement e with
                 | None => Throw (PropertyOfNull "innerHTML") e
                 | Some resultElement =>
                     Done (set_codeElement e
                             (Some (Node.setInnerHTML (escapeHtml value) resultElement)))
                 end in
        run e <- pluginEvt "beforeHighlight" [] e in
        run e <- match template e, codeElement e with
                 | Some (Registered t), Some resultElement =>
                     let withCodeInput := includeCodeInputInHighlightFunc t in
                     let content := Node.innerHTML resultElement in
                     let owner :=
                       if withCodeInput then Some (mkOwner (_value e) (attributes e))
                       else None in
                     Done (set_log
                             (set_codeElement e
                                (Some (Node.setInnerHTML (highlight t content owner)
                                         resultElement)))
                             (log e ++ [EvHighlight content withCodeInput]))
                 | Some (Inherited _), _ => Throw (NotAFunction "highlight") e
                 | None, _ => Throw (PropertyOfNull "includeCodeInputInHighlightFunc") e
                 | Some (Registered _), None => Throw (PropertyOfNull "innerHTML") e
                 end in
        pluginEvt "afterHighlight" [] e
    end.

Fixpoint update_fuel (fuel : nat) (value : string) (e : CodeInput) : Outcome CodeInput :=
  match fuel with
  | O => OutOfFuel
  | S n => update_body (update_fuel n) value e
  end.

(** [CodeInput.update]: the call that the setter of [value] makes from
    inside the method finds [ignoreValueUpdate] set and returns. *)
Definition update : string -> CodeInput -> Outcome CodeInput := update_fuel 2.

(** [get value] *)
Definition getValue (e : CodeInput) : string := _value e.

(** [set value] *)
Definition setValue (val : option string) (e : CodeInput) : Outcome CodeInput :=
  setValue_with update val e.

(** [CodeInput.formResetCallback] *)
Definition formResetCallback (e : CodeInput) : Outcome CodeInput :=
  match initialValue e with
  | Some v => update v e
  | None => Throw (PropertyOfNull "length") e
  end.

(** The call of one listener with [this] bound to the element. *)
Definition invokeListener (type : string) (l : Listener) (e : CodeInput) : Outcome CodeInput :=
  match l with
  | UserListener id _ => Done (set_log e (log e ++ [EvListener id type]))
  | DeferredUpdate value => update value e
  | DeferredAttach t boundCallback options =>
      match textareaElement e with
      | None => Throw (PropertyOfNull "addEventListener") e
      | Some ta =>
          Done (set_textareaElement e
                  (Some (Textarea.addEventListener t (Bound boundCallback) options ta)))
      end
  end.

Definition invokeCallback (type : string) (cb : Callback) (e : CodeInput) : Outcome CodeInput :=
  match cb with
  | Internal _ => Done e
  | Bound b => invokeListener type (boundListener b) e
  | Unbound l => invokeListener type l e
  end.

(** The listeners of [type] among [rs] are called in order; an exception
    in a listener is reported and does not stop the others. *)
Fixpoint runListeners (type : string) (rs : list Registration) (e : CodeInput)
  : Outcome CodeInput :=
  match rs with
  | [] => Done e
  | r :: rs' =>
      if String.eqb (regType r) type then
        match invokeCallback type (regCallback r) e with
        | Done e' => runListeners type rs' e'
        | Throw _ e' => runListeners type rs' e'
        | OutOfFuel => OutOfFuel
        end
      else runListeners type rs' e
  end.

(** [this.dispatchEvent(new CustomEvent(type))]: the listeners registered
    when the event is dispatched are the ones that run. *)
Definition dispatchEvent (type : string) (e : CodeInput) : Outcome CodeInput :=
  runListeners type (listeners e) e.

(** The first-time copy of the attributes to the textarea. *)
Definition syncAttributes (attrs : gmap string string) (ta : Textarea.t) : Textarea.t :=
  let ta :=
    fold_left
      (fun ta attribute =>
         match attrs !! attribute with
         | Some v => Textarea.setAttribute attribute v ta
         | None => ta
         end)
      textareaSyncAttributes ta in
  fold_left
    (fun ta reg =>
       map_fold
         (fun nodeName nodeValue ta =>
            if matchWildcard reg nodeName
            then Textarea.setAttribute nodeName nodeValue ta else ta)
         ta attrs)
    textareaSyncAttributes_regexp ta.

(** What [setup] does once it is past its guard and its first hook;
    [created] is the number of nodes that [document.createElement] made
    before. *)
Definition setup_build (created : nat) (e : CodeInput) : Outcome CodeInput :=
  let lang := attributes e !! "lang" in
  let placeholder :=
    default "" (orElse (orElse (attributes e !! "placeholder") (attributes e !! "lang"))
                       (Some "")) in
  let value :=
    default "" (orElse (orElse (Some (unescapeHtml (innerHTML e))) (attributes e !! "value"))
                       (Some "")) in
  let e := set_initialValue e (Some value) in
  let textarea := Textarea.mk created "" "" ∅ [] in
  let textarea := Textarea.setPlaceholder placeholder textarea in
  let textarea := if String.eqb value "" then textarea else Textarea.setValue value textarea in
  let textarea := Textarea.setInnerHTML (innerHTML e) textarea in
  let textarea := Textarea.setAttribute "spellcheck" "false" textarea in
  let e := set_innerHTML e "" in
  let textarea := syncAttributes (attributes e) textarea in
  let textarea := Textarea.addEventListener "input" (Internal "input") None textarea in
  let textarea := Textarea.addEventListener "scroll" (Internal "scroll") None textarea in
  let e := set_textareaElement e (Some textarea) in
  let code := Node.mk (created + 1) "code" [] "" ∅ in
  let pre := Node.mk (created + 2) "pre" [] "" ∅ in
  let pre := Node.setAttribute "aria-hidden" "true" pre in
  let e := set_preElement e (Some pre) in
  let e := set_codeElement e (Some code) in
  run e <- match template e with
           | None => Throw (PropertyOfNull "isCode") e
           | Some (Registered t) =>
               if isCode t then
                 match lang with
                 | Some l =>
                     if String.eqb l "" then Done e
                     else onCode (Node.addClass ("language-" +:+ l)) e
                 | None => Done e
                 end
               else Done e
           | Some (Inherited _) => Done e
           end in
  run e <- pluginEvt "afterElementsAdded" [] e in
  run e <- update value e in
  dispatchEvent "code-input_load" e.

Definition withNodes (created : nat) (o : Outcome CodeInput) : Outcome (CodeInput * nat) :=
  match o with
  | Done e => Done (e, created)
  | Throw err e => Throw err (e, created)
  | OutOfFuel => OutOfFuel
  end.

(** [CodeInput.setup], on the element and the count of the nodes made. *)
Definition setup (e : CodeInput) (created : nat) : Outcome (CodeInput * nat) :=
  match textareaElement e with
  | Some _ => Done (e, created)
  | None =>
      match
        (run e <- addClass "code-input_registered" e in
         match template e with
         | None => Throw (PropertyOfNull "preElementStyled") e
         | Some (Registered t) =>
             run e <- (if preElementStyled t
                       then addClass "code-input_pre-element-styled" e
                       else Done e) in
             pluginEvt "beforeElementsAdded" [] e
         | Some (Inherited _) => pluginEvt "beforeElementsAdded" [] e
         end)
      with
      | Done e => withNodes (created + 3) (setup_build created e)
      | Throw err e => Throw err (e, created)
      | OutOfFuel => OutOfFuel
      end
  end.

(** The [lang] case of [attributeChangedCallback], from the point where
    the old value is read. *)
Definition langApply (oldValue newValue : option string) (e : CodeInput) : Outcome CodeInput :=
  match oldValue with
  | None => Throw (PropertyOfNull "toLowerCase") e
  | Some oldValue =>
      let oldValue := toLowerCase oldValue in
      run e <- onCode (Node.removeClass ("language-" +:+ oldValue)) e in
      run e <- onPre (Node.removeClass ("language-" +:+ oldValue)) e in
      run e <- onCode (Node.removeClass "language-none") e in
      run e <- onPre (Node.removeClass "language-none") e in
      run e <- match newValue with
               | Some nv =>
                   if String.eqb nv "" then Done e
                   else onCode (Node.addClass ("language-" +:+ nv)) e
               | None => Done e
               end in
      run e <- match textareaElement e with
               | None => Throw (PropertyOfNull "placeholder") e
               | Some mainTextarea =>
                   if String.eqb (Textarea.placeholder mainTextarea) oldValue
                   then Done (set_textareaElement e
                                (Some (Textarea.setPlaceholder (domString newValue) mainTextarea)))
                   else Done e
               end in
      update (_value e) e
  end.

(** The [lang] case of [attributeChangedCallback]. *)
Definition langChanged (oldValue newValue : option string) (e : CodeInput) : Outcome CodeInput :=
  match newValue with
  | Some newValue =>
      let newValue := toLowerCase newValue in
      match codeElement e with
      | None => Throw (PropertyOfNull "classList") e
      | Some code =>
          if classList_contains ("language-" +:+ newValue) (Node.classList code)
          then Done e
          else langApply oldValue (Some newValue) e
      end
  | None => langApply oldValue None e
  end.

(** The [default] case of [attributeChangedCallback]. *)
Definition syncAttribute (name : string) (newValue : option string) (e : CodeInput)
  : Outcome CodeInput :=
  let mirror (e : CodeInput) : Outcome CodeInput :=
    match textareaElement e with
    | None => Throw (PropertyOfNull "setAttribute") e
    | Some ta =>
        match newValue with
        | None => Done (set_textareaElement e (Some (Textarea.removeAttribute name ta)))
        | Some v => Done (set_textareaElement e (Some (Textarea.setAttribute name v ta)))
        end
    end in
  if listIncludes name textareaSyncAttributes then mirror e
  else
    fold_left
      (fun acc attribute =>
         run e <- acc in
         if matchWildcard attribute name then mirror e else Done e)
      textareaSyncAttributes_regexp (Done e).

(** [CodeInput.attributeChangedCallback]; [usedTemplates] and
    [defaultTemplate] are the ones of [codeInput] at the time of the call. *)
Definition attributeChangedCallback
  (usedTemplates : gmap string Template) (defaultTemplate : option string)
  (name : string) (oldValue newValue : option string) (e : CodeInput)
  : Outcome CodeInput :=
  if isConnected e then
    run e <- pluginEvt "attributeChanged" [Some name; oldValue; newValue] e in
    if String.eqb name "value" then setValue newValue e
    else if String.eqb name "placeholder" then
      match textareaElement e with
      | None => Throw (PropertyOfNull "placeholder") e
      | Some ta =>
          Done (set_textareaElement e
                  (Some (Textarea.setPlaceholder (domString newValue) ta)))
      end
    else if String.eqb name "template" then
      let e := set_template e
                 (propertyOf usedTemplates (keyOf (orElse newValue defaultTemplate))) in
      match template e with
      | None => Throw (PropertyOfNull "preElementStyled") e
      | Some (Registered t) =>
          run e <- (if preElementStyled t
                    then addClass "code-input_pre-element-styled" e
                    else removeClass "code-input_pre-element-styled" e) in
          update (_value e) e
      | Some (Inherited _) =>
          run e <- removeClass "code-input_pre-element-styled" e in
          update (_value e) e
      end
    else if String.eqb name "lang" then langChanged oldValue newValue e
    else syncAttribute name newValue e
  else Done e.

(** ** The registry and the document *)

(** A callback given to [codeInput.runOnceWindowLoaded]. *)
Inductive LoadCallback :=
| RunConnectedCallback (elem : nat)
    (** [(function(elem) { elem.connectedCallback(); }).bind(null, elem)] *)
| RunSetup (elem : nat).
    (** [() => { this.setup(); this.classList.add("code-input_loaded"); }] *)

(** The object [codeInput] and the document: the elements are held by
    identity, the registry and the queue refer to them by it. *)
Record World := mkWorld {
  usedTemplates : gmap string Template;
  defaultTemplate : option string;
  templateNotYetRegisteredQueue : gmap string (list nat);
  windowLoaded : bool;
  windowLoadListeners : list LoadCallback;
  elements : gmap nat CodeInput;
  createdNodes : nat
}.

Section WorldSetters.
Variable w : World.

Definition set_usedTemplates (v : gmap string Template) : World :=
  mkWorld v (defaultTemplate w) (templateNotYetRegisteredQueue w) (windowLoaded w)
    (windowLoadListeners w) (elements w) (createdNodes w).

Definition set_defaultTemplate (v : option string) : World :=
  mkWorld (usedTemplates w) v (templateNotYetRegisteredQueue w) (windowLoaded w)
    (windowLoadListeners w) (elements w) (createdNodes w).

Definition set_templateNotYetRegisteredQueue (v : gmap string (list nat)) : World :=
  mkWorld (usedTemplates w) (defaultTemplate w) v (windowLoaded w)
    (windowLoadListeners w) (elements w) (createdNodes w).

Definition set_windowLoaded (v : bool) : World :=
  mkWorld (usedTemplates w) (defaultTemplate w) (templateNotYetRegisteredQueue w) v
    (windowLoadListeners w) (elements w) (createdNodes w).

Definition set_windowLoadListeners (v : list LoadCallback) : World :=
  mkWorld (usedTemplates w) (defaultTemplate w) (templateNotYetRegisteredQueue w)
    (windowLoaded w) v (elements w) (createdNodes w).

Definition set_elements (v : gmap nat CodeInput) : World :=
  mkWorld (usedTemplates w) (defaultTemplate w) (templateNotYetRegisteredQueue w)
    (windowLoaded w) (windowLoadListeners w) v (createdNodes w).

Definition set_createdNodes (v : nat) : World :=
  mkWorld (usedTemplates w) (defaultTemplate w) (templateNotYetRegisteredQueue w)
    (windowLoaded w) (windowLoadListeners w) (elements w) v.
End WorldSetters.

(** [codeInput] as the script leaves it, in a document that holds
    [elems]. *)
Definition newWorld (elems : gmap nat CodeInput) : World :=
  mkWorld ∅ None ∅ false [] elems 0.

Definition storeElement (elem : nat) (e : CodeInput) (w : World) : World :=
  set_elements w (<[elem := e]> (elements w)).

(** A method of the element [elem], run in the world. *)
Definition onElement (elem : nat) (method : CodeInput -> Outcome CodeInput)
  (w : World) : Outcome World :=
  match elements w !! elem with
  | None => Done w
  | Some e =>
      match method e with
      | Done e' => Done (storeElement elem e' w)
      | Throw err e' => Throw err (storeElement elem e' w)
      | OutOfFuel => OutOfFuel
      end
  end.

(** [CodeInput.getTemplate]: the template, and the world with the element
    queued when there is none. *)
Definition getTemplate (elem : nat) (e : CodeInput) (w : World)
  : option TemplateObject * World :=
  let templateName :=
    match attributes e !! "template" with
    | None => defaultTemplate w
    | Some name => Some name
    end in
  let key := keyOf templateName in
  match propertyOf (usedTemplates w) key with
  | Some t => (Some t, w)
  | None =>
      let queue := templateNotYetRegisteredQueue w in
      (None,
       set_templateNotYetRegisteredQueue w
         (<[key := (default [] (queue !! key) ++ [elem])%list]> queue))
  end.

(** [this.setup()] for the element [elem]. *)
Definition setupElement (elem : nat) (w : World) : Outcome World :=
  match elements w !! elem with
  | None => Done w
  | Some e =>
      match setup e (createdNodes w) with
      | Done (e', created) => Done (set_createdNodes (storeElement elem e' w) created)
      | Throw err (e', created) =>
          Throw err (set_createdNodes (storeElement elem e' w) created)
      | OutOfFuel => OutOfFuel
      end
  end.

(** The callback that [connectedCallback] defers to the load of the window. *)
Definition runSetup (elem : nat) (w : World) : Outcome World :=
  run w <- setupElement elem w in
  onElement elem (addClass "code-input_loaded") w.

(** [codeInput.runOnceWindowLoaded]; [call] is what calling [callback]
    does. *)
Definition runOnceWindowLoaded (callback : LoadCallback) (call : World -> Outcome World)
  (w : World) : Outcome World :=
  if windowLoaded w then call w
  else Done (set_windowLoadListeners w (windowLoadListeners w ++ [callback])).

(** [CodeInput.connectedCallback] *)
Definition connectedCallback (elem : nat) (w : World) : Outcome World :=
  match elements w !! elem with
  | None => Done w
  | Some e =>
      let '(t, w) := getTemplate elem e w in
      let e := set_template e t in
      let w := storeElement elem e w in
      run w <- match t with
               | Some _ =>
                   run w <- onElement elem (addClass "code-input_registered") w in
                   runOnceWindowLoaded (RunSetup elem) (runSetup elem) w
               | None => Done w
               end in
      onElement elem (fun e => Done (set_observers e (S (observers e)))) w
  end.

(** [typeof v == "boolean" || v instanceof Boolean], with the truth value
    that a condition finds in [v]. *)
Definition asBoolean (v : JsVal) : option bool :=
  match v with
  | VBool b => Some b
  | VBoolObject _ => Some true
  | _ => None
  end.

(** The [forEach] over [template.plugins]. *)
Fixpoint checkPlugins (i : nat) (items : list JsVal) : Field + list Plugin :=
  match items with
  | [] => inr []
  | VPlugin p :: rest =>
      match checkPlugins (S i) rest with
      | inl field => inl field
      | inr ps => inr (p :: ps)
      end
  | _ :: _ => inl (FPluginAt i)
  end.

(** The checks at the head of [registerTemplate], in their order: the
    field of the first check that fails, or the template. *)
Definition checkTemplate (template : Descriptor.t) : Field + Template :=
  match Descriptor.highlight template with
  | VFunction highlightFn =>
      match asBoolean (Descriptor.includeCodeInputInHighlightFunc template) with
      | None => inl FIncludeCodeInputInHighlightFunc
      | Some withCodeInput =>
          match asBoolean (Descriptor.preElementStyled template) with
          | None => inl FPreElementStyled
          | Some preStyled =>
              match asBoolean (Descriptor.isCode template) with
              | None => inl FIsCode
              | Some code =>
                  match Descriptor.plugins template with
                  | VArray items =>
                      match checkPlugins 0 items with
                      | inl field => inl field
                      | inr ps =>
                          inr (mkTemplate highlightFn preStyled code withCodeInput ps)
                      end
                  | _ => inl FPlugins
                  end
              end
          end
      end
  | _ => inl FHighlight
  end.

(** The loop of [registerTemplate] over a queue entry, on the elements
    that the entry holds when the loop starts. *)
Fixpoint flushQueue (template : Template) (elems : list nat) (w : World) : Outcome World :=
  match elems with
  | [] => Done w
  | elem :: rest =>
      run w <- onElement elem
                 (fun e => Done (set_template e (Some (Registered template)))) w in
      run w <- runOnceWindowLoaded (RunConnectedCallback elem) (connectedCallback elem) w in
      flushQueue template rest w
  end.

(** [codeInput.registerTemplate], for a [templateName] that is a string,
    so that the first check passes, and is not [__proto__], so that the
    assignment to [usedTemplates] makes a property of it. *)
Definition registerTemplate (templateName : string) (template : Descriptor.t)
  (w : World) : Outcome World :=
  match checkTemplate template with
  | inl field => Throw (InvalidTemplate templateName field) w
  | inr template =>
      let w := set_usedTemplates w (<[templateName := template]> (usedTemplates w)) in
      run w <- match templateNotYetRegisteredQueue w !! templateName with
               | Some elems => flushQueue template elems w
               | None => Done w
               end in
      match defaultTemplate w with
      | None =>
          let w := set_defaultTemplate w (Some templateName) in
          match templateNotYetRegisteredQueue w !! keyOf None with
          | Some elems => flushQueue template elems w
          | None => Done w
          end
      | Some _ => Done w
      end
  end.




(** ** States of an element *)

(** The surfaces of an element: the nodes that [setup] creates. *)
Definition surfaces (e : CodeInput) : option nat * option nat * option nat :=
  (Textarea.node <$> textareaElement e, Node.node <$> preElement e,
   Node.node <$> codeElement e).

(** Active: the surfaces are built, the template is resolved to a
    registered one, and no [update] is in progress. *)
Record Active (e : CodeInput) : Prop := mkActive {
  active_textarea : is_Some (textareaElement e);
  active_pre : is_Some (preElement e);
  active_code : is_Some (codeElement e);
  active_template : exists t, template e = Some (Registered t);
  active_idle : ignoreValueUpdate e = false
}.

(** ** Notions used in the statements *)

(** The content that [update] writes into the [code] node before the
    template highlights it. *)
Definition displayCopy (T : string) : string :=
  escapeHtml T +:+ (if endsWithNewline T then " " else "").

Definition pluginEvents (t : Template) (eventName : string)
  (args : list (option string)) : list Event :=
  map (fun p => EvPlugin (pluginId p) eventName args) (plugins t).

(** The events of one render. *)
Definition renderEvents (t : Template) (T : string) : list Event :=
  pluginEvents t "beforeHighlight" []
  ++ [EvHighlight (displayCopy T) (includeCodeInputInHighlightFunc t)]
  ++ pluginEvents t "afterHighlight" [].



(** An element with the attributes [lang="js"] and [placeholder="py"],
    resolved to a template for code without plugins. *)
Definition plainTemplate : Template :=
  mkTemplate (fun content _ => content) true true false [].

Definition jsElement : CodeInput :=
  set_template (newCodeInput {[ "lang" := "js"; "placeholder" := "py" ]} "")
    (Some (Registered plainTemplate)).

(** The listener that a callback runs. *)
Definition callbackListener (cb : Callback) : option Listener :=
  match cb with
  | Internal _ => None
  | Bound b => Some (boundListener b)
  | Unbound l => Some l
  end.

(** The values of the calls of [update] that wait for ["code-input_load"],
    in the order of their registration. *)
Definition pendingAmong (rs : list Registration) : list string :=
  omap (fun r =>
          if String.eqb (regType r) "code-input_load" then
            match callbackListener (regCallback r) with
            | Some (DeferredUpdate value) => Some value
            | _ => None
            end
          else None) rs.

Definition pendingUpdates (e : CodeInput) : list string :=
  pendingAmong (listeners e).

(** The contents handed to the highlight function, in order. *)
Definition highlighted (events : list Event) : list string :=
  omap (fun ev => match ev with
                  | EvHighlight content _ => Some content
                  | _ => None
                  end) events.



(** A listener of the page. *)
Definition onInput : Listener := UserListener 1 "function onInput(evt) { }".

(** The end of [update], from the handling of a final line feed on. *)
Definition renderInto (value : string) (e : CodeInput) : Outcome CodeInput :=
  let value := if endsWithNewline value then value +:+ " " else value in
  run e <- match codeElement e with
           | None => Throw (PropertyOfNull "innerHTML") e
           | Some resultElement =>
               Done (set_codeElement e
                       (Some (Node.setInnerHTML (escapeHtml value) resultElement)))
           end in
  run e <- pluginEvt "beforeHighlight" [] e in
  run e <- match template e, codeElement e with
           | Some (Registered t), Some resultElement =>
               let withCodeInput := includeCodeInputInHighlightFunc t in
               let content := Node.innerHTML resultElement in
               let owner :=
                 if withCodeInput then Some (mkOwner (_value e) (attributes e))
                 else None in
               Done (set_log
                       (set_codeElement e
                          (Some (Node.setInnerHTML (highlight t content owner)
                                   resultElement)))
                       (log e ++ [EvHighlight content withCodeInput]))
           | Some (Inherited _), _ => Throw (NotAFunction "highlight") e
           | None, _ => Throw (PropertyOfNull "includeCodeInputInHighlightFunc") e
           | Some (Registered _), None => Throw (PropertyOfNull "innerHTML") e
           end in
  pluginEvt "afterHighlight" [] e.

(** The textarea [ta] once [update] has written [value] to it, which it
    does when the textarea does not give that value already. *)
Definition written (value : string) (ta : Textarea.t) : Textarea.t :=
  if String.eqb (Textarea.value ta) value then ta else Textarea.setValue value ta.

(** The element once [update] has stored [value] and written it to the
    textarea [ta]. *)
Definition valueStored (value : string) (ta : Textarea.t) (e : CodeInput) : CodeInput :=
  let e := set_ignoreValueUpdate (set__value (set_ignoreValueUpdate e true) value) false in
  if String.eqb (Textarea.value ta) value then e
  else set_textareaElement e (Some (Textarea.setValue value ta)).

(** What the methods of an element leave as it is: the attributes, the
    template, and the identity of the nodes that exist. *)
Record Frame (e e' : CodeInput) : Prop := mkFrame {
  frame_attributes : attributes e' = attributes e;
  frame_template : template e' = template e;
  frame_surfaces : surfaces e' = surfaces e
}.

(** An outcome that is not [OutOfFuel], with its final state. *)
Definition endsIn {S : Type} (o : Outcome S) (s : S) : Prop :=
  o = Done s \/ exists err, o = Throw err s.

(** [jsElement] once [setup] has run, and [setup] on an element without
    attributes. *)
Definition jsActive : CodeInput :=
  Eval vm_compute in
    match setup jsElement 0 with
    | Done (e, _) => e
    | _ => jsElement
    end.

(** The key under which [getTemplate] looks the template of [e] up. *)
Definition templateKey (w : World) (e : CodeInput) : string :=
  keyOf match attributes e !! "template" with
        | None => defaultTemplate w
        | Some name => Some name
        end.

(** What a call made for the element [elem] leaves of the world: the
    registry, the entries of the queue for registered names, and the other
    elements. *)
Record StepOn (elem : nat) (w w' : World) : Prop := mkStepOn {
  step_usedTemplates : usedTemplates w' = usedTemplates w;
  step_defaultTemplate : defaultTemplate w' = defaultTemplate w;
  step_windowLoaded : windowLoaded w' = windowLoaded w;
  step_queue : forall key : string,
    is_Some (usedTemplates w !! key) ->
    templateNotYetRegisteredQueue w' !! key = templateNotYetRegisteredQueue w !! key;
  step_others : forall other : nat,
    other <> elem -> elements w' !! other = elements w !! other
}.

(** All three nodes of the element exist. *)
Definition Built (e : CodeInput) : Prop :=
  is_Some (textareaElement e) /\ is_Some (preElement e) /\ is_Some (codeElement e).

(** The element [E] asks for the template [N] and waits for it: it has no
    surfaces yet. *)
Definition Waiting (N : string) (E : nat) (w : World) : Prop :=
  exists e,
    elements w !! E = Some e /\ attributes e !! "template" = Some N
    /\ ignoreValueUpdate e = false /\ textareaElement e = None.

(** The element [E] asks for the template [N] and is Active, with the
    nodes [s] as its surfaces. *)
Definition ActiveWith (N : string) (E : nat) (s : option nat * option nat * option nat)
  (w : World) : Prop :=
  exists e,
    elements w !! E = Some e /\ attributes e !! "template" = Some N
    /\ Active e /\ surfaces e = s.

(** One round of the loop of [registerTemplate]. *)
Definition flushStep (template : Template) (elem : nat) (k : World -> Outcome World)
  (w : World) : Outcome World :=
  run w <- onElement elem
             (fun e => Done (set_template e (Some (Registered template)))) w in
  run w <- runOnceWindowLoaded (RunConnectedCallback elem) (connectedCallback elem) w in
  k w.







(** A template object as [new codeInput.Template()] makes it, and a world
    with a loaded window in which the element 1 waits for the template
    ["X"]. *)
Definition plainDescriptor : Descriptor.t :=
  Descriptor.mk (VFunction (fun content _ => content)) (VBool true) (VBool true)
    (VBool false) (VArray []).

Definition waitingWorld : World :=
  Eval vm_compute in
    match connectedCallback 1
            (set_windowLoaded (newWorld {[ 1 := newCodeInput {[ "template" := "X" ]} "" ]})
               true) with
    | Done w => w
    | _ => newWorld ∅
    end.

(** The [lang] attribute of the element, when it has one, holds no white
    space, so that the class made of it is a token that a class list
    takes. *)
Definition langValid (e : CodeInput) : Prop :=
  forall l, attributes e !! "lang" = Some l -> hasWhitespace l = false.

(** The [template] attribute of the element, when it has one, is not a
    name that every object inherits. *)
Definition nameValid (e : CodeInput) : Prop :=
  forall n, attributes e !! "template" = Some n ->
            existsb (String.eqb n) inheritedKeys = false.

(** A world whose elements have a [lang] and a [template] attribute of
    that kind, and whose default template, when there is one, is
    registered. *)
Record Tame (w : World) : Prop := mkTame {
  tame_lang : forall i e, elements w !! i = Some e -> langValid e;
  tame_name : forall i e, elements w !! i = Some e -> nameValid e;
  tame_default : forall d, defaultTemplate w = Some d -> is_Some (usedTemplates w !! d)
}.



(** What [connectedCallback] needs to set the element [elem] up, when it
    has no textarea yet: a [lang] that makes a class, and a template name
    that is not a key every object inherits. *)
Definition canSetUp (elem : nat) (w : World) : Prop :=
  forall e, elements w !! elem = Some e -> textareaElement e = None ->
    langValid e
    /\ forall key, propertyOf (usedTemplates w) (templateKey w e) <> Some (Inherited key).

(** The same conditions as a test, for a world that is given. *)
Definition langValidb (e : CodeInput) : bool :=
  match attributes e !! "lang" with
  | Some l => negb (hasWhitespace l)
  | None => true
  end.

Definition nameValidb (e : CodeInput) : bool :=
  match attributes e !! "template" with
  | Some n => negb (existsb (String.eqb n) inheritedKeys)
  | None => true
  end.

Definition tameb (w : World) : bool :=
  forallb (fun ie : nat * CodeInput => langValidb ie.2 && nameValidb ie.2)
    (map_to_list (elements w))
  && match defaultTemplate w with
     | Some d => match usedTemplates w !! d with Some _ => true | None => false end
     | None => true
     end.


(** ** More of the element: mutation records *)

(** A [MutationRecord]: its type, the name of the attribute and the value
    that the attribute had before. *)
Record MutationRecord := mkMutation {
  mutationType : string;
  attributeName : string;
  mutationOldValue : option string
}.

(** [codeInput.observedAttributes] as the script leaves it: the four
    names it declares followed by the declared names of [textareaSyncAttributes],
    with the names that hold a [*] moved to its [regexp] property. *)
Definition observedAttributes_declared : list string :=
  (["value"; "placeholder"; "lang"; "template"] ++ textareaSyncAttributes_declared)%list.

Definition observedAttributes : list string :=
  fst (arrayWildcards2regex observedAttributes_declared).

Definition observedAttributes_regexp : list Wildcard :=
  snd (arrayWildcards2regex observedAttributes_declared).

(** The name holds at most one [*]. *)
Definition atMostOneStar (name : string) : bool :=
  match splitStar name with
  | Some (_, rest) => negb (includes "*" rest)
  | None => true
  end.

(** The constructor of [codeInput.Plugin], on the two lists it extends:
    a name without [*] goes to [observedAttributes], a name with one goes
    to its [regexp] property. *)
Definition newPlugin (pluginAttributes : list string)
  (observed : list string * list Wildcard) : list string * list Wildcard :=
  fold_left
    (fun lists attribute =>
       match wildcard2regex attribute with
       | None => ((fst lists ++ [attribute])%list, snd lists)
       | Some reg => (fst lists, (snd lists ++ [reg])%list)
       end)
    pluginAttributes observed.

(** Is a change of the attribute [name] reported to the element? *)
Definition isObserved (observed : list string * list Wildcard) (name : string) : bool :=
  listIncludes name (fst observed) || existsb (fun reg => matchWildcard reg name) (snd observed).

(** [CodeInput.mutationObserverCallback]: the first record of an observed
    attribute is handed to [attributeChangedCallback] and the method
    returns. *)
Fixpoint mutationObserverCallback
  (usedTemplates : gmap string Template) (defaultTemplate : option string)
  (observed : list string * list Wildcard)
  (mutationList : list MutationRecord) (e : CodeInput) : Outcome CodeInput :=
  match mutationList with
  | [] => Done e
  | mutation :: rest =>
      if negb (String.eqb (mutationType mutation) "attributes")
      then mutationObserverCallback usedTemplates defaultTemplate observed rest e
      else if isObserved observed (attributeName mutation)
      then attributeChangedCallback usedTemplates defaultTemplate
             (attributeName mutation) (mutationOldValue mutation)
             (attributes e !! attributeName mutation) e
      else mutationObserverCallback usedTemplates defaultTemplate observed rest e
  end.

(** Is [name] one of the attributes that the element mirrors on its
    textarea: a name of [textareaSyncAttributes], or a match of one of its
    wildcards? *)
Definition isSynced (name : string) : bool :=
  isObserved (textareaSyncAttributes, textareaSyncAttributes_regexp) name.

(** [getAttribute(name)] on a node, after [attrs] was copied over the
    attributes it had. *)
Definition copiedOver (attrs : gmap string string) (ta : Textarea.t) (name : string)
  : option string :=
  match attrs !! name with
  | Some v => Some v
  | None => Textarea.attributes ta !! name
  end.

(** The bound functions among the registrations [rs] were made before the
    count of bound functions reached [n]. *)
Definition madeBefore (n : nat) (rs : list Registration) : Prop :=
  Forall (fun r => match regCallback r with
                   | Bound b => boundId b < n
                   | _ => True
                   end) rs.

(** The value that [setup] starts from: the content of the element once
    unescaped, or else its [value] attribute, or else the empty string. *)
Definition initialValueOf (e : CodeInput) : string :=
  let content := unescapeHtml (innerHTML e) in
  if String.eqb content "" then default "" (attributes e !! "value") else content.

(** The two listeners that [setup] installs on the textarea. *)
Definition setupListeners : list Registration :=
  [ mkRegistration "input" (Internal "input") false;
    mkRegistration "scroll" (Internal "scroll") false ].

(** The element is emptied, its textarea holds [content] as its content
    and shows the value of the element, with the line breaks as a
    textarea gives them. *)
Definition showsContent (content : string) (x : CodeInput) : Prop :=
  innerHTML x = ""
  /\ exists ta, textareaElement x = Some ta
                /\ Textarea.innerHTML ta = content
                /\ Textarea.value ta = normalizeNewlines (_value x).


(** A record that [mutationObserverCallback] passes over: it is not of an
    attribute, or its attribute is not observed. *)
Definition passedOver (observed : list string * list Wildcard)
  (mutation : MutationRecord) : Prop :=
  mutationType mutation <> "attributes"
  \/ isObserved observed (attributeName mutation) = false.

(** The element [E] has no [template] attribute and no surfaces yet. *)
Definition WaitingDefault (E : nat) (w : World) : Prop :=
  exists e,
    elements w !! E = Some e /\ attributes e !! "template" = None
    /\ ignoreValueUpdate e = false /\ textareaElement e = None.

(** The element [E] has no [template] attribute and is Active with the
    template [t]. *)
Definition ActiveDefault (t : Template) (E : nat) (w : World) : Prop :=
  exists e,
    elements w !! E = Some e /\ attributes e !! "template" = None
    /\ Active e /\ template e = Some (Registered t).

(** A world in which ["X"] is registered and is the default, with the
    Active element 1. *)
Definition registeredWorld : World :=
  mkWorld {[ "X" := plainTemplate ]} (Some "X") ∅ true [] {[ 1 := jsActive ]} 3.

(** A world with a loaded window in which the element 1, without
    [template] attribute, was connected before any template was
    registered. *)
Definition defaultWaitingWorld : World :=
  Eval vm_compute in
    match connectedCallback 1
            (set_windowLoaded (newWorld {[ 1 := newCodeInput ∅ "a &lt; b" ]}) true) with
    | Done w => w
    | _ => newWorld ∅
    end.


(** ** The templates that the library offers *)

(** The double quote character. *)
Definition quote : string := String "034" EmptyString.

(** An index of [String.prototype.slice], from the integer that the
    argument converts to: a negative index counts from the end, and the
    result is kept within the string. *)
Definition sliceIndex (len : nat) (i : Z) : nat :=
  if (i <? 0)%Z then Z.to_nat (Z.max (Z.of_nat len + i) 0)
  else Nat.min (Z.to_nat i) len.

(** [s.slice(start, end)]; [end] is [None] when it is left out. *)
Definition slice (start : Z) (end_ : option Z) (s : string) : string :=
  let len := String.length s in
  let from := sliceIndex len start in
  let to := match end_ with
            | None => len
            | Some i => sliceIndex len i
            end in
  if (to <=? from)%nat then EmptyString else substring from (to - from) s.

(** What the highlight function of [codeInput.templates.characterLimit]
    assigns first to [resultElement.innerHTML], and the message that it
    appends when the overflow is not empty.  [characterLimit] is the
    integer that [slice] makes of
    [Number(codeInput.getAttribute("data-character-limit"))], and
    [overflowMsg] is the attribute [data-overflow-msg]. *)
Definition characterLimitMarkup (characterLimit : Z) (value : string) : string :=
  let normalCharacters := escapeHtml (slice 0 (Some characterLimit) value) in
  let overflowCharacters := escapeHtml (slice characterLimit None value) in
  normalCharacters +:+ "<mark class=" +:+ quote +:+ "overflow" +:+ quote +:+ ">"
  +:+ overflowCharacters +:+ "</mark>".

Definition characterLimitMessage (overflowMsg : option string) : string :=
  " <mark class=" +:+ quote +:+ "overflow-msg" +:+ quote +:+ ">"
  +:+ default "" (orElse overflowMsg (Some "(Character limit reached)"))
  +:+ "</mark>".

(** The highlight function of [codeInput.templates.characterLimit], on
    the element it is given.  [number] stands for the conversion of the
    attribute to the integer that [slice] takes, and [serialize] for the
    reading back of [resultElement.innerHTML] that [+=] makes before it
    appends the message. *)
Definition characterLimitHighlight (number : option string -> Z)
  (serialize : string -> string) (codeInput : Owner) : string :=
  let characterLimit := number (ownerAttributes codeInput !! "data-character-limit") in
  let value := ownerValue codeInput in
  let html := characterLimitMarkup characterLimit value in
  if (0 <? String.length (escapeHtml (slice characterLimit None value)))%nat
  then serialize html
       +:+ characterLimitMessage (ownerAttributes codeInput !! "data-overflow-msg")
  else html.

(** [Number] on the attribute values of the examples: ["3"] gives 3; a
    missing attribute, [null], gives 0. *)
Definition limitOfThree (v : option string) : Z :=
  match v with
  | Some s => if String.eqb s "3" then 3%Z else 0%Z
  | None => 0%Z
  end.

(** A parameter with the default value [[]]: the default is taken when
    the argument is [undefined]. *)
Definition pluginsOrEmpty (plugins : JsVal) : JsVal :=
  match plugins with
  | VUndefined => VArray []
  | _ => plugins
  end.

Module templates.

(** [codeInput.templates.prism(prism, plugins = [])]; [highlightElement]
    is [prism.highlightElement]. *)
Definition prism (highlightElement : JsVal) (plugins : JsVal) : Descriptor.t :=
  Descriptor.mk highlightElement (VBool true) (VBool true) (VBool false)
    (pluginsOrEmpty plugins).

(** [codeInput.templates.hljs(hljs, plugins = [])] *)
Definition hljs (highlightElement : JsVal) (plugins : JsVal) : Descriptor.t :=
  Descriptor.mk highlightElement (VBool false) (VBool true) (VBool false)
    (pluginsOrEmpty plugins).

(** [codeInput.templates.characterLimit(plugins)]; the highlight
    function is called with the element, as the template asks. *)
Definition characterLimit (number : option string -> Z) (serialize : string -> string)
  (plugins : JsVal) : Descriptor.t :=
  Descriptor.mk
    (VFunction (fun content codeInput =>
                  match codeInput with
                  | Some codeInput => characterLimitHighlight number serialize codeInput
                  | None => content
                  end))
    (VBool true) (VBool false) (VBool true) plugins.

(** [codeInput.templates.character_limit()] *)
Definition character_limit (number : option string -> Z) (serialize : string -> string)
  : Descriptor.t :=
  characterLimit number serialize (VArray []).

End templates.

(** The first [n] characters of a string. *)
Fixpoint takeChars (n : nat) (s : string) : string :=
  match n, s with
  | S k, String c s' => String c (takeChars k s')
  | _, _ => EmptyString
  end.

(** ** Escaping and unescaping *)

Section Escaping.

Lemma append_nil_r (s : string) : s +:+ "" = s.
Proof. induction s; simpl; congruence. Qed.

Lemma append_assoc (a b c : string) : (a +:+ b) +:+ c = a +:+ (b +:+ c).
Proof. induction a; simpl; congruence. Qed.

Lemma flatMap_app f (a b : string) :
  flatMap f (a +:+ b) = flatMap f a +:+ flatMap f b.
Proof.
  induction a as [|c a IH]; simpl; [reflexivity|].
  now rewrite IH, append_assoc.
Qed.

(** Replacing a one-character pattern works character by character. *)
Lemma replaceAll_char (a : ascii) (rep s : string) :
  replaceAll (String a "") rep s
  = flatMap (fun c => if Ascii.eqb c a then rep else String c "") s.
Proof.
  unfold replaceAll.
  induction s as [|c s IH]; simpl; [reflexivity|].
  destruct (Ascii.eqb c a); simpl; now rewrite IH.
Qed.

Lemma escapeHtml_flatMap (text : string) :
  escapeHtml text = flatMap escapeChar text.
Proof.
  unfold escapeHtml. rewrite !replaceAll_char.
  induction text as [|c text IH]; [reflexivity|].
  cbn [flatMap]. unfold escapeChar at 1.
  destruct (Ascii.eqb c "&") eqn:Eamp.
  - rewrite flatMap_app, IH. reflexivity.
  - simpl. rewrite IH. destruct (Ascii.eqb c "<"); reflexivity.
Qed.

Lemma unescape_amp (text : string) :
  replaceAll "&amp;" "&" (flatMap escapeChar text) = flatMap ltChar text.
Proof.
  unfold replaceAll.
  induction text as [|c text IH]; [reflexivity|].
  cbn [flatMap]. unfold escapeChar at 1, ltChar at 1.
  destruct (Ascii.eqb c "&") eqn:Eamp.
  - apply Ascii.eqb_eq in Eamp. subst c. simpl. now rewrite IH.
  - destruct (Ascii.eqb c "<") eqn:Elt; simpl.
    + now rewrite IH.
    + rewrite Eamp. now rewrite IH.
Qed.

(** A pattern free of [&] and [<] is found at the head of a text exactly
    when it is found at the head of its image under [ltChar]. *)
Lemma startsWith_ltChar (pat s : string) :
  includes "&" pat = false -> includes "<" pat = false ->
  startsWith pat (flatMap ltChar s) = startsWith pat s.
Proof.
  revert s. induction pat as [|a pat IH]; intros s Hamp Hlt; [reflexivity|].
  simpl in Hamp, Hlt.
  destruct (Ascii.eqb a "&") eqn:Ea; [discriminate|].
  destruct (Ascii.eqb a "<") eqn:Eb; [discriminate|].
  simpl in Hamp, Hlt.
  destruct s as [|c s]; [reflexivity|].
  cbn [flatMap]. unfold ltChar at 1.
  destruct (Ascii.eqb c "<") eqn:Ec.
  - apply Ascii.eqb_eq in Ec. subst c. cbn [String.append startsWith].
    rewrite (Ascii.eqb_sym "&" a), Ea, (Ascii.eqb_sym "<" a), Eb.
    reflexivity.
  - cbn [String.append startsWith]. destruct (Ascii.eqb c a); [|reflexivity].
    apply IH; assumption.
Qed.

Lemma unescape_lt (text : string) :
  includes "&lt;" text = false ->
  replaceAll "&lt;" "<" (flatMap ltChar text) = text.
Proof.
  unfold replaceAll.
  induction text as [|c text IH]; intros Hin; [reflexivity|].
  cbn [includes] in Hin. apply orb_false_iff in Hin as [Hhead Htail].
  specialize (IH Htail).
  cbn [flatMap]. unfold ltChar at 1.
  destruct (Ascii.eqb c "<") eqn:Ec.
  - apply Ascii.eqb_eq in Ec. subst c. simpl. now rewrite IH.
  - cbn [String.append replaceAll_from].
    replace (startsWith "&lt;" (String c (flatMap ltChar text)))
      with (startsWith "&lt;" (String c text)).
    + rewrite Hhead. now rewrite IH.
    + cbn [startsWith]. destruct (Ascii.eqb c "&"); [|reflexivity].
      symmetry. apply (startsWith_ltChar "lt;"); reflexivity.
Qed.

(** A text without the pattern is left as it is. *)
Lemma replaceAll_absent (pat rep s : string) :
  includes pat s = false -> replaceAll pat rep s = s.
Proof.
  unfold replaceAll.
  induction s as [|c s IH]; intros Hin; [reflexivity|].
  cbn [includes] in Hin. apply orb_false_iff in Hin as [Hhead Htail].
  cbn [replaceAll_from]. rewrite Hhead. now rewrite IH.
Qed.

Lemma unescape_escape (text : string) :
  includes "&lt;" text = false -> includes "&gt;" text = false ->
  unescapeHtml (escapeHtml text) = text.
Proof.
  intros Hlt Hgt. unfold unescapeHtml.
  rewrite escapeHtml_flatMap, unescape_amp, (unescape_lt _ Hlt).
  now apply replaceAll_absent.
Qed.

(** A space is not escaped, so it may be appended before or after. *)
Lemma escapeHtml_app (a b : string) :
  escapeHtml (a +:+ b) = escapeHtml a +:+ escapeHtml b.
Proof. rewrite !escapeHtml_flatMap. apply flatMap_app. Qed.

End Escaping.

(** C2. A text that holds none of the entities [&amp;], [&lt;], [&gt;] is
    given back by [unescapeHtml] after [escapeHtml]; [escapeHtml] rewrites
    each [&] into [&amp;] and each [<] into [&lt;] and leaves every other
    character, [>] included, as it is; [unescapeHtml] also turns [&gt;]
    into [>]. *)
Theorem escape_unescape_roundtrip :
  (forall T : string,
      includes "&amp;" T = false ->
      includes "&lt;" T = false ->
      includes "&gt;" T = false ->
      unescapeHtml (escapeHtml T) = T)
  /\ (forall T : string, escapeHtml T = flatMap escapeChar T)
  /\ escapeChar "&" = "&amp;"
  /\ escapeChar "<" = "&lt;"
  /\ (forall c : ascii, c <> "&"%char -> c <> "<"%char ->
        escapeChar c = String c EmptyString)
  /\ escapeHtml ">" = ">"
  /\ unescapeHtml "&gt;" = ">".
Proof.
  split; [|split; [|split; [|split; [|split; [|split]]]]].
  - intros T _ Hlt Hgt. now apply unescape_escape.
  - apply escapeHtml_flatMap.
  - reflexivity.
  - reflexivity.
  - intros c Hamp Hlt. unfold escapeChar.
    destruct (Ascii.eqb c "&") eqn:E1; [apply Ascii.eqb_eq in E1; contradiction|].
    destruct (Ascii.eqb c "<") eqn:E2; [apply Ascii.eqb_eq in E2; contradiction|].
    reflexivity.
  - reflexivity.
  - reflexivity.
Qed.

Lemma escape_unescape_roundtrip_witness :
  includes "&amp;" "if (a<b && c>d) {}" = false
  /\ includes "&lt;" "if (a<b && c>d) {}" = false
  /\ includes "&gt;" "if (a<b && c>d) {}" = false
  /\ unescapeHtml (escapeHtml "if (a<b && c>d) {}") = "if (a<b && c>d) {}"
  /\ escapeChar ">" = ">".
Proof.
  split; [reflexivity|]. split; [reflexivity|]. split; [reflexivity|]. split.
  - apply (proj1 escape_unescape_roundtrip); reflexivity.
  - apply (proj1 (proj2 (proj2 (proj2 (proj2 escape_unescape_roundtrip)))));
      discriminate.
Defined.

(** * Proofs *)

(** Reduction of the projections of an element applied to its setters. *)
Ltac fields :=
  cbn [attributes innerHTML classList isConnected _value textareaElement
       preElement codeElement template ignoreValueUpdate initialValue
       boundEventCallbacks listeners observers binds log
       set_innerHTML set_classList set__value set_textareaElement set_preElement
       set_codeElement set_template set_ignoreValueUpdate set_initialValue
       set_boundEventCallbacks set_listeners set_observers set_binds set_log
       andThen].


(** ** The value of a textarea *)

Section Newlines.

Lemma normalizeNewlines_from_no_CR (afterCR : bool) (s : string) :
  hasCarriageReturn (normalizeNewlines_from afterCR s) = false.
Proof.
  unfold hasCarriageReturn. revert afterCR.
  induction s as [|c s IH]; intros afterCR; [reflexivity|].
  cbn [normalizeNewlines_from].
  destruct (Ascii.eqb c "013") eqn:Hc.
  - cbn [includes startsWith Ascii.eqb Bool.eqb andb orb]. apply IH.
  - destruct (Ascii.eqb c "010" && afterCR); [apply IH|].
    cbn [includes startsWith]. rewrite Hc. cbn [orb]. apply IH.
Qed.

Lemma normalizeNewlines_id (s : string) :
  hasCarriageReturn s = false -> normalizeNewlines s = s.
Proof.
  unfold hasCarriageReturn, normalizeNewlines.
  induction s as [|c s IH]; [reflexivity|].
  cbn [includes startsWith normalizeNewlines_from].
  destruct (Ascii.eqb c "013"); [discriminate|].
  cbn [orb]. intros H. rewrite andb_false_r. now rewrite IH.
Qed.

Lemma normalizeNewlines_idem (s : string) :
  normalizeNewlines (normalizeNewlines s) = normalizeNewlines s.
Proof. apply normalizeNewlines_id, normalizeNewlines_from_no_CR. Qed.

(** What [update] leaves of the textarea it writes to. *)
Lemma written_value (T : string) (ta : Textarea.t) :
  Textarea.value (written T ta) = normalizeNewlines T.
Proof.
  unfold written.
  destruct (String.eqb (Textarea.value ta) T) eqn:Ev; [|reflexivity].
  apply String.eqb_eq in Ev. rewrite <- Ev.
  unfold Textarea.value. now rewrite normalizeNewlines_idem.
Qed.

Lemma written_rest (T : string) (ta : Textarea.t) :
  Textarea.node (written T ta) = Textarea.node ta
  /\ Textarea.innerHTML (written T ta) = Textarea.innerHTML ta
  /\ Textarea.attributes (written T ta) = Textarea.attributes ta
  /\ Textarea.listeners (written T ta) = Textarea.listeners ta
  /\ Textarea.placeholder (written T ta) = Textarea.placeholder ta.
Proof.
  unfold written. destruct (String.eqb (Textarea.value ta) T); repeat split.
Qed.

End Newlines.

(** ** Rendering *)

Section Rendering.

Lemma displayCopy_eq (T : string) :
  escapeHtml (if endsWithNewline T then T +:+ " " else T) = displayCopy T.
Proof.
  unfold displayCopy. destruct (endsWithNewline T).
  - now rewrite escapeHtml_app.
  - now rewrite append_nil_r.
Qed.

(** The call of [update] made by the setter inside [update] returns at
    once. *)
Lemma setValue_nested (T : string) (e : CodeInput) :
  ignoreValueUpdate e = true ->
  setValue_with (update_fuel 1) (Some T) e = Done (set__value e T).
Proof.
  intros H. unfold setValue_with. cbn [default update_fuel].
  unfold update_body. cbn [ignoreValueUpdate set__value]. now rewrite H.
Qed.

Lemma update_ignored (T : string) (e : CodeInput) :
  ignoreValueUpdate e = true -> update T e = Done e.
Proof.
  intros Hflag. unfold update. cbn [update_fuel]. unfold update_body at 1.
  now rewrite Hflag.
Qed.

(** [update] before the surfaces exist registers a deferred call. *)
Lemma update_deferred (T : string) (e : CodeInput) :
  textareaElement e = None -> ignoreValueUpdate e = false ->
  update T e
  = Done (set_listeners
            (set_boundEventCallbacks (set_binds e (S (binds e)))
               (<[sourceText (DeferredUpdate T) := Bind (binds e) (DeferredUpdate T)]>
                  (boundEventCallbacks e)))
            (eventTarget_add "code-input_load"
               (Bound (Bind (binds e) (DeferredUpdate T))) None (listeners e))).
Proof.
  intros Hta Hflag.
  unfold update. cbn [update_fuel]. unfold update_body at 1.
  rewrite Hflag, Hta. reflexivity.
Qed.

(** [update] once the surfaces exist. *)
Lemma update_surfaces (T : string) (e : CodeInput) ta :
  textareaElement e = Some ta -> ignoreValueUpdate e = false ->
  update T e = renderInto T (valueStored T ta e).
Proof.
  intros Hta Hflag.
  unfold update. cbn [update_fuel]. unfold update_body at 1.
  rewrite Hflag, Hta.
  rewrite setValue_nested by reflexivity.
  cbn [andThen textareaElement set_ignoreValueUpdate set__value].
  rewrite Hta. unfold valueStored.
  destruct (String.eqb (Textarea.value ta) T); reflexivity.
Qed.

Lemma valueStored_textarea (T : string) (e : CodeInput) ta :
  textareaElement e = Some ta ->
  textareaElement (valueStored T ta e) = Some (written T ta).
Proof.
  intros Hta. unfold valueStored, written.
  destruct (String.eqb (Textarea.value ta) T); [|reflexivity].
  cbn. exact Hta.
Qed.

Lemma valueStored_fields (T : string) (e : CodeInput) ta :
  _value (valueStored T ta e) = T
  /\ ignoreValueUpdate (valueStored T ta e) = false
  /\ codeElement (valueStored T ta e) = codeElement e
  /\ preElement (valueStored T ta e) = preElement e
  /\ template (valueStored T ta e) = template e
  /\ log (valueStored T ta e) = log e
  /\ attributes (valueStored T ta e) = attributes e
  /\ listeners (valueStored T ta e) = listeners e
  /\ classList (valueStored T ta e) = classList e
  /\ binds (valueStored T ta e) = binds e.
Proof.
  unfold valueStored.
  destruct (String.eqb (Textarea.value ta) T); repeat split.
Qed.

(** The render itself, when the [code] node and the template are there. *)
Lemma renderInto_done (T : string) (e : CodeInput) code t :
  codeElement e = Some code -> template e = Some (Registered t) ->
  renderInto T e
  = Done (set_log
            (set_codeElement e
               (Some (Node.setInnerHTML
                        (highlight t (displayCopy T)
                           (if includeCodeInputInHighlightFunc t
                            then Some (mkOwner (_value e) (attributes e)) else None))
                        code)))
            (log e ++ renderEvents t T)).
Proof.
  intros Hcode Ht. unfold renderInto.
  rewrite Hcode. cbn [andThen]. unfold pluginEvt at 1.
  cbn [template set_codeElement]. rewrite Ht. cbn [andThen].
  cbn [template codeElement set_log set_codeElement]. rewrite Ht.
  cbn [andThen]. unfold pluginEvt.
  cbn [template codeElement set_log set_codeElement]. rewrite Ht.
  cbn [log set_log set_codeElement Node.innerHTML Node.setInnerHTML
       Node.node Node.tagName Node.classList Node.attributes _value].
  rewrite displayCopy_eq.
  unfold renderEvents, pluginEvents. rewrite <- !app_assoc.
  reflexivity.
Qed.

(** [update] on an element whose surfaces exist. *)
Lemma update_render (T : string) (e : CodeInput) ta code t :
  textareaElement e = Some ta -> codeElement e = Some code ->
  template e = Some (Registered t) -> ignoreValueUpdate e = false ->
  exists e',
    update T e = Done e'
    /\ _value e' = T
    /\ textareaElement e' = Some (written T ta)
    /\ codeElement e'
       = Some (Node.setInnerHTML
                 (highlight t (displayCopy T)
                    (if includeCodeInputInHighlightFunc t
                     then Some (mkOwner T (attributes e)) else None))
                 code)
    /\ log e' = (log e ++ renderEvents t T)%list
    /\ template e' = Some (Registered t)
    /\ ignoreValueUpdate e' = false
    /\ preElement e' = preElement e
    /\ attributes e' = attributes e
    /\ listeners e' = listeners e
    /\ classList e' = classList e
    /\ binds e' = binds e.
Proof.
  intros Hta Hcode Ht Hflag.
  rewrite (update_surfaces T e ta Hta Hflag).
  destruct (valueStored_fields T e ta)
    as (Hv & Hf & Hc & Hp & Htt & Hl & Ha & Hls & Hcl & Hb).
  rewrite (renderInto_done T _ code t) by congruence.
  eexists. split; [reflexivity|].
  cbn [_value textareaElement codeElement log template ignoreValueUpdate
       preElement attributes listeners classList binds set_log set_codeElement].
  rewrite Hv, Hl, Hf, Hp, Ha, Hls, Hcl, Hb, Htt.
  rewrite (valueStored_textarea T e ta Hta).
  repeat split; assumption.
Qed.

Lemma Frame_refl (e : CodeInput) : Frame e e.
Proof. now split. Qed.

Lemma Frame_trans (a b c : CodeInput) : Frame a b -> Frame b c -> Frame a c.
Proof. intros [H1 H2 H3] [H4 H5 H6]. split; congruence. Qed.




(** Two units of fuel are enough: more fuel gives the same result. *)
Lemma addEventListener_fuel_enough (n : nat) type l o e :
  addEventListener_fuel (S (S n)) type l o e = addEventListener type l o e.
Proof.
  unfold addEventListener. cbn [addEventListener_fuel].
  unfold addEventListener_body at 1 3.
  destruct (listIncludes type textareaSyncEvents); [|reflexivity].
  cbn [textareaElement set_boundEventCallbacks set_binds].
  destruct (textareaElement e); reflexivity.
Qed.

Lemma update_fuel_enough (n : nat) (T : string) (e : CodeInput) :
  update_fuel (S (S n)) T e = update T e.
Proof.
  unfold update. cbn [update_fuel]. unfold update_body at 1 3.
  destruct (ignoreValueUpdate e) eqn:Hflag; [reflexivity|].
  destruct (textareaElement e) eqn:Hta; [|reflexivity].
  unfold setValue_with. unfold update_body at 1 2. reflexivity.
Qed.

End Rendering.

(** C1 as stated fails for a text that holds a carriage return: the
    textarea gives its value with the line breaks normalised, so after
    [update] of the letter [a] followed by a carriage return it gives
    the letter followed by a line feed, while the element keeps the text
    as it was given; and as [update] tests for a line feed, the display
    copy of this text, which ends with a line terminator, gets no space. *)
Lemma carriage_return_not_kept :
  Active jsActive
  /\ exists e',
       update ("a" +:+ String "013" "") jsActive = Done e'
       /\ getValue e' = "a" +:+ String "013" ""
       /\ Textarea.value <$> textareaElement e' = Some ("a" +:+ String "010" "")
       /\ Textarea.value <$> textareaElement e' <> Some ("a" +:+ String "013" "")
       /\ highlighted (log e') = [""; "a" +:+ String "013" ""].
Proof.
  split; [split; cbn; eauto|].
  eexists. split; [vm_compute; reflexivity|].
  split; [vm_compute; reflexivity|]. split; [vm_compute; reflexivity|].
  split; [vm_compute; discriminate|vm_compute; reflexivity].
Qed.

(** C1, amended. On an Active element, [update T] ends with the value of
    the element equal to [T]; the textarea gives [T] with its line breaks
    normalised, which is [T] itself when [T] holds no carriage return;
    and the content handed to the highlight function is [escapeHtml T],
    followed by one space exactly when [T] ends with a line feed. *)
Theorem update_value_and_display (T : string) (e : CodeInput) :
  Active e ->
  exists e' t,
    template e = Some (Registered t)
    /\ update T e = Done e'
    /\ getValue e' = T
    /\ Textarea.value <$> textareaElement e' = Some (normalizeNewlines T)
    /\ (hasCarriageReturn T = false ->
        Textarea.value <$> textareaElement e' = Some T)
    /\ log e'
       = (log e
          ++ pluginEvents t "beforeHighlight" []
          ++ [EvHighlight
                (escapeHtml T +:+ (if endsWithNewline T then " " else ""))
                (includeCodeInputInHighlightFunc t)]
          ++ pluginEvents t "afterHighlight" [])%list
    /\ Active e'.
Proof.
  intros [[ta Hta] [pre Hpre] [code Hcode] [t Ht] Hflag].
  destruct (update_render T e ta code t Hta Hcode Ht Hflag)
    as (e' & Hupd & Hval & Hta' & Hcode' & Hlog & Ht' & Hflag' & Hpre' & _).
  assert (Hshown : Textarea.value <$> textareaElement e' = Some (normalizeNewlines T)).
  { rewrite Hta'. cbn [fmap option_fmap option_map]. now rewrite written_value. }
  exists e', t.
  split; [assumption|]. split; [assumption|]. split; [assumption|].
  split; [exact Hshown|].
  split; [intros HT; rewrite Hshown; now rewrite normalizeNewlines_id|].
  split; [assumption|].
  split; [rewrite Hta'|rewrite Hpre', Hpre|rewrite Hcode'|rewrite Ht'|assumption];
    eauto.
Qed.

Lemma update_value_and_display_witness :
  exists e1 e',
    setup jsElement 0 = Done (e1, 3)
    /\ update ("if (a < b) {" +:+ String "010" "") e1 = Done e'
    /\ getValue e' = "if (a < b) {" +:+ String "010" ""
    /\ Textarea.value <$> textareaElement e' = Some ("if (a < b) {" +:+ String "010" "")
    /\ highlighted (log e') = [""; "if (a &lt; b) {" +:+ String "010" " "].
Proof.
  destruct (setup jsElement 0) as [[e1 n]| |] eqn:Hsetup;
    [|vm_compute in Hsetup; discriminate..].
  assert (Hn : n = 3) by (vm_compute in Hsetup; congruence). subst n.
  assert (He1 : Active e1 /\ log e1 = [EvHighlight "" false]
                /\ template e1 = Some (Registered plainTemplate)).
  { vm_compute in Hsetup. injection Hsetup as <-.
    split; [split; cbn; eauto|]. split; reflexivity. }
  destruct He1 as (Hact & Hlog1 & Ht1).
  destruct (update_value_and_display ("if (a < b) {" +:+ String "010" "") e1 Hact)
    as (e' & t & Ht & Hupd & Hval & _ & Hta & Hlog & _).
  exists e1, e'. split; [reflexivity|]. split; [exact Hupd|].
  split; [exact Hval|]. split; [exact (Hta eq_refl)|].
  rewrite Hlog, Hlog1. rewrite Ht1 in Ht. injection Ht as <-. reflexivity.
Defined.

(** ** Reactions to attribute changes *)

Section ClassLists.

Lemma classList_contains_In (c : string) (l : list string) :
  classList_contains c l = true <-> In c l.
Proof.
  unfold classList_contains. rewrite existsb_exists. split.
  - intros (x & Hx & Heq). apply String.eqb_eq in Heq. now subst.
  - intros H. exists c. split; [assumption|apply String.eqb_refl].
Qed.

Lemma tokens_remove_In (c d : string) (l : list string) :
  In c (tokens_remove d l) <-> In c l /\ c <> d.
Proof.
  unfold tokens_remove. rewrite filter_In, negb_true_iff, String.eqb_neq.
  reflexivity.
Qed.

Lemma tokens_add_In (c d : string) (l : list string) :
  In c (tokens_add d l) <-> In c l \/ c = d.
Proof.
  unfold tokens_add.
  destruct (classList_contains d l) eqn:Hd.
  - apply classList_contains_In in Hd. split; [tauto|].
    intros [H| ->]; assumption.
  - rewrite in_app_iff. simpl. split.
    + intros [H|[H|[]]]; [now left|now right].
    + intros [H|H]; [now left|right; now left].
Qed.

(** A token that holds no white space and is not empty is taken. *)
Lemma classList_add_valid (c : string) (l : list string) :
  tokenError c = None -> classList_add c l = inr (tokens_add c l).
Proof. intros H. unfold classList_add. now rewrite H. Qed.

Lemma classList_remove_valid (c : string) (l : list string) :
  tokenError c = None -> classList_remove c l = inr (tokens_remove c l).
Proof. intros H. unfold classList_remove. now rewrite H. Qed.

Lemma addClass_valid (c : string) (e : CodeInput) :
  tokenError c = None ->
  addClass c e = Done (set_classList e (tokens_add c (classList e))).
Proof. intros H. unfold addClass. now rewrite classList_add_valid. Qed.

Lemma removeClass_valid (c : string) (e : CodeInput) :
  tokenError c = None ->
  removeClass c e = Done (set_classList e (tokens_remove c (classList e))).
Proof. intros H. unfold removeClass. now rewrite classList_remove_valid. Qed.

Lemma onCode_addClass (c : string) (e : CodeInput) code :
  codeElement e = Some code -> tokenError c = None ->
  onCode (Node.addClass c) e
  = Done (set_codeElement e
            (Some (Node.setClassList (tokens_add c (Node.classList code)) code))).
Proof.
  intros Hcode H. unfold onCode, Node.addClass.
  now rewrite Hcode, classList_add_valid.
Qed.



(** The class made of a language is refused exactly when the language
    holds white space. *)
Lemma tokenError_language (l : string) :
  tokenError ("language-" +:+ l)
  = if hasWhitespace l then Some (DOMException "InvalidCharacterError") else None.
Proof. reflexivity. Qed.

Lemma onCode_throws (c : string) (e : CodeInput) code err :
  codeElement e = Some code -> tokenError c = Some err ->
  onCode (Node.addClass c) e = Throw err e
  /\ onCode (Node.removeClass c) e = Throw err e.
Proof.
  intros Hcode H. unfold onCode, Node.addClass, Node.removeClass,
    classList_add, classList_remove.
  now rewrite Hcode, H.
Qed.

End ClassLists.

Section LangReaction.

Variable usedTemplates : gmap string Template.
Variable defaultTemplate : option string.



End LangReaction.




(** C7. When [lang] is given for the first time to a connected Active
    element, so that the old value is [null], and the [code] node does not
    already carry the class of the new language, the reaction throws the
    [TypeError] of [oldValue.toLowerCase()]; the classes, the placeholder
    and the value are as before, and nothing is rendered. *)
Theorem lang_first_assignment_throws
  (usedTemplates : gmap string Template) (defaultTemplate : option string)
  (N : string) (e : CodeInput) code t :
  isConnected e = true -> Active e ->
  codeElement e = Some code -> template e = Some (Registered t) ->
  classList_contains ("language-" +:+ toLowerCase N) (Node.classList code) = false ->
  exists e',
    attributeChangedCallback usedTemplates defaultTemplate "lang" None (Some N) e
    = Throw (PropertyOfNull "toLowerCase") e'
    /\ e' = set_log e
              (log e ++ pluginEvents t "attributeChanged" [Some "lang"; None; Some N]).
Proof.
  intros Hconn _ Hcode Ht Hfresh.
  eexists. split; [|reflexivity].
  unfold attributeChangedCallback. rewrite Hconn.
  unfold pluginEvt. rewrite Ht. fields.
  cbn [String.eqb Ascii.eqb Bool.eqb].
  unfold langChanged. fields. rewrite Hcode, Hfresh.
  reflexivity.
Qed.

Lemma lang_first_assignment_throws_witness :
  exists e',
    attributeChangedCallback ∅ None "lang" None (Some "py") jsActive
    = Throw (PropertyOfNull "toLowerCase") e'.
Proof.
  destruct (lang_first_assignment_throws ∅ None "py" jsActive
              (default (Node.mk 0 "" [] "" ∅) (codeElement jsActive)) plainTemplate)
    as (e' & Hrun & _); try reflexivity.
  - split; cbn; eauto.
  - exists e'. exact Hrun.
Defined.




(** ** Listeners *)

(** C9 holds for ["change"] and ["selectionchange"] only.  On an Active
    element, a listener added for ["input"] is bound and attached to the
    textarea; [removeEventListener] for ["input"] with the same listener
    takes the branch of the types that are not rebound and leaves the
    textarea as it is, so the bound function stays attached.  The same
    calls for ["change"] detach it. *)
Theorem input_listener_not_removed :
  setup jsElement 0 = Done (jsActive, 3)
  /\ (exists e2,
        addEventListener "input" onInput None jsActive = Done e2
        /\ Textarea.listeners <$> textareaElement e2
           = Some [mkRegistration "input" (Internal "input") false;
                   mkRegistration "scroll" (Internal "scroll") false;
                   mkRegistration "input" (Bound (Bind 0 onInput)) false]
        /\ removeEventListener "input" onInput None e2 = Done e2)
  /\ (exists c2 c3,
        addEventListener "change" onInput None jsActive = Done c2
        /\ Textarea.listeners <$> textareaElement c2
           = Some [mkRegistration "input" (Internal "input") false;
                   mkRegistration "scroll" (Internal "scroll") false;
                   mkRegistration "change" (Bound (Bind 0 onInput)) false]
        /\ removeEventListener "change" onInput None c2 = Done c3
        /\ textareaElement c3 = textareaElement jsActive).
Proof.
  split; [vm_compute; reflexivity|]. split.
  - eexists. split; [vm_compute; reflexivity|].
    split; vm_compute; reflexivity.
  - eexists _, _. split; [vm_compute; reflexivity|].
    split; [vm_compute; reflexivity|].
    split; vm_compute; reflexivity.
Qed.

Section Removal.

Lemma existsb_eventTarget_add type cb options (l : list Registration) :
  sameCallback cb cb = true ->
  existsb (sameRegistration type cb (default false options))
    (eventTarget_add type cb options l) = true.
Proof.
  intros Hrefl. unfold eventTarget_add.
  destruct (existsb (sameRegistration type cb (default false options)) l) eqn:E;
    [assumption|].
  rewrite existsb_app. apply orb_true_iff. right. simpl.
  unfold sameRegistration. simpl.
  rewrite String.eqb_refl, Hrefl, Bool.eqb_reflx. reflexivity.
Qed.

(** For the two rebound types that [removeEventListener] does not name,
    whatever the element and the listener: the bound function attached
    by [addEventListener] is still attached after
    [removeEventListener]. *)
Lemma rebound_listener_stays (type : string) (l : Listener) (e : CodeInput) ta :
  textareaElement e = Some ta ->
  type = "input" \/ type = "invalid" ->
  exists e2 e3 ta2,
    addEventListener type l None e = Done e2
    /\ removeEventListener type l None e2 = Done e3
    /\ textareaElement e2 = Some ta2
    /\ textareaElement e3 = Some ta2
    /\ existsb (sameRegistration type (Bound (Bind (binds e) l)) false)
         (Textarea.listeners ta2) = true.
Proof.
  intros Hta Htype.
  unfold addEventListener, addEventListener_fuel, addEventListener_body.
  assert (Hsync : listIncludes type textareaSyncEvents = true)
    by (destruct Htype; subst; reflexivity).
  rewrite Hsync. fields. rewrite Hta.
  eexists _, _, _. split; [reflexivity|].
  unfold removeEventListener.
  assert (Hc : String.eqb type "change" = false)
    by (destruct Htype; subst; reflexivity).
  assert (Hs : String.eqb type "selectionchange" = false)
    by (destruct Htype; subst; reflexivity).
  rewrite Hc, Hs.
  split; [reflexivity|]. split; [reflexivity|]. split; [reflexivity|].
  cbn [Textarea.addEventListener Textarea.listeners].
  apply (existsb_eventTarget_add type (Bound (Bind (binds e) l)) None).
  cbn. apply Nat.eqb_refl.
Qed.

End Removal.

(** ** Calls of [update] made before the surfaces exist *)

Section Deferred.

Lemma highlighted_app (a b : list Event) :
  highlighted (a ++ b) = (highlighted a ++ highlighted b)%list.
Proof. apply omap_app. Qed.

Lemma highlighted_pluginEvents t eventName args :
  highlighted (pluginEvents t eventName args) = [].
Proof.
  unfold pluginEvents. induction (plugins t) as [|p ps IH]; [reflexivity|].
  exact IH.
Qed.

Lemma highlighted_renderEvents t (T : string) :
  highlighted (renderEvents t T) = [displayCopy T].
Proof.
  unfold renderEvents.
  rewrite !highlighted_app, !highlighted_pluginEvents. reflexivity.
Qed.

Lemma last_cons_default {A : Type} (l : list A) (a d : A) :
  List.last (a :: l) d = List.last l a.
Proof.
  revert a d. induction l as [|b l IH]; intros a d; [reflexivity|].
  change (List.last (a :: b :: l) d) with (List.last (b :: l) d).
  now rewrite !IH.
Qed.

Lemma surfaces_textarea (e e' : CodeInput) :
  surfaces e' = surfaces e -> is_Some (textareaElement e) ->
  is_Some (textareaElement e').
Proof.
  unfold surfaces. intros H [ta Hta]. rewrite Hta in H.
  destruct (textareaElement e'); [eauto|discriminate].
Qed.

Lemma surfaces_code (e e' : CodeInput) :
  surfaces e' = surfaces e -> is_Some (codeElement e) ->
  is_Some (codeElement e').
Proof.
  unfold surfaces. intros H [c Hc]. rewrite Hc in H.
  destruct (codeElement e'); [eauto|].
  cbn in H. congruence.
Qed.




(** The call of one listener on an element whose surfaces exist. *)
Lemma invokeListener_surfaces (type : string) (l : Listener) (e : CodeInput) ta code t :
  textareaElement e = Some ta -> codeElement e = Some code ->
  template e = Some (Registered t) ->
  exists e',
    invokeListener type l e = Done e'
    /\ Frame e e' /\ initialValue e' = initialValue e
    /\ ignoreValueUpdate e' = ignoreValueUpdate e
    /\ (ignoreValueUpdate e = false ->
        match l with
        | DeferredUpdate v =>
            highlighted (log e') = (highlighted (log e) ++ [displayCopy v])%list
            /\ _value e' = v
        | _ => highlighted (log e') = highlighted (log e) /\ _value e' = _value e
        end).
Proof.
  intros Hta Hcode Ht.
  destruct l as [id source|v|type' b options]; cbn [invokeListener].
  - eexists. split; [reflexivity|]. fields.
    split; [now split|]. split; [reflexivity|]. split; [reflexivity|].
    intros _. now rewrite highlighted_app, app_nil_r.
  - destruct (ignoreValueUpdate e) eqn:Hflag.
    + rewrite update_ignored by assumption.
      exists e. split; [reflexivity|]. split; [apply Frame_refl|].
      split; [reflexivity|]. split; [exact Hflag|]. intros; discriminate.
    + destruct (update_render v e ta code t Hta Hcode Ht Hflag)
        as (e' & Hupd & Hval & Hta' & Hcode' & Hlog & Ht' & Hflag' & Hpre' & Ha' & _).
      exists e'. split; [exact Hupd|].
      split.
      { split; [exact Ha'|congruence|].
        unfold surfaces. rewrite Hta', Hcode', Hpre', Hta, Hcode.
        cbn [fmap option_fmap option_map].
        now rewrite (proj1 (written_rest v ta)). }
      split.
      { rewrite (update_surfaces v e ta Hta Hflag) in Hupd.
        destruct (valueStored_fields v e ta) as (_ & _ & Hc & _ & Htt & _).
        rewrite (renderInto_done v _ code t) in Hupd by congruence.
        injection Hupd as <-. fields. unfold valueStored.
        destruct (String.eqb (Textarea.value ta) v); reflexivity. }
      split; [exact Hflag'|].
      intros _. split; [|exact Hval].
      now rewrite Hlog, highlighted_app, highlighted_renderEvents.
  - rewrite Hta. eexists. split; [reflexivity|]. fields.
    split; [split; [reflexivity|reflexivity|]|].
    { unfold surfaces. fields. now rewrite Hta. }
    repeat split.
Qed.

(** The listeners of ["code-input_load"] on an element whose surfaces
    exist: every pending call of [update] is made, in order. *)
Lemma runListeners_surfaces (rs : list Registration) (e : CodeInput) t :
  is_Some (textareaElement e) -> is_Some (codeElement e) ->
  template e = Some (Registered t) ->
  exists e',
    runListeners "code-input_load" rs e = Done e'
    /\ Frame e e' /\ initialValue e' = initialValue e
    /\ ignoreValueUpdate e' = ignoreValueUpdate e
    /\ (ignoreValueUpdate e = false ->
        highlighted (log e')
        = (highlighted (log e) ++ map displayCopy (pendingAmong rs))%list
        /\ _value e' = List.last (pendingAmong rs) (_value e)).
Proof.
  revert e. induction rs as [|r rs IH]; intros e Hta Hcode Ht.
  - exists e. split; [reflexivity|]. split; [apply Frame_refl|].
    repeat split. cbn. now rewrite app_nil_r.
  - cbn [runListeners]. unfold pendingAmong. cbn [omap list_omap].
    fold (pendingAmong rs).
    destruct (String.eqb (regType r) "code-input_load") eqn:Htype.
    + assert (Hstep : exists e1,
                invokeCallback "code-input_load" (regCallback r) e = Done e1
                /\ Frame e e1 /\ initialValue e1 = initialValue e
                /\ ignoreValueUpdate e1 = ignoreValueUpdate e
                /\ (ignoreValueUpdate e = false ->
                    match callbackListener (regCallback r) with
                    | Some (DeferredUpdate v) =>
                        highlighted (log e1)
                        = (highlighted (log e) ++ [displayCopy v])%list
                        /\ _value e1 = v
                    | _ => highlighted (log e1) = highlighted (log e)
                           /\ _value e1 = _value e
                    end)).
      { destruct Hta as [ta Hta]. destruct Hcode as [code Hcode].
        destruct (regCallback r) as [name|[i l]|l];
          cbn [invokeCallback callbackListener boundListener].
        - exists e. split; [reflexivity|]. split; [apply Frame_refl|].
          repeat split.
        - destruct (invokeListener_surfaces "code-input_load" l e ta code t
                      Hta Hcode Ht) as (e1 & H1 & H2 & H3 & H4 & H5).
          exists e1. repeat split; try assumption; apply H2.
        - destruct (invokeListener_surfaces "code-input_load" l e ta code t
                      Hta Hcode Ht) as (e1 & H1 & H2 & H3 & H4 & H5).
          exists e1. repeat split; try assumption; apply H2. }
      destruct Hstep as (e1 & Hrun1 & Hframe1 & Hinit1 & Hflag1 & Hlog1).
      rewrite Hrun1.
      destruct (IH e1) as (e' & Hrun & Hframe & Hinit & Hflag & Hlog).
      { eapply surfaces_textarea; [apply Hframe1|assumption]. }
      { eapply surfaces_code; [apply Hframe1|assumption]. }
      { destruct Hframe1 as [_ Htt _]. congruence. }
      exists e'. split; [exact Hrun|].
      split; [eapply Frame_trans; eassumption|].
      split; [congruence|]. split; [congruence|].
      intros Hidle. specialize (Hlog1 Hidle).
      rewrite Hflag1 in Hlog. specialize (Hlog Hidle).
      destruct Hlog as [Hlog Hval].
      destruct (callbackListener (regCallback r)) as [[id src|v|ty b o]|];
        destruct Hlog1 as [Hl1 Hv1]; cbn [map app].
      * rewrite Hlog, Hl1, Hval, Hv1. split; reflexivity.
      * rewrite Hlog, Hl1, Hval, Hv1, <- app_assoc, last_cons_default.
        split; reflexivity.
      * rewrite Hlog, Hl1, Hval, Hv1. split; reflexivity.
      * rewrite Hlog, Hl1, Hval, Hv1. split; reflexivity.
    + apply IH; assumption.
Qed.



End Deferred.

(** ** Setting an element up *)

Section Setup.

(** [setup] on an element that has its textarea returns at its guard. *)
Lemma setup_again (e : CodeInput) (created : nat) :
  is_Some (textareaElement e) -> setup e created = Done (e, created).
Proof. intros [ta Hta]. unfold setup. now rewrite Hta. Qed.

Lemma fold_left_invariant {A B : Type} (P : B -> Prop) (f : B -> A -> B)
  (l : list A) (b : B) :
  P b -> (forall b a, P b -> P (f b a)) -> P (fold_left f l b).
Proof.
  intros Hb Hstep. revert b Hb.
  induction l as [|a l IH]; intros b Hb; [exact Hb|].
  cbn [fold_left]. apply IH. now apply Hstep.
Qed.

(** The copy of the attributes leaves the identity of the textarea. *)
Lemma syncAttributes_node (attrs : gmap string string) (ta : Textarea.t) :
  Textarea.node (syncAttributes attrs ta) = Textarea.node ta.
Proof.
  unfold syncAttributes.
  apply (fold_left_invariant (fun x => Textarea.node x = Textarea.node ta)).
  - apply (fold_left_invariant (fun x => Textarea.node x = Textarea.node ta));
      [reflexivity|].
    intros b a Hb. destruct (attrs !! a); [exact Hb|exact Hb].
  - intros b reg Hb.
    apply (map_fold_weak_ind
             (fun (r : Textarea.t) (_ : gmap string string) =>
                Textarea.node r = Textarea.node ta)); [exact Hb|].
    intros i x m r _ Hr. destruct (matchWildcard reg i); exact Hr.
Qed.

(** The end of [setup], once the nodes are made. *)
Lemma setup_finish (V : string) (E : CodeInput) ta pre code t :
  textareaElement E = Some ta -> preElement E = Some pre ->
  codeElement E = Some code -> template E = Some (Registered t) ->
  exists e2,
    (run e <- pluginEvt "afterElementsAdded" [] E in
     run e <- update V e in
     dispatchEvent "code-input_load" e) = Done e2
    /\ Frame E e2 /\ initialValue e2 = initialValue E
    /\ ignoreValueUpdate e2 = ignoreValueUpdate E
    /\ (ignoreValueUpdate E = false ->
        highlighted (log e2)
        = (highlighted (log E) ++ map displayCopy (V :: pendingUpdates E))%list
        /\ _value e2 = List.last (pendingUpdates E) V).
Proof.
  intros Hta Hpre Hcode Ht.
  unfold pluginEvt. rewrite Ht. fields.
  set (E1 := set_log E (log E ++ _)).
  assert (Hlog1 : highlighted (log E1) = highlighted (log E)).
  { unfold E1. fields. rewrite highlighted_app.
    fold (pluginEvents t "afterElementsAdded" []).
    now rewrite highlighted_pluginEvents, app_nil_r. }
  assert (HF1 : Frame E E1) by (now split).
  destruct (ignoreValueUpdate E) eqn:Hflag.
  - rewrite update_ignored by exact Hflag. fields.
    unfold dispatchEvent.
    destruct (runListeners_surfaces (listeners E1) E1 t)
      as (e2 & Hrun & Hframe & Hinit & Hflag2 & _); [unfold E1; fields; eauto..|].
    exists e2. split; [exact Hrun|].
    split; [eapply Frame_trans; [exact HF1|exact Hframe]|].
    split; [exact Hinit|]. split; [rewrite Hflag2; exact Hflag|]. discriminate.
  - destruct (update_render V E1 ta code t)
      as (e1 & Hupd & Hval & Hta' & Hcode' & Hlog & Ht' & Hflag' & Hpre' & Ha' & Hls & _);
      [assumption..|].
    rewrite Hupd. fields. unfold dispatchEvent.
    destruct (runListeners_surfaces (listeners e1) e1 t)
      as (e2 & Hrun & Hframe & Hinit & Hflag2 & Hidle);
      [rewrite Hta'; eauto|rewrite Hcode'; eauto|exact Ht'|].
    exists e2. split; [exact Hrun|].
    assert (HF : Frame E1 e1).
    { split; [exact Ha'|rewrite Ht'; unfold E1; fields; now rewrite Ht|].
      unfold surfaces. rewrite Hta', Hcode', Hpre'. unfold E1. fields.
      rewrite Hta, Hcode. cbn [fmap option_fmap option_map].
      now rewrite (proj1 (written_rest V ta)). }
    split; [eapply Frame_trans; [exact HF1|eapply Frame_trans; [exact HF|exact Hframe]]|].
    split.
    { rewrite Hinit.
      rewrite (update_surfaces V E1 ta Hta Hflag) in Hupd.
      destruct (valueStored_fields V E1 ta) as (_ & _ & Hc & _ & Htt & _).
      rewrite (renderInto_done V _ code t) in Hupd;
        [|rewrite Hc; exact Hcode|rewrite Htt; exact Ht].
      injection Hupd as <-. fields. unfold valueStored.
      destruct (String.eqb (Textarea.value ta) V); reflexivity. }
    split; [congruence|].
    intros _. destruct (Hidle Hflag') as [Hl Hv].
    unfold pendingUpdates. rewrite Hls in Hl, Hv.
    change (listeners E1) with (listeners E) in Hl, Hv.
    split.
    + rewrite Hl, Hlog, highlighted_app, highlighted_renderEvents, Hlog1.
      cbn [map]. now rewrite <- app_assoc.
    + now rewrite Hv, Hval.
Qed.



(** [setup_build] makes the three nodes, renders the initial value and
    then makes the pending calls of [update]. *)
Lemma setup_build_spec (t : Template) (created : nat) (e : CodeInput) :
  template e = Some (Registered t) -> langValid e ->
  exists e2 initial,
    setup_build created e = Done e2
    /\ surfaces e2 = (Some created, Some (created + 2), Some (created + 1))
    /\ attributes e2 = attributes e
    /\ template e2 = Some (Registered t)
    /\ initialValue e2 = Some initial
    /\ ignoreValueUpdate e2 = ignoreValueUpdate e
    /\ (ignoreValueUpdate e = false ->
        highlighted (log e2)
        = (highlighted (log e) ++ map displayCopy (initial :: pendingUpdates e))%list
        /\ _value e2 = List.last (pendingUpdates e) initial).
Proof.
  intros Ht Hlang. unfold setup_build. cbv zeta.
  set (V := default "" (orElse _ (Some ""))).
  set (TA := Textarea.addEventListener "scroll" _ _ _).
  assert (HTA : Textarea.node TA = created).
  { unfold TA. cbn [Textarea.addEventListener Textarea.node].
    rewrite syncAttributes_node.
    destruct (String.eqb V ""); reflexivity. }
  set (PRE := Node.setAttribute "aria-hidden" "true" _).
  assert (Hgen : forall code : Node.t,
    Node.node code = created + 1 ->
    let E := set_codeElement
               (set_preElement
                  (set_textareaElement
                     (set_innerHTML (set_initialValue e (Some V)) "") (Some TA))
                  (Some PRE)) (Some code) in
    exists e2 initial,
      (run e <- pluginEvt "afterElementsAdded" [] E in
       run e <- update V e in
       dispatchEvent "code-input_load" e) = Done e2
      /\ surfaces e2 = (Some created, Some (created + 2), Some (created + 1))
      /\ attributes e2 = attributes e
      /\ template e2 = Some (Registered t)
      /\ initialValue e2 = Some initial
      /\ ignoreValueUpdate e2 = ignoreValueUpdate e
      /\ (ignoreValueUpdate e = false ->
          highlighted (log e2)
          = (highlighted (log e) ++ map displayCopy (initial :: pendingUpdates e))%list
          /\ _value e2 = List.last (pendingUpdates e) initial)).
  { intros code Hnode E.
    destruct (setup_finish V E TA PRE code t)
      as (e2 & Hrun & [Ha Htt Hs] & Hinit & Hflag & Hidle);
      [reflexivity|reflexivity|reflexivity|exact Ht|].
    exists e2, V. split; [exact Hrun|].
    split.
    { rewrite Hs. unfold surfaces, E. fields.
      cbn [fmap option_fmap option_map]. now rewrite HTA, Hnode. }
    split; [exact Ha|]. split; [now rewrite Htt|]. split; [exact Hinit|].
    split; [exact Hflag|exact Hidle]. }
  fields. rewrite Ht.
  destruct (isCode t).
  - destruct (attributes e !! "lang") as [l|] eqn:Hl.
    + destruct (String.eqb l "").
      * cbn [andThen]. apply (Hgen (Node.mk (created + 1) "code" [] "" ∅)). reflexivity.
      * erewrite onCode_addClass;
          [|fields; reflexivity
           |rewrite tokenError_language; now rewrite (Hlang l Hl)].
        cbn [andThen]. fields.
        apply (Hgen (Node.setClassList _ (Node.mk (created + 1) "code" [] "" ∅))).
        reflexivity.
    + cbn [andThen]. apply (Hgen (Node.mk (created + 1) "code" [] "" ∅)). reflexivity.
  - cbn [andThen]. apply (Hgen (Node.mk (created + 1) "code" [] "" ∅)). reflexivity.
Qed.

(** [setup] on an element without surfaces whose template is known and
    whose [lang] makes a class. *)
Lemma setup_fresh (e : CodeInput) (created : nat) (t : Template) :
  textareaElement e = None -> template e = Some (Registered t) -> langValid e ->
  exists e2 initial,
    setup e created = Done (e2, created + 3)
    /\ surfaces e2 = (Some created, Some (created + 2), Some (created + 1))
    /\ attributes e2 = attributes e
    /\ template e2 = Some (Registered t)
    /\ initialValue e2 = Some initial
    /\ ignoreValueUpdate e2 = ignoreValueUpdate e
    /\ (ignoreValueUpdate e = false ->
        highlighted (log e2)
        = (highlighted (log e) ++ map displayCopy (initial :: pendingUpdates e))%list
        /\ _value e2 = List.last (pendingUpdates e) initial).
Proof.
  intros Hta Ht Hlang. unfold setup. rewrite Hta.
  rewrite addClass_valid by reflexivity. fields. rewrite Ht.
  assert (Hfirst : exists e0,
    (if preElementStyled t
     then addClass "code-input_pre-element-styled"
            (set_classList e (tokens_add "code-input_registered" (classList e)))
     else Done (set_classList e (tokens_add "code-input_registered" (classList e))))
    = Done e0
    /\ template e0 = Some (Registered t) /\ attributes e0 = attributes e
    /\ innerHTML e0 = innerHTML e
    /\ log e0 = log e /\ listeners e0 = listeners e
    /\ ignoreValueUpdate e0 = ignoreValueUpdate e).
  { destruct (preElementStyled t).
    - rewrite addClass_valid by reflexivity. eexists. split; [reflexivity|].
      fields. now rewrite Ht.
    - eexists. split; [reflexivity|]. fields. now rewrite Ht. }
  destruct Hfirst as (e0 & -> & Ht0 & Ha0 & Hi0 & Hl0 & Hls0 & Hf0).
  cbn [andThen]. unfold pluginEvt. rewrite Ht0.
  set (e1 := set_log e0 _).
  destruct (setup_build_spec t created e1 Ht0)
    as (e2 & initial & Hrun & Hs & Ha & Htt & Hinit & Hflag2 & Hidle).
  { intros l Hl. apply Hlang. now rewrite <- Ha0. }
  exists e2, initial. rewrite Hrun. cbn [withNodes].
  split; [reflexivity|]. split; [exact Hs|].
  split; [rewrite Ha; exact Ha0|]. split; [exact Htt|]. split; [exact Hinit|].
  split; [rewrite Hflag2; unfold e1; fields; exact Hf0|].
  intros Hflag.
  assert (Hlog1 : highlighted (log e1) = highlighted (log e)).
  { unfold e1. fields. rewrite highlighted_app, Hl0.
    fold (pluginEvents t "beforeElementsAdded" []).
    now rewrite highlighted_pluginEvents, app_nil_r. }
  assert (Hp1 : pendingUpdates e1 = pendingUpdates e).
  { unfold pendingUpdates, e1. fields. now rewrite Hls0. }
  rewrite <- Hlog1, <- Hp1. apply Hidle.
  unfold e1. fields. now rewrite Hf0.
Qed.


End Setup.




(** ** The registry *)

Section Registry.

Lemma lookup_storeElement (elem : nat) (e : CodeInput) (w : World) :
  elements (storeElement elem e w) !! elem = Some e.
Proof. cbn. apply lookup_insert_eq. Qed.

Lemma lookup_storeElement_ne (elem other : nat) (e : CodeInput) (w : World) :
  other <> elem -> elements (storeElement elem e w) !! other = elements w !! other.
Proof. intros H. cbn. now apply lookup_insert_ne. Qed.

Lemma StepOn_refl (elem : nat) (w : World) : StepOn elem w w.
Proof. now split. Qed.

Lemma StepOn_trans (elem : nat) (a b c : World) :
  StepOn elem a b -> StepOn elem b c -> StepOn elem a c.
Proof.
  intros [H1 H2 H3 H4 H5] [G1 G2 G3 G4 G5]. split; try congruence.
  - intros key Hkey. rewrite G4, H4; [reflexivity|assumption|].
    now rewrite H1.
  - intros other Hne. now rewrite G5, H5.
Qed.

Lemma StepOn_store (elem : nat) (e : CodeInput) (w : World) :
  StepOn elem w (storeElement elem e w).
Proof.
  split; try reflexivity. intros other Hne. now apply lookup_storeElement_ne.
Qed.

Lemma surfaces_Built (e : CodeInput) (a b c : nat) :
  surfaces e = (Some a, Some b, Some c) -> Built e.
Proof.
  unfold surfaces, Built. intros H.
  destruct (textareaElement e), (preElement e), (codeElement e);
    try discriminate; eauto.
Qed.

Lemma surfaces_same_Built (e e' : CodeInput) :
  surfaces e' = surfaces e -> Built e -> Built e'.
Proof.
  unfold surfaces, Built. intros H ([ta Hta] & [pre Hpre] & [code Hcode]).
  rewrite Hta, Hpre, Hcode in H.
  destruct (textareaElement e'), (preElement e'), (codeElement e');
    try discriminate; eauto.
Qed.

Lemma propertyOf_registered (used : gmap string Template) (key : string) t :
  used !! key = Some t -> propertyOf used key = Some (Registered t).
Proof. intros H. unfold propertyOf. now rewrite H. Qed.

Lemma propertyOf_None (used : gmap string Template) (key : string) :
  propertyOf used key = None -> used !! key = None.
Proof. unfold propertyOf. destruct (used !! key); [discriminate|reflexivity]. Qed.

(** In a tame world the lookup of the template of an element finds a
    registered template or nothing. *)
Lemma Tame_propertyOf (w : World) (elem : nat) (e : CodeInput) :
  Tame w -> elements w !! elem = Some e ->
  propertyOf (usedTemplates w) (templateKey w e)
  = Registered <$> (usedTemplates w !! templateKey w e).
Proof.
  intros [_ Hname Hdefault] Helem. unfold propertyOf.
  destruct (usedTemplates w !! templateKey w e) as [t|] eqn:Hreg; [reflexivity|].
  assert (Hown : existsb (String.eqb (templateKey w e)) inheritedKeys = false).
  { unfold templateKey in *.
    destruct (attributes e !! "template") as [n|] eqn:Hattr.
    - exact (Hname elem e Helem n Hattr).
    - destruct (defaultTemplate w) as [d|] eqn:Hd; [|reflexivity].
      destruct (Hdefault d eq_refl) as [t Ht]. cbn in Hreg. congruence. }
  now rewrite Hown.
Qed.

Lemma Tame_canSetUp (w : World) (elem : nat) : Tame w -> canSetUp elem w.
Proof.
  intros HT e Helem _. split; [exact (tame_lang w HT elem e Helem)|].
  intros key. rewrite (Tame_propertyOf w elem e HT Helem).
  destruct (usedTemplates w !! templateKey w e); discriminate.
Qed.

Lemma Tame_tameb (w : World) : tameb w = true -> Tame w.
Proof.
  unfold tameb. intros H. apply andb_true_iff in H as [Hall Hdefault].
  rewrite forallb_forall in Hall.
  assert (Hone : forall i e, elements w !! i = Some e ->
                   langValidb e = true /\ nameValidb e = true).
  { intros i e Hi. apply andb_true_iff.
    apply (Hall (i, e)). apply list_elem_of_In. now apply elem_of_map_to_list. }
  split.
  - intros i e Hi l Hl. destruct (Hone i e Hi) as [H _].
    unfold langValidb in H. rewrite Hl in H. now apply negb_true_iff.
  - intros i e Hi n Hn. destruct (Hone i e Hi) as [_ H].
    unfold nameValidb in H. rewrite Hn in H. now apply negb_true_iff.
  - intros d Hd. rewrite Hd in Hdefault.
    destruct (usedTemplates w !! d); [eauto|discriminate].
Qed.

(** A call made for one element, which keeps its attributes, keeps the
    world tame. *)
Lemma Tame_step (elem : nat) (w w' : World) :
  StepOn elem w w' ->
  (forall e', elements w' !! elem = Some e' ->
              exists e, elements w !! elem = Some e /\ attributes e' = attributes e) ->
  Tame w -> Tame w'.
Proof.
  intros [Hu Hd _ _ Hothers] Hsame [Hlang Hname Hdefault].
  assert (Hattr : forall i e', elements w' !! i = Some e' ->
                    exists e, elements w !! i = Some e /\ attributes e' = attributes e).
  { intros i e' Hi. destruct (decide (i = elem)) as [->|Hne]; [now apply Hsame|].
    exists e'. split; [now rewrite <- Hothers|reflexivity]. }
  split.
  - intros i e' Hi l Hl. destruct (Hattr i e' Hi) as (e & He & Ha).
    apply (Hlang i e He). now rewrite <- Ha.
  - intros i e' Hi n Hn. destruct (Hattr i e' Hi) as (e & He & Ha).
    apply (Hname i e He). now rewrite <- Ha.
  - intros d Hdd. rewrite Hu. apply Hdefault. now rewrite <- Hd.
Qed.

(** The callback that [connectedCallback] gives to
    [runOnceWindowLoaded]: on an element that has its textarea it ends
    whatever the template; on one that has none it ends when the
    template is a registered one and the [lang] makes a class. *)
Lemma runSetup_spec (elem : nat) (e : CodeInput) (w : World) :
  elements w !! elem = Some e ->
  (textareaElement e = None ->
   langValid e /\ exists t, template e = Some (Registered t)) ->
  exists w' e',
    runSetup elem w = Done w'
    /\ StepOn elem w w'
    /\ elements w' !! elem = Some e'
    /\ attributes e' = attributes e
    /\ ignoreValueUpdate e' = ignoreValueUpdate e
    /\ template e' = template e
    /\ is_Some (textareaElement e')
    /\ (is_Some (textareaElement e) ->
        surfaces e' = surfaces e /\ createdNodes w' = createdNodes w)
    /\ (textareaElement e = None ->
        surfaces e'
        = (Some (createdNodes w), Some (createdNodes w + 2), Some (createdNodes w + 1))).
Proof.
  intros Helem Hready. unfold runSetup, setupElement. rewrite Helem.
  destruct (textareaElement e) as [ta|] eqn:Hta.
  - rewrite setup_again by eauto. cbn [andThen].
    unfold onElement. cbn [elements set_createdNodes storeElement set_elements].
    rewrite lookup_insert_eq. rewrite addClass_valid by reflexivity.
    eexists _, _. split; [reflexivity|].
    split.
    { split; try reflexivity. intros other Hne. cbn.
      now rewrite !lookup_insert_ne by congruence. }
    split; [cbn; apply lookup_insert_eq|].
    fields. split; [reflexivity|]. split; [reflexivity|]. split; [reflexivity|].
    split; [rewrite Hta; eauto|].
    split; [|discriminate].
    intros _. split; [unfold surfaces; fields|]; reflexivity.
  - destruct (Hready eq_refl) as [Hlang [t Ht]].
    destruct (setup_fresh e (createdNodes w) t Hta Ht Hlang)
      as (e2 & initial & Hsetup & Hs & Ha & Htt & _ & Hflag & _).
    rewrite Hsetup. cbn [andThen].
    unfold onElement. cbn [elements set_createdNodes storeElement set_elements].
    rewrite lookup_insert_eq. rewrite addClass_valid by reflexivity.
    eexists _, _. split; [reflexivity|].
    split.
    { split; try reflexivity. intros other Hne. cbn.
      now rewrite !lookup_insert_ne by congruence. }
    split; [cbn; apply lookup_insert_eq|].
    fields. split; [exact Ha|]. split; [exact Hflag|]. split; [congruence|].
    assert (Hs' : surfaces (set_classList e2
                              (tokens_add "code-input_loaded" (classList e2)))
                  = surfaces e2) by reflexivity.
    split.
    { apply (surfaces_Built _ _ _ _ (eq_trans Hs' Hs)). }
    split; [intros [? ?]; discriminate|].
    intros _. exact Hs.
Qed.

Lemma onElement_done (elem : nat) (e : CodeInput) (f : CodeInput -> CodeInput)
  (w : World) :
  elements w !! elem = Some e ->
  onElement elem (fun e => Done (f e)) w = Done (storeElement elem (f e) w).
Proof. intros H. unfold onElement. now rewrite H. Qed.

(** [connectedCallback] on an element that can be set up ends, touches
    the element it is called on and no other, keeps the nodes that
    exist, and in a loaded window builds them when the template is
    found. *)
Lemma connectedCallback_spec (elem : nat) (w : World) :
  canSetUp elem w ->
  exists w',
    connectedCallback elem w = Done w'
    /\ StepOn elem w w'
    /\ match elements w !! elem with
       | None => w' = w
       | Some e =>
           exists e',
             elements w' !! elem = Some e'
             /\ attributes e' = attributes e
             /\ ignoreValueUpdate e' = ignoreValueUpdate e
             /\ template e' = propertyOf (usedTemplates w) (templateKey w e)
             /\ (is_Some (textareaElement e) ->
                 surfaces e' = surfaces e /\ createdNodes w' = createdNodes w)
             /\ (windowLoaded w = true -> is_Some (template e') ->
                 is_Some (textareaElement e')
                 /\ (textareaElement e = None ->
                     surfaces e'
                     = (Some (createdNodes w), Some (createdNodes w + 2),
                        Some (createdNodes w + 1))))
       end.
Proof.
  intros Hready. unfold connectedCallback.
  destruct (elements w !! elem) as [e|] eqn:Helem;
    [|exists w; split; [reflexivity|split; [apply StepOn_refl|reflexivity]]].
  specialize (Hready e Helem).
  unfold getTemplate. cbv zeta. fold (templateKey w e).
  destruct (propertyOf (usedTemplates w) (templateKey w e)) as [t|] eqn:Hreg.
  - unfold onElement at 1. rewrite lookup_storeElement.
    rewrite addClass_valid by reflexivity.
    set (e1 := set_classList (set_template e (Some t)) _).
    set (w1 := storeElement elem e1 (storeElement elem (set_template e (Some t)) w)).
    assert (Hstep1 : StepOn elem w w1).
    { eapply StepOn_trans; apply StepOn_store. }
    assert (Hlook1 : elements w1 !! elem = Some e1) by apply lookup_storeElement.
    unfold runOnceWindowLoaded. cbn [andThen].
    change (windowLoaded w1) with (windowLoaded w).
    destruct (windowLoaded w) eqn:Hloaded.
    + destruct (runSetup_spec elem e1 w1 Hlook1)
        as (w2 & e2 & Hrun & Hstep2 & Hlook2 & Ha & Hflag & Ht & Hta & Hkeep & Hnew).
      { unfold e1. fields. intros Hnone.
        destruct (Hready Hnone) as [Hlang Hown].
        split; [exact Hlang|].
        destruct t as [t|key]; [eauto|]. now destruct (Hown key). }
      rewrite Hrun. cbn [andThen].
      rewrite (onElement_done elem e2 _ w2 Hlook2).
      eexists. split; [reflexivity|].
      split.
      { eapply StepOn_trans; [exact Hstep1|].
        eapply StepOn_trans; [exact Hstep2|apply StepOn_store]. }
      eexists. split; [apply lookup_storeElement|].
      fields. split; [exact Ha|]. split; [exact Hflag|]. split; [exact Ht|].
      split.
      { intros Hsome. destruct (Hkeep Hsome) as [Hs Hc].
        split; [exact Hs|exact Hc]. }
      intros _ _. split; [exact Hta|exact Hnew].
    + cbn [andThen].
      erewrite (onElement_done elem e1) by exact Hlook1.
      eexists. split; [reflexivity|].
      split.
      { eapply StepOn_trans; [exact Hstep1|].
        eapply StepOn_trans; [|apply StepOn_store]. now split. }
      eexists. split; [apply lookup_storeElement|].
      fields. unfold e1. fields.
      repeat split; try reflexivity; discriminate.
  - cbn [andThen].
    erewrite (onElement_done elem (set_template e None))
      by apply lookup_storeElement.
    eexists. split; [reflexivity|].
    split.
    { eapply StepOn_trans; [|apply StepOn_store].
      eapply StepOn_trans; [|apply StepOn_store].
      split; try reflexivity.
      intros key [t Hkey]. cbn.
      apply lookup_insert_ne. intros Heq. rewrite <- Heq in Hkey.
      apply propertyOf_None in Hreg. congruence. }
    eexists. split; [apply lookup_storeElement|].
    fields. split; [reflexivity|]. split; [reflexivity|]. split; [reflexivity|].
    split; [intros _; split; reflexivity|].
    intros _ [t Ht]. discriminate.
Qed.

(** One round of the loop of [registerTemplate]. *)
Lemma flushStep_spec (tpl : Template) (elem : nat) (w : World) :
  canSetUp elem w ->
  exists w',
    (forall k, flushStep tpl elem k w = k w')
    /\ StepOn elem w w'
    /\ match elements w !! elem with
       | None => elements w' !! elem = None
       | Some e =>
           exists e',
             elements w' !! elem = Some e'
             /\ attributes e' = attributes e
             /\ ignoreValueUpdate e' = ignoreValueUpdate e
             /\ (is_Some (textareaElement e) -> surfaces e' = surfaces e)
             /\ (windowLoaded w = true ->
                 template e' = propertyOf (usedTemplates w) (templateKey w e)
                 /\ (is_Some (template e') ->
                     is_Some (textareaElement e')
                     /\ (textareaElement e = None ->
                         exists n, surfaces e' = (Some n, Some (n + 2), Some (n + 1)))))
       end.
Proof.
  intros Hready.
  unfold flushStep, onElement, runOnceWindowLoaded.
  destruct (elements w !! elem) as [e|] eqn:Helem.
  - cbn [andThen].
    set (e0 := set_template e (Some (Registered tpl))).
    set (w0 := storeElement elem e0 w).
    assert (Hlook0 : elements w0 !! elem = Some e0) by apply lookup_storeElement.
    change (windowLoaded w0) with (windowLoaded w).
    destruct (windowLoaded w) eqn:Hloaded.
    + destruct (connectedCallback_spec elem w0) as (w' & Hrun & Hstep & Helem').
      { intros x Hx Hnone. rewrite Hlook0 in Hx. injection Hx as <-.
        exact (Hready e Helem Hnone). }
      rewrite Hlook0 in Helem'.
      destruct Helem' as (e' & Hlook' & Ha & Hflag & Ht & Hkeep & Hbuild).
      exists w'. split; [intros k; now rewrite Hrun|].
      split; [eapply StepOn_trans; [apply StepOn_store|exact Hstep]|].
      exists e'. split; [exact Hlook'|]. split; [exact Ha|]. split; [exact Hflag|].
      split; [intros Hsome; now apply Hkeep|].
      intros _. split; [exact Ht|].
      intros Hsome. destruct (Hbuild Hloaded Hsome) as [Hta Hnew].
      split; [exact Hta|]. intros Hnone. eexists. now apply Hnew.
    + eexists. split; [intros k; reflexivity|].
      split.
      { eapply StepOn_trans; [apply StepOn_store|]. now split. }
      exists e0. split; [exact Hlook0|].
      repeat split; discriminate.
  - cbn [andThen].
    destruct (windowLoaded w) eqn:Hloaded.
    + destruct (connectedCallback_spec elem w Hready) as (w' & Hrun & Hstep & Helem').
      rewrite Helem in Helem'. subst w'.
      exists w. split; [intros k; now rewrite Hrun|].
      split; [apply StepOn_refl|exact Helem].
    + eexists. split; [intros k; reflexivity|].
      split; [now split|exact Helem].
Qed.

Section OneElement.

Variables (N : string) (E : nat) (tN : Template).

(** What one round does to the element [E] that asks for [N], once [N]
    is registered and the window is loaded. *)
Lemma flushStep_element (tpl : Template) (elem : nat) (w : World) :
  Tame w ->
  exists w',
    (forall k, flushStep tpl elem k w = k w')
    /\ StepOn elem w w'
    /\ Tame w'
    /\ (windowLoaded w = true -> usedTemplates w !! N = Some tN ->
        (forall s, ActiveWith N E s w -> ActiveWith N E s w')
        /\ (Waiting N E w ->
            (elem = E -> exists s, ActiveWith N E s w')
            /\ (elem <> E -> Waiting N E w'))).
Proof.
  intros HT.
  destruct (flushStep_spec tpl elem w (Tame_canSetUp w elem HT))
    as (w' & Hrun & Hstep & Helem).
  exists w'. split; [exact Hrun|]. split; [exact Hstep|].
  split.
  { apply (Tame_step elem w w' Hstep); [|exact HT].
    intros e' He'. destruct (elements w !! elem) as [e|]; [|congruence].
    destruct Helem as (e2 & He2 & Ha & _). exists e. split; [reflexivity|congruence]. }
  intros Hloaded Hreg.
  destruct (decide (elem = E)) as [->|Hne].
  - split.
    + intros s (e & Hlook & Hattr & Hact & Hs).
      rewrite Hlook in Helem.
      destruct Helem as (e' & Hlook' & Ha & Hflag & Hkeep & Hbuild).
      destruct (Hbuild Hloaded) as [Ht _].
      assert (Hkey : templateKey w e = N) by (unfold templateKey; now rewrite Hattr).
      rewrite Hkey, (propertyOf_registered _ _ _ Hreg) in Ht.
      destruct Hact as [Hta Hpre Hcode _ Hidle].
      specialize (Hkeep Hta).
      destruct (surfaces_same_Built e e' Hkeep (conj Hta (conj Hpre Hcode)))
        as (Hta' & Hpre' & Hcode').
      exists e'. split; [exact Hlook'|]. split; [congruence|].
      split; [|congruence].
      split; [assumption|assumption|assumption|rewrite Ht; eauto|congruence].
    + intros (e & Hlook & Hattr & Hidle & Hnone).
      split; [|congruence]. intros _.
      rewrite Hlook in Helem.
      destruct Helem as (e' & Hlook' & Ha & Hflag & Hkeep & Hbuild).
      destruct (Hbuild Hloaded) as [Ht Hnew].
      assert (Hkey : templateKey w e = N) by (unfold templateKey; now rewrite Hattr).
      rewrite Hkey, (propertyOf_registered _ _ _ Hreg) in Ht.
      destruct Hnew as [_ Hnew]; [rewrite Ht; eauto|].
      destruct (Hnew Hnone) as [n Hs].
      destruct (surfaces_Built e' _ _ _ Hs) as (Hta' & Hpre' & Hcode').
      exists (Some n, Some (n + 2), Some (n + 1)), e'.
      split; [exact Hlook'|]. split; [congruence|]. split; [|exact Hs].
      split; [assumption|assumption|assumption|rewrite Ht; eauto|congruence].
  - assert (Hsame : elements w' !! E = elements w !! E)
      by (apply (step_others _ _ _ Hstep); congruence).
    split.
    + intros s (e & Hlook & Hrest). exists e. now rewrite Hsame.
    + intros (e & Hlook & Hrest). split; [congruence|].
      intros _. exists e. now rewrite Hsame.
Qed.


End OneElement.

End Registry.

(** ** Registering a template *)

Section Validation.








End Validation.

Section Errors.














End Errors.

Section Registration.

Variables (N : string) (E : nat).

(** The two assignments of [registerTemplate] keep the world tame. *)
Lemma Tame_set_usedTemplates (t : Template) (w : World) :
  Tame w -> Tame (set_usedTemplates w (<[N := t]> (usedTemplates w))).
Proof.
  intros [Hlang Hname Hdefault]. split; [exact Hlang|exact Hname|].
  intros dflt Hd. cbn.
  destruct (decide (N = dflt)) as [->|Hne];
    [rewrite lookup_insert_eq; eauto|].
  rewrite lookup_insert_ne by exact Hne. now apply Hdefault.
Qed.

Lemma Tame_set_defaultTemplate (w : World) :
  Tame w -> is_Some (usedTemplates w !! N) -> Tame (set_defaultTemplate w (Some N)).
Proof.
  intros [Hlang Hname Hdefault] Hreg. split; [exact Hlang|exact Hname|].
  intros x Hx. injection Hx as <-. exact Hreg.
Qed.


End Registration.







(** * Further properties *)

(** ** Escaping *)

Section EscapingMore.

Lemma includes_char_app (c : ascii) (a b : string) :
  includes (String c "") (a +:+ b)
  = includes (String c "") a || includes (String c "") b.
Proof.
  induction a as [|x a IH].
  - cbn [String.append]. destruct b as [|y b]; reflexivity.
  - cbn [String.append includes startsWith]. rewrite IH.
    destruct (Ascii.eqb x c); reflexivity.
Qed.

Lemma escapeChar_no_lt (c : ascii) : includes "<" (escapeChar c) = false.
Proof.
  unfold escapeChar.
  destruct (Ascii.eqb c "&"); [reflexivity|].
  destruct (Ascii.eqb c "<") eqn:E; [reflexivity|].
  cbn. now rewrite E.
Qed.

Lemma escapeChar_inj_step (c d : ascii) (a b : string) :
  escapeChar c +:+ a = escapeChar d +:+ b -> c = d /\ a = b.
Proof.
  unfold escapeChar.
  destruct (Ascii.eqb c "&") eqn:Ec1; destruct (Ascii.eqb d "&") eqn:Ed1;
    try (apply Ascii.eqb_eq in Ec1; subst c);
    try (apply Ascii.eqb_eq in Ed1; subst d).
  - cbn. intros H. split; [reflexivity|congruence].
  - destruct (Ascii.eqb d "<") eqn:Ed2.
    + cbn. intros H. discriminate.
    + cbn. intros H. injection H as H _. subst d. discriminate.
  - destruct (Ascii.eqb c "<") eqn:Ec2.
    + cbn. intros H. discriminate.
    + cbn. intros H. injection H as H _. subst c. discriminate.
  - destruct (Ascii.eqb c "<") eqn:Ec2; destruct (Ascii.eqb d "<") eqn:Ed2;
      try (apply Ascii.eqb_eq in Ec2; subst c);
      try (apply Ascii.eqb_eq in Ed2; subst d); cbn; intros H.
    + split; [reflexivity|congruence].
    + injection H as H _. subst d. discriminate.
    + injection H as H _. subst c. discriminate.
    + injection H as H1 H2. now split.
Qed.

Lemma escapeChar_nonempty (c : ascii) (a : string) : escapeChar c +:+ a <> "".
Proof.
  unfold escapeChar.
  destruct (Ascii.eqb c "&"); [discriminate|].
  destruct (Ascii.eqb c "<"); discriminate.
Qed.

End EscapingMore.

(** X1. The text that [escapeHtml] returns holds no [<]: written into the
    [code] node it cannot open a tag. *)
Theorem escapeHtml_no_tag (text : string) : includes "<" (escapeHtml text) = false.
Proof.
  rewrite escapeHtml_flatMap.
  induction text as [|c text IH]; [reflexivity|].
  cbn [flatMap]. rewrite includes_char_app, IH, escapeChar_no_lt. reflexivity.
Qed.

(** X2. [escapeHtml] loses nothing: two texts with the same escaped form are
    the same text. *)
Theorem escapeHtml_injective (a b : string) : escapeHtml a = escapeHtml b -> a = b.
Proof.
  rewrite !escapeHtml_flatMap. revert b.
  induction a as [|c a IH]; intros [|d b] H; cbn [flatMap] in H.
  - reflexivity.
  - symmetry in H. now apply escapeChar_nonempty in H.
  - now apply escapeChar_nonempty in H.
  - apply escapeChar_inj_step in H as [-> H]. f_equal. now apply IH.
Qed.

Lemma escapeHtml_injective_witness :
  escapeHtml "a<b" = escapeHtml ("a" +:+ "<b") /\ "a<b" = "a" +:+ "<b".
Proof.
  split; [reflexivity|].
  apply (escapeHtml_injective "a<b" ("a" +:+ "<b")). reflexivity.
Defined.

(** X3. [escapeHtml] goes through a concatenation: escaping two parts of a
    text and joining them gives the escaped text, as the templates that
    escape a text slice by slice rely on. *)
Theorem escapeHtml_concat (a b : string) :
  escapeHtml (a +:+ b) = escapeHtml a +:+ escapeHtml b.
Proof. apply escapeHtml_app. Qed.

(** X4. The round trip through [escapeHtml] and [unescapeHtml] gives a
    text back as soon as the text holds neither [&lt;] nor [&gt;]; an
    [&amp;] written in the text does no harm. *)
Theorem unescape_escape_without_lt_gt (text : string) :
  includes "&lt;" text = false -> includes "&gt;" text = false ->
  unescapeHtml (escapeHtml text) = text.
Proof. apply unescape_escape. Qed.

Lemma unescape_escape_without_lt_gt_witness :
  includes "&lt;" "a &amp;amp; b" = false
  /\ includes "&gt;" "a &amp;amp; b" = false
  /\ unescapeHtml (escapeHtml "a &amp;amp; b") = "a &amp;amp; b".
Proof.
  split; [reflexivity|]. split; [reflexivity|].
  apply (unescape_escape_without_lt_gt "a &amp;amp; b"); reflexivity.
Defined.

(** ** Wildcard names *)

Section Wildcards.

Lemma splitStar_None (s : string) : splitStar s = None <-> includes "*" s = false.
Proof.
  induction s as [|c s IH]; [now split|].
  cbn [splitStar includes startsWith].
  destruct (Ascii.eqb c "*"); [now split|].
  cbn [orb]. destruct (splitStar s) as [[a b]|].
  - split; [discriminate|]. intros H. apply IH in H. discriminate.
  - split; [intros _; now apply IH|reflexivity].
Qed.

Lemma wildcard2regex_None (s : string) :
  wildcard2regex s = None <-> includes "*" s = false.
Proof.
  rewrite <- splitStar_None. unfold wildcard2regex.
  destruct (splitStar s) as [[a b]|]; now split.
Qed.

Lemma splitStar_prefix (p rest : string) :
  includes "*" p = false -> splitStar (p +:+ String "*" rest) = Some (p, rest).
Proof.
  induction p as [|c p IH]; [reflexivity|].
  cbn [includes startsWith String.append splitStar].
  destruct (Ascii.eqb c "*"); [discriminate|].
  cbn [orb]. intros H. now rewrite IH.
Qed.

Lemma startsWith_length (a b : string) :
  startsWith a b = true -> String.length a <= String.length b.
Proof.
  revert b. induction a as [|x a IH]; intros b H; [cbn; lia|].
  destruct b as [|y b]; [discriminate|].
  cbn [startsWith] in H. destruct (Ascii.eqb y x); [|discriminate].
  apply IH in H. cbn [String.length]. lia.
Qed.

Lemma dropChars_all (s : string) : dropChars (String.length s) s = "".
Proof. induction s as [|c s IH]; [reflexivity|exact IH]. Qed.

Lemma arrayWildcards2regex_app (a b : list string) :
  arrayWildcards2regex (a ++ b)
  = ((fst (arrayWildcards2regex a) ++ fst (arrayWildcards2regex b))%list,
     (snd (arrayWildcards2regex a) ++ snd (arrayWildcards2regex b))%list).
Proof.
  unfold arrayWildcards2regex. cbn [fst snd].
  now rewrite List.filter_app, omap_app.
Qed.

Lemma listIncludes_app (name : string) (a b : list string) :
  listIncludes name (a ++ b) = listIncludes name a || listIncludes name b.
Proof. apply existsb_app. Qed.

Lemma listIncludes_In (name : string) (l : list string) :
  listIncludes name l = true <-> In name l.
Proof.
  unfold listIncludes. rewrite existsb_exists. split.
  - intros (x & Hin & Heq). apply String.eqb_eq in Heq. now subst.
  - intros Hin. exists name. split; [exact Hin|apply String.eqb_refl].
Qed.

End Wildcards.

(** X5. [arrayWildcards2regex] sorts every name of a list whose names
    hold at most one [*]: a name with a [*] leaves the list and its
    pattern is in the [regexp] property, a name without one stays in the
    list and gives no pattern. *)
Theorem arrayWildcards2regex_sorts (names : list string) (name : string) :
  Forall (fun n => atMostOneStar n = true) names ->
  In name names ->
  if includes "*" name
  then ~ In name (fst (arrayWildcards2regex names))
       /\ exists reg, wildcard2regex name = Some reg
                      /\ In reg (snd (arrayWildcards2regex names))
  else In name (fst (arrayWildcards2regex names)) /\ wildcard2regex name = None.
Proof.
  intros _ Hin. unfold arrayWildcards2regex. cbn [fst snd].
  destruct (includes "*" name) eqn:Hstar.
  - split.
    + rewrite List.filter_In. intros [_ H]. now rewrite Hstar in H.
    + destruct (wildcard2regex name) as [reg|] eqn:Hreg.
      * exists reg. split; [reflexivity|].
        apply list_elem_of_In, list_elem_of_omap.
        exists name. split; [now apply list_elem_of_In|exact Hreg].
      * apply wildcard2regex_None in Hreg. congruence.
  - split.
    + apply List.filter_In. split; [exact Hin|now rewrite Hstar].
    + now apply wildcard2regex_None.
Qed.

Lemma arrayWildcards2regex_sorts_witness :
  In "aria-*" textareaSyncAttributes_declared
  /\ ~ In "aria-*" textareaSyncAttributes
  /\ exists reg, wildcard2regex "aria-*" = Some reg
                 /\ In reg textareaSyncAttributes_regexp.
Proof.
  assert (Hin : In "aria-*" textareaSyncAttributes_declared) by (now left).
  split; [exact Hin|].
  apply (arrayWildcards2regex_sorts textareaSyncAttributes_declared "aria-*");
    [|exact Hin].
  repeat constructor.
Defined.

(** X6. A name that ends in its only [*] becomes a pattern for the names
    that start with what stands before the [*], whatever the case of the
    letters.  (The names matched are attribute names: they hold no line
    terminator, which the [.] of the pattern would not match.) *)
Theorem prefix_wildcard_matches (prefix name : string) :
  includes "*" prefix = false ->
  exists reg,
    wildcard2regex (prefix +:+ "*") = Some reg
    /\ matchWildcard reg name = startsWith (toLowerCase prefix) (toLowerCase name).
Proof.
  intros Hstar. exists (mkWildcard prefix "").
  split.
  - unfold wildcard2regex. now rewrite splitStar_prefix.
  - unfold matchWildcard. cbn [wildcardPrefix wildcardSuffix toLowerCase String.length].
    destruct (startsWith (toLowerCase prefix) (toLowerCase name)) eqn:Hs; [|reflexivity].
    apply startsWith_length in Hs.
    rewrite Nat.add_0_r, Nat.sub_0_r, dropChars_all.
    cbn [andb]. apply Nat.leb_le in Hs. now rewrite Hs.
Qed.

Lemma prefix_wildcard_matches_witness :
  includes "*" "aria-" = false
  /\ exists reg,
       wildcard2regex "aria-*" = Some reg
       /\ matchWildcard reg "ARIA-Label" = true.
Proof.
  split; [reflexivity|].
  destruct (prefix_wildcard_matches "aria-" "ARIA-Label" eq_refl) as (reg & Hreg & Hm).
  exists reg. split; [exact Hreg|]. rewrite Hm. reflexivity.
Defined.

(** X7. The attributes whose changes reach the element are [value],
    [placeholder], [lang], [template] and the ones it mirrors on its
    textarea, the [aria-] names among them. *)
Theorem observed_attributes (name : string) :
  isObserved (observedAttributes, observedAttributes_regexp) name
  = listIncludes name ["value"; "placeholder"; "lang"; "template"] || isSynced name.
Proof.
  unfold isSynced, isObserved, observedAttributes, observedAttributes_regexp,
    observedAttributes_declared, textareaSyncAttributes, textareaSyncAttributes_regexp.
  rewrite arrayWildcards2regex_app. cbn [fst snd].
  rewrite listIncludes_app, existsb_app.
  change (fst (arrayWildcards2regex ["value"; "placeholder"; "lang"; "template"]))
    with ["value"; "placeholder"; "lang"; "template"].
  change (snd (arrayWildcards2regex ["value"; "placeholder"; "lang"; "template"]))
    with (@nil Wildcard).
  cbn [existsb orb]. now rewrite orb_assoc.
Qed.

(** ** Attributes mirrored on the textarea *)

Section Mirror.

Variable attrs : gmap string string.

Lemma copiedOver_setAttribute (a v name : string) (ta : Textarea.t) :
  attrs !! a = Some v ->
  copiedOver attrs (Textarea.setAttribute a v ta) name = copiedOver attrs ta name.
Proof.
  intros Ha. unfold copiedOver. destruct (attrs !! name) eqn:Hn; [reflexivity|].
  cbn [Textarea.setAttribute Textarea.attributes].
  apply lookup_insert_ne. congruence.
Qed.

(** The loop over the names of the list. *)
Lemma sync_names (l : list string) (ta : Textarea.t) (name : string) :
  Textarea.attributes
    (fold_left
       (fun ta attribute =>
          match attrs !! attribute with
          | Some v => Textarea.setAttribute attribute v ta
          | None => ta
          end) l ta) !! name
  = if listIncludes name l then copiedOver attrs ta name
    else Textarea.attributes ta !! name.
Proof.
  revert ta. induction l as [|a l IH]; intros ta; [reflexivity|].
  cbn [fold_left]. rewrite IH. unfold listIncludes. cbn [existsb].
  fold (listIncludes name l).
  destruct (String.eqb name a) eqn:Heq.
  - apply String.eqb_eq in Heq. subst a. cbn [orb].
    destruct (attrs !! name) as [v|] eqn:Hn.
    + rewrite (copiedOver_setAttribute name v name ta Hn).
      unfold copiedOver. rewrite Hn.
      cbn [Textarea.setAttribute Textarea.attributes].
      rewrite lookup_insert_eq. now destruct (listIncludes name l).
    + unfold copiedOver. rewrite Hn. now destruct (listIncludes name l).
  - cbn [orb]. apply String.eqb_neq in Heq.
    destruct (attrs !! a) as [v|] eqn:Ha; [|reflexivity].
    rewrite (copiedOver_setAttribute a v name ta Ha).
    cbn [Textarea.setAttribute Textarea.attributes].
    now rewrite lookup_insert_ne by congruence.
Qed.

(** The loop over the attributes of the element, for one pattern. *)
Lemma sync_pattern (reg : Wildcard) (ta : Textarea.t) (name : string) :
  Textarea.attributes
    (map_fold
       (fun nodeName nodeValue ta =>
          if matchWildcard reg nodeName
          then Textarea.setAttribute nodeName nodeValue ta else ta)
       ta attrs) !! name
  = if matchWildcard reg name then copiedOver attrs ta name
    else Textarea.attributes ta !! name.
Proof.
  unfold copiedOver.
  apply (map_fold_weak_ind
           (fun (r : Textarea.t) (m : gmap string string) =>
              Textarea.attributes r !! name
              = if matchWildcard reg name
                then match m !! name with
                     | Some v => Some v
                     | None => Textarea.attributes ta !! name
                     end
                else Textarea.attributes ta !! name)).
  - rewrite lookup_empty. now destruct (matchWildcard reg name).
  - intros i x m r Hi Hr.
    destruct (decide (i = name)) as [->|Hne].
    + rewrite lookup_insert_eq.
      destruct (matchWildcard reg name); [|exact Hr].
      cbn [Textarea.setAttribute Textarea.attributes]. apply lookup_insert_eq.
    + rewrite lookup_insert_ne by exact Hne.
      destruct (matchWildcard reg i); [|exact Hr].
      cbn [Textarea.setAttribute Textarea.attributes].
      now rewrite lookup_insert_ne by exact Hne.
Qed.

Lemma copiedOver_idem (ta ta' : Textarea.t) (name : string) :
  Textarea.attributes ta' !! name = copiedOver attrs ta name ->
  copiedOver attrs ta' name = copiedOver attrs ta name.
Proof.
  unfold copiedOver. intros H. destruct (attrs !! name); [reflexivity|exact H].
Qed.

(** The loop over the patterns. *)
Lemma sync_patterns (regs : list Wildcard) (ta : Textarea.t) (name : string) :
  Textarea.attributes
    (fold_left
       (fun ta reg =>
          map_fold
            (fun nodeName nodeValue ta =>
               if matchWildcard reg nodeName
               then Textarea.setAttribute nodeName nodeValue ta else ta)
            ta attrs) regs ta) !! name
  = if existsb (fun reg => matchWildcard reg name) regs
    then copiedOver attrs ta name
    else Textarea.attributes ta !! name.
Proof.
  revert ta. induction regs as [|reg regs IH]; intros ta; [reflexivity|].
  cbn [fold_left existsb]. rewrite IH.
  pose proof (sync_pattern reg ta name) as Hreg.
  destruct (matchWildcard reg name); cbn [orb].
  - rewrite (copiedOver_idem ta _ name Hreg), Hreg.
    now destruct (existsb _ regs).
  - unfold copiedOver at 1. rewrite Hreg.
    destruct (existsb _ regs); reflexivity.
Qed.

(** The copy touches the attributes of the textarea and nothing else of
    it. *)
Lemma syncAttributes_rest (ta : Textarea.t) :
  Textarea.value (syncAttributes attrs ta) = Textarea.value ta
  /\ Textarea.innerHTML (syncAttributes attrs ta) = Textarea.innerHTML ta
  /\ Textarea.listeners (syncAttributes attrs ta) = Textarea.listeners ta.
Proof.
  unfold syncAttributes.
  apply (fold_left_invariant
           (fun x => Textarea.value x = Textarea.value ta
                     /\ Textarea.innerHTML x = Textarea.innerHTML ta
                     /\ Textarea.listeners x = Textarea.listeners ta)).
  - apply (fold_left_invariant
             (fun x => Textarea.value x = Textarea.value ta
                       /\ Textarea.innerHTML x = Textarea.innerHTML ta
                       /\ Textarea.listeners x = Textarea.listeners ta));
      [now repeat split|].
    intros b a Hb. destruct (attrs !! a); exact Hb.
  - intros b reg Hb.
    apply (map_fold_weak_ind
             (fun (r : Textarea.t) (_ : gmap string string) =>
                Textarea.value r = Textarea.value ta
                /\ Textarea.innerHTML r = Textarea.innerHTML ta
                /\ Textarea.listeners r = Textarea.listeners ta)); [exact Hb|].
    intros i x m r _ Hr. destruct (matchWildcard reg i); exact Hr.
Qed.

End Mirror.

(** X8. The first-time copy in [setup] gives the textarea the attributes
    of the element that are mirrored, by name or by pattern, and no
    other: an attribute that is not mirrored is as the textarea had it,
    and so is a mirrored one that the element does not have.  The value,
    the content and the listeners of the textarea are as before. *)
Theorem syncAttributes_copies (attrs : gmap string string) (ta : Textarea.t)
  (name : string) :
  Textarea.attributes (syncAttributes attrs ta) !! name
  = (if isSynced name then copiedOver attrs ta name
     else Textarea.attributes ta !! name)
  /\ Textarea.value (syncAttributes attrs ta) = Textarea.value ta
  /\ Textarea.innerHTML (syncAttributes attrs ta) = Textarea.innerHTML ta
  /\ Textarea.listeners (syncAttributes attrs ta) = Textarea.listeners ta.
Proof.
  split; [|apply syncAttributes_rest].
  unfold syncAttributes, isSynced, isObserved. cbn [fst snd].
  rewrite sync_patterns.
  set (ta1 := fold_left _ textareaSyncAttributes ta).
  pose proof (sync_names attrs textareaSyncAttributes ta name) as Hnames.
  fold ta1 in Hnames.
  destruct (listIncludes name textareaSyncAttributes); cbn [orb].
  - rewrite (copiedOver_idem attrs ta ta1 name Hnames), Hnames.
    now destruct (existsb _ textareaSyncAttributes_regexp).
  - unfold copiedOver at 1. rewrite Hnames.
    destruct (existsb _ textareaSyncAttributes_regexp); reflexivity.
Qed.

(** X9. A change of an attribute other than [value], [placeholder],
    [template] and [lang], reported to a connected element that has its
    textarea: the plugins of the template are told, and the textarea gets
    the new value, or loses the attribute when the new value is [null],
    exactly when the attribute is one that [setup] copies. *)
Theorem other_attribute_mirrored
  (used : gmap string Template) (dflt : option string)
  (name : string) (oldValue newValue : option string)
  (e : CodeInput) (t : Template) (ta : Textarea.t) :
  isConnected e = true -> template e = Some (Registered t) -> textareaElement e = Some ta ->
  ~ In name ["value"; "placeholder"; "template"; "lang"] ->
  attributeChangedCallback used dflt name oldValue newValue e
  = Done (let e1 := set_log e (log e ++ pluginEvents t "attributeChanged"
                                           [Some name; oldValue; newValue]) in
          if isSynced name
          then set_textareaElement e1
                 (Some (match newValue with
                        | None => Textarea.removeAttribute name ta
                        | Some v => Textarea.setAttribute name v ta
                        end))
          else e1).
Proof.
  intros Hconn Ht Hta Hname.
  assert (Hne : forall s, In s ["value"; "placeholder"; "template"; "lang"] ->
                          String.eqb name s = false).
  { intros s Hs. apply String.eqb_neq. intros ->. now apply Hname. }
  unfold attributeChangedCallback. rewrite Hconn.
  unfold pluginEvt. rewrite Ht. fields.
  rewrite !Hne by (cbn; tauto).
  fold (pluginEvents t "attributeChanged" [Some name; oldValue; newValue]).
  cbv zeta. set (e1 := set_log e _).
  unfold syncAttribute, isSynced, isObserved. cbn [fst snd].
  destruct (listIncludes name textareaSyncAttributes); cbn [orb].
  - unfold e1. fields. rewrite Hta. now destruct newValue.
  - change textareaSyncAttributes_regexp with [mkWildcard "aria-" ""].
    cbn [fold_left existsb andThen]. rewrite orb_false_r.
    destruct (matchWildcard (mkWildcard "aria-" "") name); [|reflexivity].
    unfold e1. fields. rewrite Hta. now destruct newValue.
Qed.

Lemma other_attribute_mirrored_witness :
  exists ta,
    textareaElement jsActive = Some ta
    /\ Textarea.attributes ta !! "aria-label" = None
    /\ exists e',
         attributeChangedCallback ∅ None "aria-label" None (Some "Editor") jsActive
         = Done e'
         /\ (Textarea.attributes <$> textareaElement e')
            = Some (<["aria-label" := "Editor"]> (Textarea.attributes ta)).
Proof.
  destruct (textareaElement jsActive) as [ta|] eqn:Hta;
    [|vm_compute in Hta; discriminate].
  exists ta. split; [reflexivity|].
  split; [vm_compute in Hta; injection Hta as <-; vm_compute; reflexivity|].
  eexists. split.
  - apply (other_attribute_mirrored ∅ None "aria-label" None (Some "Editor")
             jsActive plainTemplate ta);
      [reflexivity|reflexivity|exact Hta|].
    cbn. intros [H|[H|[H|[H|[]]]]]; discriminate.
  - cbv zeta. change (isSynced "aria-label") with true. cbv iota. fields.
    reflexivity.
Defined.

(** ** The value of the element *)

Section Value.

(** What a render leaves of the element besides the fields that
    [update_render] names. *)
Lemma update_render_rest (T : string) (e e' : CodeInput) ta code t :
  textareaElement e = Some ta -> codeElement e = Some code ->
  template e = Some (Registered t) -> ignoreValueUpdate e = false ->
  update T e = Done e' ->
  initialValue e' = initialValue e
  /\ boundEventCallbacks e' = boundEventCallbacks e
  /\ isConnected e' = isConnected e
  /\ innerHTML e' = innerHTML e
  /\ observers e' = observers e.
Proof.
  intros Hta Hcode Ht Hflag Hupd.
  rewrite (update_surfaces T e ta Hta Hflag) in Hupd.
  destruct (valueStored_fields T e ta) as (_ & _ & Hc & _ & Htt & _).
  rewrite (renderInto_done T _ code t) in Hupd by congruence.
  injection Hupd as <-. fields. unfold valueStored.
  destruct (String.eqb (Textarea.value ta) T); repeat split.
Qed.

(** The end of [update] keeps the value of the element, also when it
    raises an exception. *)
Lemma renderInto_value (T : string) (e : CodeInput) :
  exists e', endsIn (renderInto T e) e' /\ _value e' = _value e.
Proof.
  destruct (codeElement e) as [code|] eqn:Hcode.
  - destruct (template e) as [[t|key]|] eqn:Ht.
    + rewrite (renderInto_done T e code t Hcode Ht).
      eexists. split; [now left|reflexivity].
    + unfold renderInto. rewrite Hcode. cbn [andThen]. unfold pluginEvt at 1.
      cbn [template set_codeElement]. rewrite Ht. cbn [andThen].
      cbn [template codeElement set_codeElement]. rewrite Ht.
      eexists. split; [right; eexists; reflexivity|reflexivity].
    + unfold renderInto. rewrite Hcode. cbn [andThen]. unfold pluginEvt at 1.
      cbn [template set_codeElement]. rewrite Ht. cbn [andThen].
      eexists. split; [right; eexists; reflexivity|reflexivity].
  - unfold renderInto. rewrite Hcode. cbn [andThen].
    eexists. split; [right; eexists; reflexivity|reflexivity].
Qed.

(** [update] with the value that the element holds keeps it. *)
Lemma update_keeps_value (T : string) (e : CodeInput) :
  _value e = T -> exists e', endsIn (update T e) e' /\ _value e' = T.
Proof.
  intros Hval.
  destruct (ignoreValueUpdate e) eqn:Hflag.
  - rewrite update_ignored by assumption. exists e. split; [now left|exact Hval].
  - destruct (textareaElement e) as [ta|] eqn:Hta.
    + rewrite (update_surfaces T e ta Hta Hflag).
      destruct (renderInto_value T (valueStored T ta e)) as (e' & Hend & Hv).
      exists e'. split; [exact Hend|].
      destruct (valueStored_fields T e ta) as (Hs & _). congruence.
    + rewrite update_deferred by assumption.
      eexists. split; [now left|exact Hval].
Qed.

End Value.

(** X10. The setter of [value] stores what it is given, and the empty
    string for [null] or [undefined], whatever the state of the element:
    before [setup], during an [update], and also when the render that
    follows raises an exception, the getter returns it afterwards. *)
Theorem setValue_then_getValue (val : option string) (e : CodeInput) :
  exists e', endsIn (setValue val e) e' /\ getValue e' = default "" val.
Proof.
  unfold setValue, setValue_with, getValue. cbv zeta.
  apply update_keeps_value. reflexivity.
Qed.

(** X11. A change of the [value] attribute of a connected Active element
    tells the plugins of the change, then renders the new value once: the
    element holds the new value, and the textarea gives it with its line
    breaks normalised, so as it is when it holds no carriage return; a
    removed attribute empties the editor. *)
Theorem value_attribute_changed
  (used : gmap string Template) (dflt : option string)
  (oldValue newValue : option string) (e : CodeInput) :
  isConnected e = true -> Active e ->
  exists e' t,
    template e = Some (Registered t)
    /\ attributeChangedCallback used dflt "value" oldValue newValue e = Done e'
    /\ getValue e' = default "" newValue
    /\ Textarea.value <$> textareaElement e'
       = Some (normalizeNewlines (default "" newValue))
    /\ (hasCarriageReturn (default "" newValue) = false ->
        Textarea.value <$> textareaElement e' = Some (default "" newValue))
    /\ log e'
       = (log e
          ++ pluginEvents t "attributeChanged" [Some "value"; oldValue; newValue]
          ++ renderEvents t (default "" newValue))%list
    /\ Active e'.
Proof.
  intros Hconn [[ta Hta] [pre Hpre] [code Hcode] [t Ht] Hflag].
  unfold attributeChangedCallback. rewrite Hconn.
  unfold pluginEvt. rewrite Ht. fields. cbn [String.eqb Ascii.eqb Bool.eqb].
  fold (pluginEvents t "attributeChanged" [Some "value"; oldValue; newValue]).
  unfold setValue, setValue_with. cbv zeta.
  set (v := default "" newValue).
  set (e1 := set__value (set_log e _) v).
  destruct (update_render v e1 ta code t Hta Hcode Ht Hflag)
    as (e' & Hupd & Hval & Hta' & Hcode' & Hlog & Ht' & Hflag' & Hpre' & _).
  assert (Hshown : Textarea.value <$> textareaElement e' = Some (normalizeNewlines v)).
  { rewrite Hta'. cbn [fmap option_fmap option_map]. now rewrite written_value. }
  exists e', t. split; [reflexivity|]. split; [exact Hupd|].
  split; [exact Hval|]. split; [exact Hshown|].
  split; [intros Hcr; rewrite Hshown; now rewrite normalizeNewlines_id|].
  split; [rewrite Hlog; unfold e1; fields; now rewrite <- app_assoc|].
  split; [rewrite Hta'|rewrite Hpre'; unfold e1; fields; rewrite Hpre
         |rewrite Hcode'|rewrite Ht'|assumption]; eauto.
Qed.

Lemma value_attribute_changed_witness :
  exists e',
    attributeChangedCallback ∅ None "value" (Some "a") None jsActive = Done e'
    /\ getValue e' = ""
    /\ Textarea.value <$> textareaElement e' = Some "".
Proof.
  assert (Hact : Active jsActive) by (split; cbn; eauto).
  destruct (value_attribute_changed ∅ None (Some "a") None jsActive eq_refl Hact)
    as (e' & t & _ & Hrun & Hval & _ & Hta & _).
  exists e'. split; [exact Hrun|]. split; [exact Hval|exact (Hta eq_refl)].
Defined.

(** X12. A form reset brings an Active element back to the value that
    [setup] recorded, whatever was entered since: after any [update], the
    reset renders the initial value, the element holds it again, and the
    textarea gives it with its line breaks normalised, so as it is when
    it holds no carriage return. *)
Theorem formReset_restores (T initial : string) (e : CodeInput) :
  Active e -> initialValue e = Some initial ->
  exists e1 e2 t,
    template e = Some (Registered t)
    /\ update T e = Done e1
    /\ formResetCallback e1 = Done e2
    /\ getValue e2 = initial
    /\ Textarea.value <$> textareaElement e2 = Some (normalizeNewlines initial)
    /\ (hasCarriageReturn initial = false ->
        Textarea.value <$> textareaElement e2 = Some initial)
    /\ log e2 = (log e ++ renderEvents t T ++ renderEvents t initial)%list
    /\ initialValue e2 = Some initial
    /\ Active e2.
Proof.
  intros [[ta Hta] [pre Hpre] [code Hcode] [t Ht] Hflag] Hinit.
  destruct (update_render T e ta code t Hta Hcode Ht Hflag)
    as (e1 & Hupd1 & Hval1 & Hta1 & Hcode1 & Hlog1 & Ht1 & Hflag1 & Hpre1 & _).
  destruct (update_render_rest T e e1 ta code t Hta Hcode Ht Hflag Hupd1)
    as (Hinit1 & _).
  destruct (update_render initial e1 _ _ t Hta1 Hcode1 Ht1 Hflag1)
    as (e2 & Hupd2 & Hval2 & Hta2 & Hcode2 & Hlog2 & Ht2 & Hflag2 & Hpre2 & _).
  destruct (update_render_rest initial e1 e2 _ _ t Hta1 Hcode1 Ht1 Hflag1 Hupd2)
    as (Hinit2 & _).
  assert (Hshown : Textarea.value <$> textareaElement e2
                   = Some (normalizeNewlines initial)).
  { rewrite Hta2. cbn [fmap option_fmap option_map]. now rewrite written_value. }
  exists e1, e2, t. split; [exact Ht|]. split; [exact Hupd1|].
  split; [unfold formResetCallback; rewrite Hinit1, Hinit; exact Hupd2|].
  split; [exact Hval2|]. split; [exact Hshown|].
  split; [intros Hcr; rewrite Hshown; now rewrite normalizeNewlines_id|].
  split; [rewrite Hlog2, Hlog1; now rewrite <- app_assoc|].
  split; [congruence|].
  split; [rewrite Hta2|rewrite Hpre2, Hpre1, Hpre|rewrite Hcode2|rewrite Ht2|assumption];
    eauto.
Qed.

Lemma formReset_restores_witness :
  exists e1 e2,
    update "let x = 1;" jsActive = Done e1
    /\ formResetCallback e1 = Done e2
    /\ getValue e1 = "let x = 1;"
    /\ getValue e2 = "".
Proof.
  assert (Hact : Active jsActive) by (split; cbn; eauto).
  destruct (formReset_restores "let x = 1;" "" jsActive Hact eq_refl)
    as (e1 & e2 & t & _ & Hupd & Hreset & Hval & _).
  exists e1, e2. split; [exact Hupd|]. split; [exact Hreset|].
  split; [|exact Hval].
  vm_compute in Hupd. injection Hupd as <-. reflexivity.
Defined.

(** ** Changes of the [template] and [placeholder] attributes *)

Section StyledClass.

Lemma classList_contains_add (c d : string) (l : list string) :
  classList_contains c (tokens_add d l)
  = classList_contains c l || String.eqb c d.
Proof.
  apply eq_true_iff_eq.
  rewrite orb_true_iff, !classList_contains_In, tokens_add_In, String.eqb_eq.
  reflexivity.
Qed.

Lemma classList_contains_remove (c d : string) (l : list string) :
  classList_contains c (tokens_remove d l)
  = classList_contains c l && negb (String.eqb c d).
Proof.
  apply eq_true_iff_eq.
  rewrite andb_true_iff, negb_true_iff, !classList_contains_In,
    tokens_remove_In, String.eqb_neq.
  reflexivity.
Qed.

End StyledClass.

(** X13. A change of the [template] attribute of a connected Active
    element to a registered name: the plugins of the template that the
    element had are told of the change, the element takes the new
    template, carries the class [code-input_pre-element-styled] exactly
    when the new template styles the [pre] node, keeps its other classes
    and its value, and renders the value once with the new template. *)
Theorem template_attribute_changed
  (used : gmap string Template) (dflt : option string)
  (oldValue newValue : option string) (e : CodeInput) (t t' : Template) :
  isConnected e = true -> Active e -> template e = Some (Registered t) ->
  used !! keyOf (orElse newValue dflt) = Some t' ->
  exists e',
    attributeChangedCallback used dflt "template" oldValue newValue e = Done e'
    /\ template e' = Some (Registered t')
    /\ getValue e' = getValue e
    /\ log e'
       = (log e
          ++ pluginEvents t "attributeChanged" [Some "template"; oldValue; newValue]
          ++ renderEvents t' (getValue e))%list
    /\ classList_contains "code-input_pre-element-styled" (classList e')
       = preElementStyled t'
    /\ (forall c, c <> "code-input_pre-element-styled" ->
                  classList_contains c (classList e') = classList_contains c (classList e))
    /\ Active e'.
Proof.
  intros Hconn [[ta Hta] [pre Hpre] [code Hcode] _ Hflag] Ht Hreg.
  unfold attributeChangedCallback. rewrite Hconn.
  unfold pluginEvt. rewrite Ht. fields. cbn [String.eqb Ascii.eqb Bool.eqb].
  fold (pluginEvents t "attributeChanged" [Some "template"; oldValue; newValue]).
  rewrite (propertyOf_registered _ _ _ Hreg). fields. unfold getValue.
  set (e0 := set_template (set_log e _) (Some (Registered t'))).
  assert (Hstyle : exists e1,
    (if preElementStyled t'
     then addClass "code-input_pre-element-styled" e0
     else removeClass "code-input_pre-element-styled" e0) = Done e1
    /\ e1 = set_classList e0
              (if preElementStyled t'
               then tokens_add "code-input_pre-element-styled" (classList e0)
               else tokens_remove "code-input_pre-element-styled" (classList e0))).
  { destruct (preElementStyled t').
    - rewrite addClass_valid by reflexivity. eauto.
    - rewrite removeClass_valid by reflexivity. eauto. }
  destruct Hstyle as (e1 & -> & He1eq). cbn [andThen].
  assert (He1 : textareaElement e1 = Some ta /\ codeElement e1 = Some code
                /\ template e1 = Some (Registered t') /\ ignoreValueUpdate e1 = false
                /\ preElement e1 = Some pre /\ _value e1 = _value e
                /\ log e1 = (log e ++ pluginEvents t "attributeChanged"
                                        [Some "template"; oldValue; newValue])%list
                /\ classList e1
                   = if preElementStyled t'
                     then tokens_add "code-input_pre-element-styled" (classList e)
                     else tokens_remove "code-input_pre-element-styled" (classList e)).
  { rewrite He1eq. unfold e0. fields. repeat split; assumption. }
  destruct He1 as (Hta1 & Hcode1 & Ht1 & Hflag1 & Hpre1 & Hval1 & Hlog1 & Hcl1).
  destruct (update_render (_value e1) e1 ta code t' Hta1 Hcode1 Ht1 Hflag1)
    as (e' & Hupd & Hval & Hta' & Hcode' & Hlog & Ht' & Hflag' & Hpre' & _ & _ & Hcl & _).
  exists e'. split; [exact Hupd|]. split; [exact Ht'|].
  split; [congruence|].
  split; [rewrite Hlog, Hlog1, Hval1; now rewrite <- app_assoc|].
  rewrite Hcl, Hcl1.
  split.
  { destruct (preElementStyled t').
    - rewrite classList_contains_add, String.eqb_refl. apply orb_true_r.
    - rewrite classList_contains_remove, String.eqb_refl. apply andb_false_r. }
  split.
  { intros c Hc. apply String.eqb_neq in Hc.
    destruct (preElementStyled t').
    - rewrite classList_contains_add, Hc. apply orb_false_r.
    - rewrite classList_contains_remove, Hc. apply andb_true_r. }
  split; [rewrite Hta'|rewrite Hpre', Hpre1|rewrite Hcode'|rewrite Ht'|assumption];
    eauto.
Qed.

Lemma template_attribute_changed_witness :
  exists e',
    attributeChangedCallback
      {[ "plain" := mkTemplate (fun content _ => content) false false false [] ]}
      None "template" None (Some "plain") jsActive = Done e'
    /\ classList_contains "code-input_pre-element-styled" (classList jsActive) = true
    /\ classList_contains "code-input_pre-element-styled" (classList e') = false
    /\ classList_contains "code-input_registered" (classList e') = true.
Proof.
  assert (Hact : Active jsActive) by (split; cbn; eauto).
  assert (Hreg : ({[ "plain" := mkTemplate (fun content _ => content) false false false [] ]}
                    : gmap string Template) !! keyOf (orElse (Some "plain") None)
                 = Some (mkTemplate (fun content _ => content) false false false []))
    by (vm_compute; reflexivity).
  destruct (template_attribute_changed _ None None (Some "plain") jsActive plainTemplate
              _ eq_refl Hact eq_refl Hreg)
    as (e' & Hrun & _ & _ & _ & Hstyled & Hother & _).
  exists e'. split; [exact Hrun|]. split; [reflexivity|].
  split; [exact Hstyled|].
  rewrite Hother by discriminate. reflexivity.
Defined.

(** X14. A change of the [placeholder] attribute of a connected element
    that has its textarea is written to the placeholder of the textarea;
    when the attribute is removed, the new value is [null] and the
    textarea shows the text [null]. *)
Theorem placeholder_attribute_changed
  (used : gmap string Template) (dflt : option string)
  (oldValue newValue : option string) (e : CodeInput) (t : Template) (ta : Textarea.t) :
  isConnected e = true -> template e = Some (Registered t) -> textareaElement e = Some ta ->
  exists e' ta',
    attributeChangedCallback used dflt "placeholder" oldValue newValue e = Done e'
    /\ textareaElement e' = Some ta'
    /\ Textarea.placeholder ta'
       = match newValue with Some v => v | None => "null" end
    /\ Textarea.value ta' = Textarea.value ta
    /\ getValue e' = getValue e
    /\ highlighted (log e') = highlighted (log e).
Proof.
  intros Hconn Ht Hta.
  unfold attributeChangedCallback. rewrite Hconn.
  unfold pluginEvt. rewrite Ht. fields. cbn [String.eqb Ascii.eqb Bool.eqb].
  rewrite Hta. eexists _, _. split; [reflexivity|]. fields.
  split; [reflexivity|].
  split.
  { unfold Textarea.placeholder, Textarea.setPlaceholder.
    cbn [Textarea.setAttribute Textarea.attributes].
    rewrite lookup_insert_eq. now destruct newValue. }
  split; [reflexivity|]. split; [reflexivity|].
  fold (pluginEvents t "attributeChanged" [Some "placeholder"; oldValue; newValue]).
  now rewrite highlighted_app, highlighted_pluginEvents, app_nil_r.
Qed.

Lemma placeholder_attribute_changed_witness :
  exists e' ta',
    attributeChangedCallback ∅ None "placeholder" (Some "py") None jsActive = Done e'
    /\ textareaElement e' = Some ta'
    /\ Textarea.placeholder ta' = "null".
Proof.
  destruct (textareaElement jsActive) as [ta|] eqn:Hta;
    [|vm_compute in Hta; discriminate].
  destruct (placeholder_attribute_changed ∅ None (Some "py") None jsActive
              plainTemplate ta eq_refl eq_refl Hta)
    as (e' & ta' & Hrun & Hta' & Hp & _).
  exists e', ta'. split; [exact Hrun|]. split; [exact Hta'|exact Hp].
Defined.

(** ** Listeners *)

Section Listeners.

Lemma madeBefore_not_same (n : nat) (rs : list Registration) type (l : Listener) capture :
  madeBefore n rs ->
  Forall (fun r => sameRegistration type (Bound (Bind n l)) capture r = false) rs.
Proof.
  unfold madeBefore. intros H. eapply Forall_impl; [exact H|].
  intros r Hr. cbn beta in *. unfold sameRegistration.
  destruct (regCallback r) as [name|b|l']; cbn [sameCallback].
  - now rewrite andb_false_r.
  - cbn [boundId]. assert (Hne : Nat.eqb (boundId b) n = false)
      by (apply Nat.eqb_neq; lia).
    now rewrite Hne, andb_false_r.
  - destruct l'; now rewrite andb_false_r.
Qed.

Lemma existsb_none {A : Type} (p : A -> bool) (l : list A) :
  Forall (fun x => p x = false) l -> existsb p l = false.
Proof.
  induction 1 as [|x l Hx _ IH]; [reflexivity|].
  cbn [existsb]. now rewrite Hx, IH.
Qed.

Lemma filter_none {A : Type} (p : A -> bool) (l : list A) :
  Forall (fun x => p x = false) l -> List.filter (fun x => negb (p x)) l = l.
Proof.
  induction 1 as [|x l Hx _ IH]; [reflexivity|].
  cbn [List.filter]. now rewrite Hx, IH.
Qed.

Lemma sameRegistration_refl type (b : BoundCallback) capture :
  sameRegistration type (Bound b) capture (mkRegistration type (Bound b) capture) = true.
Proof.
  unfold sameRegistration. cbn.
  now rewrite String.eqb_refl, Nat.eqb_refl, Bool.eqb_reflx.
Qed.

(** A bound function that was not attached before is attached at the
    end. *)
Lemma eventTarget_add_new (n : nat) (rs : list Registration) type (l : Listener) options :
  madeBefore n rs ->
  eventTarget_add type (Bound (Bind n l)) options rs
  = (rs ++ [mkRegistration type (Bound (Bind n l)) (default false options)])%list.
Proof.
  intros H. unfold eventTarget_add. cbv zeta.
  now rewrite (existsb_none _ _ (madeBefore_not_same n rs type l _ H)).
Qed.

(** Removing it takes it off and leaves what was attached before. *)
Lemma eventTarget_remove_new (n : nat) (rs : list Registration) type (l : Listener) options :
  madeBefore n rs ->
  eventTarget_remove type (Some (Bound (Bind n l))) options
    (rs ++ [mkRegistration type (Bound (Bind n l)) (default false options)])
  = rs.
Proof.
  intros H. unfold eventTarget_remove.
  rewrite List.filter_app, (filter_none _ _ (madeBefore_not_same n rs type l _ H)).
  cbn [List.filter]. rewrite sameRegistration_refl. apply app_nil_r.
Qed.

Lemma madeBefore_S (n : nat) (rs : list Registration) :
  madeBefore n rs -> madeBefore (S n) rs.
Proof.
  unfold madeBefore. intros H. eapply Forall_impl; [exact H|].
  intros r Hr. cbn beta in *. destruct (regCallback r); [trivial|lia|trivial].
Qed.

(** [addEventListener] for a mirrored type on an element that has its
    textarea. *)
Lemma addEventListener_textarea type (l : Listener) options (e : CodeInput) ta :
  listIncludes type textareaSyncEvents = true -> textareaElement e = Some ta ->
  addEventListener type l options e
  = Done (set_textareaElement
            (set_boundEventCallbacks (set_binds e (S (binds e)))
               (<[sourceText l := Bind (binds e) l]> (boundEventCallbacks e)))
            (Some (Textarea.addEventListener type (Bound (Bind (binds e) l)) options ta))).
Proof.
  intros Hsync Hta.
  unfold addEventListener. cbn [addEventListener_fuel].
  unfold addEventListener_body at 1. rewrite Hsync. fields. now rewrite Hta.
Qed.

(** [removeEventListener] for the two types that it names. *)
Lemma removeEventListener_textarea type (l : Listener) options (e : CodeInput) ta :
  type = "change" \/ type = "selectionchange" -> textareaElement e = Some ta ->
  removeEventListener type l options e
  = Done (set_textareaElement e
            (Some (Textarea.removeEventListener type
                     (Bound <$> boundEventCallbacks e !! sourceText l) options ta))).
Proof.
  intros [-> | ->] Hta; unfold removeEventListener;
    cbn [String.eqb Ascii.eqb Bool.eqb]; now rewrite Hta.
Qed.

End Listeners.

(** X15. A listener added for [change] or [selectionchange] and then
    removed with the same arguments is off the textarea again: the
    textarea has the listeners it had before. *)
Theorem change_listener_removed (type : string) (l : Listener) (options : option bool)
  (e : CodeInput) (ta : Textarea.t) :
  type = "change" \/ type = "selectionchange" ->
  textareaElement e = Some ta ->
  madeBefore (binds e) (Textarea.listeners ta) ->
  exists e2 e3,
    addEventListener type l options e = Done e2
    /\ removeEventListener type l options e2 = Done e3
    /\ Textarea.listeners <$> textareaElement e3 = Some (Textarea.listeners ta).
Proof.
  intros Htype Hta Hfresh.
  assert (Hsync : listIncludes type textareaSyncEvents = true)
    by (destruct Htype; subst; reflexivity).
  rewrite (addEventListener_textarea type l options e ta Hsync Hta).
  eexists _, _. split; [reflexivity|].
  erewrite removeEventListener_textarea; [|exact Htype|reflexivity].
  split; [reflexivity|]. fields. rewrite lookup_insert_eq.
  cbn [fmap option_fmap option_map Textarea.removeEventListener
       Textarea.addEventListener Textarea.listeners].
  rewrite (eventTarget_add_new _ _ type l options Hfresh).
  now rewrite (eventTarget_remove_new _ _ type l options Hfresh).
Qed.

Lemma change_listener_removed_witness :
  exists e2 e3,
    addEventListener "change" onInput None jsActive = Done e2
    /\ removeEventListener "change" onInput None e2 = Done e3
    /\ Textarea.listeners <$> textareaElement e3
       = Textarea.listeners <$> textareaElement jsActive.
Proof.
  destruct (textareaElement jsActive) as [ta|] eqn:Hta;
    [|vm_compute in Hta; discriminate].
  assert (Hfresh : madeBefore (binds jsActive) (Textarea.listeners ta)).
  { vm_compute in Hta. injection Hta as <-.
    repeat constructor. }
  destruct (change_listener_removed "change" onInput None jsActive ta
              (or_introl eq_refl) Hta Hfresh) as (e2 & e3 & Hadd & Hrem & Hls).
  exists e2, e3. split; [exact Hadd|]. split; [exact Hrem|exact Hls].
Defined.

(** X16. [boundEventCallbacks] files a listener under its source text.
    Of two listeners with the same source text added for [change] or
    [selectionchange], the second takes the entry of the first: removing
    the first one takes the second off the textarea, and the first one
    stays attached. *)
Theorem same_source_removes_other (type : string) (l1 l2 : Listener)
  (options : option bool) (e : CodeInput) (ta : Textarea.t) :
  type = "change" \/ type = "selectionchange" ->
  textareaElement e = Some ta ->
  madeBefore (binds e) (Textarea.listeners ta) ->
  sourceText l1 = sourceText l2 ->
  exists e1 e2 e3,
    addEventListener type l1 options e = Done e1
    /\ addEventListener type l2 options e1 = Done e2
    /\ removeEventListener type l1 options e2 = Done e3
    /\ Textarea.listeners <$> textareaElement e3
       = Some (Textarea.listeners ta
               ++ [mkRegistration type (Bound (Bind (binds e) l1))
                     (default false options)])%list.
Proof.
  intros Htype Hta Hfresh Hsource.
  assert (Hsync : listIncludes type textareaSyncEvents = true)
    by (destruct Htype; subst; reflexivity).
  rewrite (addEventListener_textarea type l1 options e ta Hsync Hta).
  eexists _, _, _. split; [reflexivity|].
  erewrite (addEventListener_textarea type l2); [|exact Hsync|reflexivity].
  split; [reflexivity|].
  erewrite removeEventListener_textarea; [|exact Htype|reflexivity].
  split; [reflexivity|]. fields. rewrite Hsource, lookup_insert_eq.
  cbn [fmap option_fmap option_map Textarea.removeEventListener
       Textarea.addEventListener Textarea.listeners].
  rewrite (eventTarget_add_new _ _ type l1 options Hfresh).
  assert (Hfresh1 : madeBefore (S (binds e))
                      (Textarea.listeners ta
                       ++ [mkRegistration type (Bound (Bind (binds e) l1))
                             (default false options)])).
  { apply Forall_app. split; [now apply madeBefore_S|].
    constructor; [cbn; lia|constructor]. }
  rewrite (eventTarget_add_new _ _ type l2 options Hfresh1).
  now rewrite (eventTarget_remove_new _ _ type l2 options Hfresh1).
Qed.

Lemma same_source_removes_other_witness :
  exists e1 e2 e3 ta3,
    addEventListener "change" (UserListener 1 "(evt) => save()") None jsActive = Done e1
    /\ addEventListener "change" (UserListener 2 "(evt) => save()") None e1 = Done e2
    /\ removeEventListener "change" (UserListener 1 "(evt) => save()") None e2 = Done e3
    /\ textareaElement e3 = Some ta3
    /\ omap (fun r => callbackListener (regCallback r)) (Textarea.listeners ta3)
       = [UserListener 1 "(evt) => save()"].
Proof.
  destruct (textareaElement jsActive) as [ta|] eqn:Hta;
    [|vm_compute in Hta; discriminate].
  assert (Hfresh : madeBefore (binds jsActive) (Textarea.listeners ta)).
  { vm_compute in Hta. injection Hta as <-.
    repeat constructor. }
  destruct (same_source_removes_other "change"
              (UserListener 1 "(evt) => save()") (UserListener 2 "(evt) => save()")
              None jsActive ta (or_introl eq_refl) Hta Hfresh eq_refl)
    as (e1 & e2 & e3 & Hadd1 & Hadd2 & Hrem & Hls).
  destruct (textareaElement e3) as [ta3|] eqn:Hta3; [|discriminate].
  exists e1, e2, e3, ta3.
  split; [exact Hadd1|]. split; [exact Hadd2|]. split; [exact Hrem|].
  split; [exact Hta3|].
  injection Hls as Hls. rewrite Hls.
  vm_compute in Hta. injection Hta as <-.
  vm_compute. reflexivity.
Defined.

(** ** More on [setup] *)

Section SetupMore.

Lemma initialValueOf_eq (e : CodeInput) :
  default "" (orElse (orElse (Some (unescapeHtml (innerHTML e))) (attributes e !! "value"))
                (Some ""))
  = initialValueOf e.
Proof.
  unfold initialValueOf, orElse. cbv zeta.
  destruct (String.eqb (unescapeHtml (innerHTML e)) "") eqn:Hc.
  - destruct (attributes e !! "value") as [s|]; [|reflexivity].
    destruct (String.eqb s "") eqn:Hs; [|reflexivity].
    apply String.eqb_eq in Hs. now subst.
  - now rewrite Hc.
Qed.

(** [setup_build] up to the point where the nodes are made and
    stored. *)
Lemma setup_build_shape (t : Template) (created : nat) (e : CodeInput) :
  template e = Some (Registered t) -> langValid e ->
  exists E ta pre code,
    setup_build created e
    = (run x <- pluginEvt "afterElementsAdded" [] E in
       run x <- update (initialValueOf e) x in
       dispatchEvent "code-input_load" x)
    /\ textareaElement E = Some ta /\ preElement E = Some pre
    /\ codeElement E = Some code /\ template E = Some (Registered t)
    /\ Textarea.value ta = normalizeNewlines (initialValueOf e)
    /\ Textarea.innerHTML ta = innerHTML e
    /\ Textarea.listeners ta = setupListeners
    /\ initialValue E = Some (initialValueOf e)
    /\ innerHTML E = ""
    /\ listeners E = listeners e
    /\ ignoreValueUpdate E = ignoreValueUpdate e
    /\ _value E = _value e
    /\ log E = log e
    /\ binds E = binds e.
Proof.
  intros Ht Hlang. unfold setup_build. cbv zeta.
  rewrite (initialValueOf_eq e).
  set (V := initialValueOf e).
  set (TA := Textarea.addEventListener "scroll" _ _ _).
  assert (HTA : Textarea.value TA = normalizeNewlines V
                /\ Textarea.innerHTML TA = innerHTML e
                /\ Textarea.listeners TA = setupListeners).
  { unfold TA, Textarea.value.
    cbn [Textarea.addEventListener Textarea.rawValue Textarea.innerHTML
         Textarea.listeners].
    match goal with
    | |- context [syncAttributes ?a ?b] =>
        destruct (syncAttributes_rest a b) as (Hv & Hh & Hl)
    end.
    unfold Textarea.value in Hv. rewrite Hv, Hh, Hl. clear Hv Hh Hl.
    split; [|split].
    - destruct (String.eqb V "") eqn:HV; [|reflexivity].
      apply String.eqb_eq in HV. now rewrite HV.
    - destruct (String.eqb V ""); reflexivity.
    - destruct (String.eqb V ""); reflexivity. }
  destruct HTA as (HTAv & HTAh & HTAl).
  set (PRE := Node.setAttribute "aria-hidden" "true" _).
  assert (Hgen : forall code : Node.t,
    let E := set_codeElement
               (set_preElement
                  (set_textareaElement
                     (set_innerHTML (set_initialValue e (Some V)) "") (Some TA))
                  (Some PRE)) (Some code) in
    exists E' ta pre code',
      (run x <- pluginEvt "afterElementsAdded" [] E in
       run x <- update V x in
       dispatchEvent "code-input_load" x)
      = (run x <- pluginEvt "afterElementsAdded" [] E' in
         run x <- update V x in
         dispatchEvent "code-input_load" x)
      /\ textareaElement E' = Some ta /\ preElement E' = Some pre
      /\ codeElement E' = Some code' /\ template E' = Some (Registered t)
      /\ Textarea.value ta = normalizeNewlines V
      /\ Textarea.innerHTML ta = innerHTML e
      /\ Textarea.listeners ta = setupListeners
      /\ initialValue E' = Some V
      /\ innerHTML E' = ""
      /\ listeners E' = listeners e
      /\ ignoreValueUpdate E' = ignoreValueUpdate e
      /\ _value E' = _value e
      /\ log E' = log e
      /\ binds E' = binds e).
  { intros code E. exists E, TA, PRE, code.
    split; [reflexivity|]. unfold E. fields.
    repeat split; assumption. }
  fields. rewrite Ht.
  destruct (isCode t).
  - destruct (attributes e !! "lang") as [l|] eqn:Hl.
    + destruct (String.eqb l "").
      * cbn [andThen]. apply (Hgen (Node.mk (created + 1) "code" [] "" ∅)).
      * erewrite onCode_addClass;
          [|fields; reflexivity
           |rewrite tokenError_language; now rewrite (Hlang l Hl)].
        cbn [andThen]. fields.
        apply (Hgen (Node.setClassList _ (Node.mk (created + 1) "code" [] "" ∅))).
    + cbn [andThen]. apply (Hgen (Node.mk (created + 1) "code" [] "" ∅)).
  - cbn [andThen]. apply (Hgen (Node.mk (created + 1) "code" [] "" ∅)).
Qed.

(** [setup] on an element without surfaces whose template is known, up
    to the same point. *)
Lemma setup_shape (e : CodeInput) (created : nat) (t : Template) :
  textareaElement e = None -> template e = Some (Registered t) -> langValid e ->
  exists E ta pre code,
    setup e created
    = withNodes (created + 3)
        (run x <- pluginEvt "afterElementsAdded" [] E in
         run x <- update (initialValueOf e) x in
         dispatchEvent "code-input_load" x)
    /\ textareaElement E = Some ta /\ preElement E = Some pre
    /\ codeElement E = Some code /\ template E = Some (Registered t)
    /\ Textarea.value ta = normalizeNewlines (initialValueOf e)
    /\ Textarea.innerHTML ta = innerHTML e
    /\ Textarea.listeners ta = setupListeners
    /\ initialValue E = Some (initialValueOf e)
    /\ innerHTML E = ""
    /\ listeners E = listeners e
    /\ ignoreValueUpdate E = ignoreValueUpdate e
    /\ _value E = _value e
    /\ highlighted (log E) = highlighted (log e)
    /\ binds E = binds e.
Proof.
  intros Hta Ht Hlang. unfold setup. rewrite Hta.
  rewrite addClass_valid by reflexivity. fields. rewrite Ht.
  assert (He0 : exists e0,
    (if preElementStyled t
     then addClass "code-input_pre-element-styled"
            (set_classList e (tokens_add "code-input_registered" (classList e)))
     else Done (set_classList e (tokens_add "code-input_registered" (classList e))))
    = Done e0
    /\ template e0 = Some (Registered t) /\ attributes e0 = attributes e
    /\ log e0 = log e /\ listeners e0 = listeners e
    /\ ignoreValueUpdate e0 = ignoreValueUpdate e
    /\ innerHTML e0 = innerHTML e /\ _value e0 = _value e
    /\ binds e0 = binds e).
  { destruct (preElementStyled t).
    - rewrite addClass_valid by reflexivity. eexists. split; [reflexivity|].
      fields. now rewrite Ht.
    - eexists. split; [reflexivity|]. fields. now rewrite Ht. }
  destruct He0 as (e0 & -> & Ht0 & Ha0 & Hl0 & Hls0 & Hf0 & Hh0 & Hv0 & Hb0).
  cbn [andThen]. unfold pluginEvt at 1. rewrite Ht0.
  set (e1 := set_log e0 _).
  assert (HV : initialValueOf e1 = initialValueOf e).
  { unfold initialValueOf, e1. fields. now rewrite Hh0, Ha0. }
  destruct (setup_build_shape t created e1 Ht0)
    as (E & ta & pre & code & Hrun & H1 & H2 & H3 & H4 & H5 & H6 & H7 & H8 & H9
        & H10 & H11 & H12 & H13 & H14).
  { intros l Hl. apply Hlang. now rewrite <- Ha0. }
  exists E, ta, pre, code. rewrite Hrun, HV.
  split; [reflexivity|].
  rewrite HV in H5, H8.
  split; [exact H1|]. split; [exact H2|]. split; [exact H3|]. split; [exact H4|].
  split; [exact H5|]. split; [rewrite H6; exact Hh0|]. split; [exact H7|].
  split; [exact H8|]. split; [exact H9|]. split; [rewrite H10; exact Hls0|].
  split; [rewrite H11; exact Hf0|]. split; [rewrite H12; exact Hv0|].
  split; [|rewrite H14; exact Hb0].
  rewrite H13. unfold e1. fields. rewrite highlighted_app, Hl0.
  fold (pluginEvents t "beforeElementsAdded" []).
  now rewrite highlighted_pluginEvents, app_nil_r.
Qed.

End SetupMore.

Section LoadListeners.

(** A property of an element that has its nodes, kept by what the
    listeners of ["code-input_load"] do. *)
Variable P : CodeInput -> Prop.

Hypothesis P_log : forall e id type,
  P e -> P (set_log e (log e ++ [EvListener id type])).

Hypothesis P_update : forall e v e' ta code t,
  P e -> textareaElement e = Some ta -> codeElement e = Some code ->
  template e = Some (Registered t) -> ignoreValueUpdate e = false ->
  update v e = Done e' -> P e'.

Hypothesis P_attach : forall e ta type b options,
  P e -> textareaElement e = Some ta ->
  P (set_textareaElement e
       (Some (Textarea.addEventListener type (Bound b) options ta))).

Lemma invokeListener_invariant (l : Listener) (e e1 : CodeInput) ta code t :
  textareaElement e = Some ta -> codeElement e = Some code ->
  template e = Some (Registered t) -> P e ->
  invokeListener "code-input_load" l e = Done e1 -> P e1.
Proof.
  intros Hta Hcode Ht HP Hrun.
  destruct l as [id source|v|type b options]; cbn [invokeListener] in Hrun.
  - injection Hrun as <-. now apply P_log.
  - destruct (ignoreValueUpdate e) eqn:Hflag.
    + rewrite update_ignored in Hrun by assumption. now injection Hrun as <-.
    + eapply P_update; eassumption.
  - rewrite Hta in Hrun. injection Hrun as <-. now apply P_attach.
Qed.

(** One listener of the list has run. *)
Lemma invokeCallback_invariant (cb : Callback) (e : CodeInput) ta code t :
  textareaElement e = Some ta -> codeElement e = Some code ->
  template e = Some (Registered t) ->
  exists e1,
    invokeCallback "code-input_load" cb e = Done e1
    /\ is_Some (textareaElement e1) /\ is_Some (codeElement e1)
    /\ template e1 = Some (Registered t)
    /\ (P e -> P e1).
Proof.
  intros Hta Hcode Ht.
  assert (Hl : forall l, exists e1,
                 invokeListener "code-input_load" l e = Done e1
                 /\ is_Some (textareaElement e1) /\ is_Some (codeElement e1)
                 /\ template e1 = Some (Registered t)
                 /\ (P e -> P e1)).
  { intros l.
    destruct (invokeListener_surfaces "code-input_load" l e ta code t Hta Hcode Ht)
      as (e1 & H1 & H2 & _).
    exists e1. split; [exact H1|].
    split; [eapply surfaces_textarea; [apply H2|eauto]|].
    split; [eapply surfaces_code; [apply H2|eauto]|].
    split; [destruct H2 as [_ Htt _]; congruence|].
    intros HP. eapply invokeListener_invariant; eassumption. }
  destruct cb as [name|[i l]|l]; cbn [invokeCallback boundListener].
  - exists e. split; [reflexivity|]. split; [eauto|]. split; [eauto|].
    split; [exact Ht|tauto].
  - apply Hl.
  - apply Hl.
Qed.

(** All of them have run. *)
Lemma runListeners_invariant (rs : list Registration) (e e' : CodeInput) t :
  is_Some (textareaElement e) -> is_Some (codeElement e) -> template e = Some (Registered t) ->
  P e -> runListeners "code-input_load" rs e = Done e' -> P e'.
Proof.
  revert e. induction rs as [|r rs IH]; intros e Hta Hcode Ht HP Hrun.
  - cbn in Hrun. now injection Hrun as <-.
  - cbn [runListeners] in Hrun.
    destruct (String.eqb (regType r) "code-input_load"); [|eapply IH; eassumption].
    destruct Hta as [ta Hta]. destruct Hcode as [code Hcode].
    destruct (invokeCallback_invariant (regCallback r) e ta code t Hta Hcode Ht)
      as (e1 & Hrun1 & Hta1 & Hcode1 & Ht1 & HP1).
    rewrite Hrun1 in Hrun.
    apply (IH e1); [assumption|assumption|assumption|now apply HP1|exact Hrun].
Qed.

End LoadListeners.

Section SetupValue.

Lemma showsContent_update content (e : CodeInput) v e' ta code t :
  showsContent content e -> textareaElement e = Some ta -> codeElement e = Some code ->
  template e = Some (Registered t) -> ignoreValueUpdate e = false ->
  update v e = Done e' -> showsContent content e'.
Proof.
  intros (Hh & ta0 & Hta0 & Hc & _) Hta Hcode Ht Hflag Hupd.
  destruct (update_render_rest v e e' ta code t Hta Hcode Ht Hflag Hupd)
    as (_ & _ & _ & Hh' & _).
  destruct (update_render v e ta code t Hta Hcode Ht Hflag)
    as (e'' & Hupd' & Hval & Hta' & _).
  rewrite Hupd in Hupd'. injection Hupd' as <-.
  split; [congruence|].
  eexists. split; [exact Hta'|].
  destruct (written_rest v ta) as (_ & Hwi & _).
  split; [|now rewrite Hval, written_value].
  rewrite Hwi. congruence.
Qed.

Lemma setup_value (e : CodeInput) (created : nat) (t : Template) :
  textareaElement e = None -> template e = Some (Registered t) -> langValid e ->
  ignoreValueUpdate e = false ->
  exists e2 ta,
    setup e created = Done (e2, created + 3)
    /\ initialValue e2 = Some (initialValueOf e)
    /\ innerHTML e2 = ""
    /\ textareaElement e2 = Some ta
    /\ Textarea.innerHTML ta = innerHTML e
    /\ Textarea.value ta = normalizeNewlines (_value e2)
    /\ _value e2 = List.last (pendingUpdates e) (initialValueOf e).
Proof.
  intros Hta Ht Hlang Hflag.
  destruct (setup_shape e created t Hta Ht Hlang)
    as (E & ta & pre & code & Hrun & HtaE & HpreE & HcodeE & HtE & Hv & Hh & _
        & Hinit & HhE & Hls & HflagE & _).
  rewrite Hrun. unfold pluginEvt. rewrite HtE. fields.
  set (E1 := set_log E _).
  rewrite Hflag in HflagE.
  destruct (update_render (initialValueOf e) E1 ta code t HtaE HcodeE HtE HflagE)
    as (e1 & Hupd & Hval1 & Hta1 & Hcode1 & _ & Ht1 & Hflag1 & _ & _ & Hls1 & _).
  destruct (update_render_rest (initialValueOf e) E1 e1 ta code t
              HtaE HcodeE HtE HflagE Hupd) as (Hinit1 & _ & _ & Hh1 & _).
  rewrite Hupd. fields. unfold dispatchEvent.
  destruct (runListeners_surfaces (listeners e1) e1 t)
    as (e2 & Hrun2 & _ & Hinit2 & _ & Hidle);
    [rewrite Hta1; eauto|rewrite Hcode1; eauto|exact Ht1|].
  assert (Hshows : showsContent (innerHTML e) e2).
  { refine (runListeners_invariant (showsContent (innerHTML e)) _ _ _
              (listeners e1) e1 e2 t _ _ Ht1 _ Hrun2).
    - intros x id ty Hx. exact Hx.
    - intros x v x' tax codex tx. apply showsContent_update.
    - intros x tax ty b o (Hhx & ta0 & Hta0 & Hc0 & Hv0) Htax.
      split; [exact Hhx|]. eexists. split; [reflexivity|].
      rewrite Hta0 in Htax. injection Htax as <-. now split.
    - rewrite Hta1; eauto.
    - rewrite Hcode1; eauto.
    - split; [rewrite Hh1; exact HhE|].
      eexists. split; [exact Hta1|].
      destruct (written_rest (initialValueOf e) ta) as (_ & Hwi & _).
      split; [rewrite Hwi; exact Hh|now rewrite Hval1, written_value]. }
  destruct Hshows as (Hh2 & ta2 & Hta2 & Hc2 & Hv2).
  exists e2, ta2. rewrite Hrun2. split; [reflexivity|].
  split; [rewrite Hinit2, Hinit1; exact Hinit|].
  split; [exact Hh2|]. split; [exact Hta2|]. split; [exact Hc2|].
  split; [exact Hv2|].
  destruct (Hidle Hflag1) as [_ Hlast].
  rewrite Hlast, Hval1. unfold pendingUpdates. now rewrite Hls1, <- Hls.
Qed.

End SetupValue.

(** X17. [setup], on an element whose template is registered and whose
    [lang] holds no white space, starts from the content of the element,
    unescaped; from the [value] attribute only when there is no content;
    and from the empty string when there is neither.  It records that
    value for a form reset, empties the element, hands the content as it
    was to the textarea, and renders it; calls of [update] that were
    waiting then run, so that the element ends on the last of them, and
    the textarea gives the value of the element with its line breaks
    normalised. *)
Theorem setup_initial_value (e : CodeInput) (created : nat) (t : Template) :
  textareaElement e = None -> template e = Some (Registered t) -> langValid e ->
  ignoreValueUpdate e = false ->
  exists e2 ta,
    setup e created = Done (e2, created + 3)
    /\ initialValue e2
       = Some (if String.eqb (unescapeHtml (innerHTML e)) ""
               then default "" (attributes e !! "value")
               else unescapeHtml (innerHTML e))
    /\ innerHTML e2 = ""
    /\ textareaElement e2 = Some ta
    /\ Textarea.innerHTML ta = innerHTML e
    /\ Textarea.value ta = normalizeNewlines (getValue e2)
    /\ getValue e2 = List.last (pendingUpdates e) (initialValueOf e).
Proof. apply setup_value. Qed.

Lemma setup_initial_value_witness :
  exists e2 ta,
    setup (set_template
             (newCodeInput {[ "value" := "ignored" ]} "if (a &lt; b) &amp;&amp; c")
             (Some (Registered plainTemplate))) 0
    = Done (e2, 3)
    /\ initialValue e2 = Some "if (a < b) && c"
    /\ textareaElement e2 = Some ta
    /\ Textarea.innerHTML ta = "if (a &lt; b) &amp;&amp; c"
    /\ Textarea.value ta = "if (a < b) && c"
    /\ getValue e2 = "if (a < b) && c".
Proof.
  assert (Hlang : langValid
                    (set_template
                       (newCodeInput {[ "value" := "ignored" ]} "if (a &lt; b) &amp;&amp; c")
                       (Some (Registered plainTemplate)))).
  { intros l Hl. vm_compute in Hl. discriminate. }
  destruct (setup_initial_value
              (set_template
                 (newCodeInput {[ "value" := "ignored" ]} "if (a &lt; b) &amp;&amp; c")
                 (Some (Registered plainTemplate))) 0 plainTemplate eq_refl eq_refl
              Hlang eq_refl)
    as (e2 & ta & Hrun & Hinit & _ & Hta & Hc & Hv & Hval).
  exists e2, ta. split; [exact Hrun|]. split; [exact Hinit|].
  split; [exact Hta|]. split; [exact Hc|].
  split; [rewrite Hv, Hval; reflexivity|rewrite Hval; reflexivity].
Defined.

(** ** Listeners added before the textarea exists *)

Section DeferredAttach.


Variables (type : string) (b : BoundCallback) (capture : bool).






End DeferredAttach.



(** ** Listeners on the element itself *)

Section Unmirrored.

Lemma existsb_filter_keeps {A : Type} (p q : A -> bool) (l : list A) :
  (forall x, p x = true -> q x = true) ->
  existsb p l = true -> existsb p (List.filter q l) = true.
Proof.
  intros Hpq. induction l as [|x l IH]; [trivial|].
  cbn [existsb List.filter]. intros H. apply orb_true_iff in H.
  destruct (p x) eqn:Hp.
  - rewrite (Hpq x Hp). cbn [existsb]. now rewrite Hp.
  - destruct H as [H|H]; [discriminate|].
    destruct (q x); [cbn [existsb]; rewrite Hp|]; now apply IH.
Qed.

Lemma bound_not_unbound type type' (b : BoundCallback) (l : Listener) capture capture'
  (r : Registration) :
  sameRegistration type (Bound b) capture r = true ->
  negb (sameRegistration type' (Unbound l) capture' r) = true.
Proof.
  unfold sameRegistration.
  destruct (regCallback r) as [name|b'|l']; cbn [sameCallback].
  - now rewrite andb_false_r.
  - intros _. now rewrite andb_false_r.
  - destruct l'; now rewrite andb_false_r.
Qed.

End Unmirrored.

(** X19. For a type that is not mirrored on the textarea,
    [addEventListener] registers the bound function on the element and
    [removeEventListener] asks for the removal of the listener itself,
    which is another function: the bound function is still registered
    afterwards, and still called when the event comes. *)
Theorem unmirrored_listener_stays (type : string) (l : Listener) (options : option bool)
  (e : CodeInput) :
  ~ In type textareaSyncEvents ->
  exists e2 e3,
    addEventListener type l options e = Done e2
    /\ removeEventListener type l options e2 = Done e3
    /\ existsb (sameRegistration type (Bound (Bind (binds e) l)) (default false options))
         (listeners e3) = true.
Proof.
  intros Hnot.
  assert (Hsync : listIncludes type textareaSyncEvents = false).
  { destruct (listIncludes type textareaSyncEvents) eqn:H; [|reflexivity].
    apply listIncludes_In in H. contradiction. }
  assert (Hc : String.eqb type "change" = false).
  { apply String.eqb_neq. intros ->. apply Hnot. cbn. tauto. }
  assert (Hs : String.eqb type "selectionchange" = false).
  { apply String.eqb_neq. intros ->. apply Hnot. cbn. tauto. }
  unfold addEventListener. cbn [addEventListener_fuel].
  unfold addEventListener_body at 1. rewrite Hsync.
  eexists _, _. split; [reflexivity|].
  unfold removeEventListener. rewrite Hc, Hs.
  split; [reflexivity|]. fields. unfold eventTarget_remove.
  apply existsb_filter_keeps.
  - intros r. apply bound_not_unbound.
  - apply existsb_eventTarget_add. cbn. apply Nat.eqb_refl.
Qed.

Lemma unmirrored_listener_stays_witness :
  exists e2 e3,
    addEventListener "click" onInput None jsActive = Done e2
    /\ removeEventListener "click" onInput None e2 = Done e3
    /\ omap (fun r => callbackListener (regCallback r)) (listeners e3) = [onInput].
Proof.
  assert (Hnot : ~ In "click" textareaSyncEvents).
  { cbn. intros [H|[H|[H|[H|[]]]]]; discriminate. }
  destruct (unmirrored_listener_stays "click" onInput None jsActive Hnot)
    as (e2 & e3 & Hadd & Hrem & _).
  exists e2, e3. split; [exact Hadd|]. split; [exact Hrem|].
  vm_compute in Hadd. injection Hadd as <-.
  vm_compute in Hrem. injection Hrem as <-.
  vm_compute. reflexivity.
Defined.

(** ** Mutation records *)

Section Mutations.

Variables (used : gmap string Template) (dflt : option string)
          (observed : list string * list Wildcard).

Lemma mutationObserverCallback_skip (skipped rest : list MutationRecord)
  (e : CodeInput) :
  Forall (passedOver observed) skipped ->
  mutationObserverCallback used dflt observed (skipped ++ rest) e
  = mutationObserverCallback used dflt observed rest e.
Proof.
  induction 1 as [|m ms Hm _ IH]; [reflexivity|].
  cbn [app mutationObserverCallback].
  destruct Hm as [Hm|Hm].
  - apply String.eqb_neq in Hm. now rewrite Hm.
  - rewrite Hm. now destruct (negb _).
Qed.

Lemma isObserved_newPlugin (pluginAttributes : list string) (name : string) :
  isObserved (newPlugin pluginAttributes observed) name
  = isObserved observed name
    || existsb (fun attribute =>
                  match wildcard2regex attribute with
                  | None => String.eqb name attribute
                  | Some reg => matchWildcard reg name
                  end) pluginAttributes.
Proof.
  unfold newPlugin. revert observed.
  induction pluginAttributes as [|a l IH]; intros [names regs].
  - cbn. now rewrite orb_false_r.
  - cbn [fold_left existsb]. rewrite IH. unfold isObserved.
    destruct (wildcard2regex a) as [reg|]; cbn [fst snd].
    + rewrite existsb_app. cbn [existsb]. rewrite orb_false_r.
      now rewrite <- !orb_assoc.
    + rewrite listIncludes_app. unfold listIncludes at 2. cbn [existsb].
      rewrite orb_false_r.
      rewrite <- !orb_assoc. f_equal. rewrite !orb_assoc. f_equal.
      apply orb_comm.
Qed.

End Mutations.

(** X20. Of a batch of mutation records, [mutationObserverCallback]
    passes over the records that are not of an attribute or whose
    attribute is not observed, hands the first other record to
    [attributeChangedCallback] with the value that the attribute has
    then, and returns: the records that come after it in the batch are
    not looked at. *)
Theorem first_observed_mutation_only
  (used : gmap string Template) (dflt : option string)
  (observed : list string * list Wildcard)
  (skipped rest : list MutationRecord) (mutation : MutationRecord) (e : CodeInput) :
  Forall (passedOver observed) skipped ->
  mutationType mutation = "attributes" ->
  isObserved observed (attributeName mutation) = true ->
  mutationObserverCallback used dflt observed (skipped ++ mutation :: rest) e
  = attributeChangedCallback used dflt (attributeName mutation)
      (mutationOldValue mutation) (attributes e !! attributeName mutation) e.
Proof.
  intros Hskip Hty Hobs.
  rewrite mutationObserverCallback_skip by exact Hskip.
  cbn [mutationObserverCallback]. now rewrite Hty, Hobs.
Qed.

Lemma first_observed_mutation_only_witness :
  mutationObserverCallback ∅ None (observedAttributes, observedAttributes_regexp)
    [mkMutation "childList" "" None; mkMutation "attributes" "class" None;
     mkMutation "attributes" "placeholder" (Some "py");
     mkMutation "attributes" "value" None]
    jsActive
  = attributeChangedCallback ∅ None "placeholder" (Some "py")
      (attributes jsActive !! "placeholder") jsActive.
Proof.
  apply (first_observed_mutation_only ∅ None (observedAttributes, observedAttributes_regexp)
           [mkMutation "childList" "" None; mkMutation "attributes" "class" None]
           [mkMutation "attributes" "value" None]
           (mkMutation "attributes" "placeholder" (Some "py")) jsActive).
  - constructor; [left; discriminate|].
    constructor; [right; reflexivity|constructor].
  - reflexivity.
  - reflexivity.
Defined.

(** X21. A batch in which no record is of an observed attribute leaves
    the element as it is. *)
Theorem unobserved_mutations_ignored
  (used : gmap string Template) (dflt : option string)
  (observed : list string * list Wildcard)
  (mutationList : list MutationRecord) (e : CodeInput) :
  Forall (passedOver observed) mutationList ->
  mutationObserverCallback used dflt observed mutationList e = Done e.
Proof.
  intros Hskip.
  rewrite <- (app_nil_r mutationList).
  now rewrite mutationObserverCallback_skip.
Qed.

Lemma unobserved_mutations_ignored_witness :
  mutationObserverCallback ∅ None (observedAttributes, observedAttributes_regexp)
    [mkMutation "attributes" "class" None; mkMutation "attributes" "style" None]
    jsActive
  = Done jsActive.
Proof.
  apply (unobserved_mutations_ignored ∅ None (observedAttributes, observedAttributes_regexp)).
  constructor; [right; reflexivity|].
  constructor; [right; reflexivity|constructor].
Defined.

(** X22. The constructor of [codeInput.Plugin], given names that hold
    at most one [*], makes these attributes observed, and no other:
    afterwards a name is observed when it was before, when it is one of
    the names given, or when it matches one of the names given that hold
    a [*]. *)
Theorem plugin_attributes_observed (pluginAttributes : list string)
  (observed : list string * list Wildcard) (name : string) :
  Forall (fun attribute => atMostOneStar attribute = true) pluginAttributes ->
  isObserved (newPlugin pluginAttributes observed) name
  = isObserved observed name
    || existsb (fun attribute =>
                  match wildcard2regex attribute with
                  | None => String.eqb name attribute
                  | Some reg => matchWildcard reg name
                  end) pluginAttributes.
Proof. intros _. apply isObserved_newPlugin. Qed.

Lemma plugin_attributes_observed_witness :
  isObserved (observedAttributes, observedAttributes_regexp) "data-line" = false
  /\ isObserved (newPlugin ["data-*"; "highlight"]
                   (observedAttributes, observedAttributes_regexp)) "data-line" = true.
Proof.
  split; [reflexivity|].
  rewrite (plugin_attributes_observed ["data-*"; "highlight"]
             (observedAttributes, observedAttributes_regexp) "data-line");
    [reflexivity|].
  repeat constructor.
Defined.

(** ** More on the registry *)

Section RegistryMore.

(** In a tame world the loop of [registerTemplate] ends, keeps the
    registry, and leaves the elements that are not in the queue entry
    as they are. *)
Lemma flushQueue_frame (tpl : Template) (elems : list nat) (w : World) :
  Tame w ->
  exists w',
    flushQueue tpl elems w = Done w'
    /\ Tame w'
    /\ usedTemplates w' = usedTemplates w
    /\ defaultTemplate w' = defaultTemplate w
    /\ windowLoaded w' = windowLoaded w
    /\ (forall E, ~ In E elems -> elements w' !! E = elements w !! E).
Proof.
  revert w. induction elems as [|elem rest IH]; intros w HT.
  - exists w. split; [reflexivity|]. split; [exact HT|]. repeat split.
  - destruct (flushStep_element "" 0 tpl tpl elem w HT)
      as (w1 & Hrun1 & [H1 H2 H3 _ H5] & HT1 & _).
    destruct (IH w1 HT1) as (w' & Hrun & HT' & Hu & Hd & Hl & Hothers).
    exists w'. split.
    { cbn [flushQueue]. fold (flushStep tpl elem (flushQueue tpl rest) w).
      now rewrite Hrun1. }
    split; [exact HT'|].
    split; [congruence|]. split; [congruence|]. split; [congruence|].
    intros E Hnot. rewrite Hothers, H5; [reflexivity| |].
    + intros ->. apply Hnot. now left.
    + intros Hin. apply Hnot. now right.
Qed.

(** [registerTemplate] with a well-formed template object, in a tame
    world: the registry and the default template afterwards. *)
Lemma registerTemplate_registry (N : string) (d : Descriptor.t) (t : Template)
  (w : World) :
  checkTemplate d = inr t -> Tame w ->
  exists w',
    registerTemplate N d w = Done w'
    /\ Tame w'
    /\ usedTemplates w' = <[N := t]> (usedTemplates w)
    /\ defaultTemplate w' = Some (default N (defaultTemplate w))
    /\ windowLoaded w' = windowLoaded w.
Proof.
  intros Hcheck HT. unfold registerTemplate. rewrite Hcheck.
  set (w0 := set_usedTemplates w (<[N := t]> (usedTemplates w))).
  assert (HT0 : Tame w0) by now apply Tame_set_usedTemplates.
  assert (Hfirst : exists w1,
    match templateNotYetRegisteredQueue w0 !! N with
    | Some elems => flushQueue t elems w0
    | None => Done w0
    end = Done w1
    /\ Tame w1
    /\ usedTemplates w1 = usedTemplates w0
    /\ defaultTemplate w1 = defaultTemplate w0
    /\ windowLoaded w1 = windowLoaded w0).
  { destruct (templateNotYetRegisteredQueue w0 !! N) as [elems|].
    - destruct (flushQueue_frame t elems w0 HT0)
        as (w1 & Hrun & HT1 & Hu & Hd & Hl & _).
      exists w1. split; [exact Hrun|]. split; [exact HT1|]. repeat split; assumption.
    - exists w0. split; [reflexivity|]. split; [exact HT0|]. repeat split. }
  destruct Hfirst as (w1 & Hrun1 & HT1 & Hu1 & Hd1 & Hl1).
  rewrite Hrun1. cbn [andThen].
  change (defaultTemplate w0) with (defaultTemplate w) in Hd1.
  change (usedTemplates w0) with (<[N := t]> (usedTemplates w)) in Hu1.
  change (windowLoaded w0) with (windowLoaded w) in Hl1.
  destruct (defaultTemplate w1) as [dflt|] eqn:Hdflt.
  - exists w1. split; [reflexivity|]. split; [exact HT1|]. split; [exact Hu1|].
    split; [now rewrite <- Hd1|exact Hl1].
  - set (w2 := set_defaultTemplate w1 (Some N)).
    assert (HT2 : Tame w2).
    { apply Tame_set_defaultTemplate; [exact HT1|].
      rewrite Hu1, lookup_insert_eq. eauto. }
    destruct (templateNotYetRegisteredQueue w2 !! keyOf None) as [elems|].
    + destruct (flushQueue_frame t elems w2 HT2)
        as (w3 & Hrun & HT3 & Hu & Hd & Hl & _).
      exists w3. split; [exact Hrun|]. split; [exact HT3|].
      split; [rewrite Hu; exact Hu1|].
      split; [rewrite Hd, <- Hd1; reflexivity|rewrite Hl; exact Hl1].
    + exists w2. split; [reflexivity|]. split; [exact HT2|]. split; [exact Hu1|].
      split; [rewrite <- Hd1; reflexivity|exact Hl1].
Qed.

End RegistryMore.

(** X23. In a world whose elements can be set up, the first template
    that is registered becomes the default template, and a later
    registration does not change the default.  A name that is registered
    again holds the template of the last registration. *)
Theorem default_template_is_first (N1 N2 : string) (d1 d2 : Descriptor.t)
  (t1 t2 : Template) (w : World) :
  checkTemplate d1 = inr t1 -> checkTemplate d2 = inr t2 ->
  Tame w -> defaultTemplate w = None ->
  exists w1 w2,
    registerTemplate N1 d1 w = Done w1
    /\ registerTemplate N2 d2 w1 = Done w2
    /\ defaultTemplate w1 = Some N1
    /\ defaultTemplate w2 = Some N1
    /\ usedTemplates w2 !! N2 = Some t2
    /\ (N1 <> N2 -> usedTemplates w2 !! N1 = Some t1).
Proof.
  intros Hd1 Hd2 HT Hnone.
  destruct (registerTemplate_registry N1 d1 t1 w Hd1 HT)
    as (w1 & Hrun1 & HT1 & Hu1 & Hdf1 & _).
  destruct (registerTemplate_registry N2 d2 t2 w1 Hd2 HT1)
    as (w2 & Hrun2 & _ & Hu2 & Hdf2 & _).
  rewrite Hnone in Hdf1. cbn in Hdf1. rewrite Hdf1 in Hdf2. cbn in Hdf2.
  exists w1, w2. split; [exact Hrun1|]. split; [exact Hrun2|].
  split; [exact Hdf1|]. split; [exact Hdf2|].
  split; [rewrite Hu2; apply lookup_insert_eq|].
  intros Hne. rewrite Hu2, lookup_insert_ne, Hu1 by congruence.
  apply lookup_insert_eq.
Qed.

Lemma default_template_is_first_witness :
  exists w1 w2,
    registerTemplate "X" plainDescriptor waitingWorld = Done w1
    /\ registerTemplate "Y" plainDescriptor w1 = Done w2
    /\ defaultTemplate w1 = Some "X"
    /\ defaultTemplate w2 = Some "X".
Proof.
  assert (HT : Tame waitingWorld) by (apply Tame_tameb; vm_compute; reflexivity).
  destruct (default_template_is_first "X" "Y" plainDescriptor plainDescriptor
              plainTemplate plainTemplate waitingWorld eq_refl eq_refl HT eq_refl)
    as (w1 & w2 & H1 & H2 & H3 & H4 & _).
  exists w1, w2. repeat split; assumption.
Defined.

(** X24. Once there is a default template, [registerTemplate], in a
    world whose elements can be set up, touches the elements that wait in
    the queue entry of the name and no other element: an element that is not in the entry is as before, and so an
    Active element that asked for the name after it was registered keeps
    the template of the earlier registration. *)
Theorem registerTemplate_keeps_other_elements (N : string) (d : Descriptor.t)
  (t : Template) (E : nat) (w : World) :
  checkTemplate d = inr t -> Tame w ->
  is_Some (defaultTemplate w) ->
  ~ In E (default [] (templateNotYetRegisteredQueue w !! N)) ->
  exists w',
    registerTemplate N d w = Done w'
    /\ usedTemplates w' !! N = Some t
    /\ elements w' !! E = elements w !! E.
Proof.
  intros Hcheck HT [dflt Hdflt] Hnot.
  unfold registerTemplate. rewrite Hcheck.
  set (w0 := set_usedTemplates w (<[N := t]> (usedTemplates w))).
  assert (HT0 : Tame w0) by now apply Tame_set_usedTemplates.
  change (templateNotYetRegisteredQueue w0) with (templateNotYetRegisteredQueue w).
  destruct (templateNotYetRegisteredQueue w !! N) as [elems|].
  - destruct (flushQueue_frame t elems w0 HT0)
      as (w1 & Hrun & _ & Hu & Hd & _ & Hothers).
    rewrite Hrun. cbn [andThen].
    change (defaultTemplate w0) with (defaultTemplate w) in Hd.
    rewrite Hd, Hdflt. exists w1. split; [reflexivity|].
    split; [rewrite Hu; apply lookup_insert_eq|].
    now apply Hothers.
  - cbn [andThen]. change (defaultTemplate w0) with (defaultTemplate w).
    rewrite Hdflt. exists w0. split; [reflexivity|].
    split; [apply lookup_insert_eq|reflexivity].
Qed.

Lemma registerTemplate_keeps_other_elements_witness :
  exists w',
    registerTemplate "X"
      (Descriptor.mk (VFunction (fun content _ => "<b>" +:+ content +:+ "</b>"))
         (VBool false) (VBool false) (VBool false) (VArray []))
      registeredWorld = Done w'
    /\ (preElementStyled <$> usedTemplates w' !! "X") = Some false
    /\ (template <$> elements w' !! 1) = Some (Some (Registered plainTemplate)).
Proof.
  destruct (registerTemplate_keeps_other_elements "X"
              (Descriptor.mk (VFunction (fun content _ => "<b>" +:+ content +:+ "</b>"))
                 (VBool false) (VBool false) (VBool false) (VArray []))
              (mkTemplate (fun content _ => "<b>" +:+ content +:+ "</b>")
                 false false false [])
              1 registeredWorld eq_refl)
    as (w' & Hrun & Hreg & Helem).
  - apply Tame_tameb. vm_compute. reflexivity.
  - eexists. reflexivity.
  - vm_compute. tauto.
  - exists w'. split; [exact Hrun|]. rewrite Hreg, Helem.
    split; [reflexivity|vm_compute; reflexivity].
Defined.

(** ** The load of the window *)

Section WindowLoad.



End WindowLoad.



(** ** Elements that use the default template *)

Section DefaultTemplate.

Variables (N : string) (E : nat) (tN : Template).

Lemma templateKey_default (w : World) (e : CodeInput) :
  attributes e !! "template" = None -> defaultTemplate w = Some N ->
  templateKey w e = N.
Proof. intros Ha Hd. unfold templateKey. now rewrite Ha, Hd. Qed.

(** What one round of the loop does to the element [E] without
    [template] attribute, once [N] is the default template and the
    window is loaded. *)
Lemma flushStep_default (tpl : Template) (elem : nat) (w : World) :
  Tame w ->
  exists w',
    (forall k, flushStep tpl elem k w = k w')
    /\ StepOn elem w w'
    /\ Tame w'
    /\ (windowLoaded w = true -> defaultTemplate w = Some N ->
        usedTemplates w !! N = Some tN ->
        (ActiveDefault tN E w -> ActiveDefault tN E w')
        /\ (WaitingDefault E w ->
            (elem = E -> ActiveDefault tN E w')
            /\ (elem <> E -> WaitingDefault E w'))).
Proof.
  intros HT.
  destruct (flushStep_spec tpl elem w (Tame_canSetUp w elem HT))
    as (w' & Hrun & Hstep & Helem).
  exists w'. split; [exact Hrun|]. split; [exact Hstep|].
  split.
  { apply (Tame_step elem w w' Hstep); [|exact HT].
    intros e' He'. destruct (elements w !! elem) as [e|]; [|congruence].
    destruct Helem as (e2 & He2 & Ha & _). exists e. split; [reflexivity|congruence]. }
  intros Hloaded Hdflt Hreg.
  destruct (decide (elem = E)) as [->|Hne].
  - split.
    + intros (e & Hlook & Hattr & Hact & _).
      rewrite Hlook in Helem.
      destruct Helem as (e' & Hlook' & Ha & Hflag & Hkeep & Hbuild).
      destruct (Hbuild Hloaded) as [Ht _].
      rewrite (templateKey_default w e Hattr Hdflt), (propertyOf_registered _ _ _ Hreg) in Ht.
      destruct Hact as [Hta Hpre Hcode _ Hidle].
      specialize (Hkeep Hta).
      destruct (surfaces_same_Built e e' Hkeep (conj Hta (conj Hpre Hcode)))
        as (Hta' & Hpre' & Hcode').
      exists e'. split; [exact Hlook'|]. split; [congruence|].
      split; [|exact Ht].
      split; [assumption|assumption|assumption|rewrite Ht; eauto|congruence].
    + intros (e & Hlook & Hattr & Hidle & Hnone).
      split; [|congruence]. intros _.
      rewrite Hlook in Helem.
      destruct Helem as (e' & Hlook' & Ha & Hflag & Hkeep & Hbuild).
      destruct (Hbuild Hloaded) as [Ht Hnew].
      rewrite (templateKey_default w e Hattr Hdflt), (propertyOf_registered _ _ _ Hreg) in Ht.
      destruct Hnew as [_ Hnew]; [rewrite Ht; eauto|].
      destruct (Hnew Hnone) as [n Hs].
      destruct (surfaces_Built e' _ _ _ Hs) as (Hta' & Hpre' & Hcode').
      exists e'. split; [exact Hlook'|]. split; [congruence|].
      split; [|exact Ht].
      split; [assumption|assumption|assumption|rewrite Ht; eauto|congruence].
  - assert (Hsame : elements w' !! E = elements w !! E)
      by (apply (step_others _ _ _ Hstep); congruence).
    split.
    + intros (e & Hlook & Hrest). exists e. now rewrite Hsame.
    + intros (e & Hlook & Hrest). split; [congruence|].
      intros _. exists e. now rewrite Hsame.
Qed.

(** The loop over a queue entry builds [E] when it meets it. *)
Lemma flushQueue_default (tpl : Template) (elems : list nat) (w : World) :
  Tame w ->
  exists w',
    flushQueue tpl elems w = Done w'
    /\ defaultTemplate w' = defaultTemplate w
    /\ (windowLoaded w = true -> defaultTemplate w = Some N ->
        usedTemplates w !! N = Some tN ->
        (ActiveDefault tN E w -> ActiveDefault tN E w')
        /\ (WaitingDefault E w ->
            (In E elems -> ActiveDefault tN E w')
            /\ (WaitingDefault E w' \/ ActiveDefault tN E w'))).
Proof.
  revert w. induction elems as [|elem rest IH]; intros w HT.
  - exists w. split; [reflexivity|]. split; [reflexivity|].
    intros _ _ _. split; [trivial|].
    intros Hw. split; [intros []|now left].
  - destruct (flushStep_default tpl elem w HT) as (w1 & Hrun1 & Hstep1 & HT1 & Hone).
    destruct (IH w1 HT1) as (w' & Hrun & Hdefault & Hrest).
    exists w'. split.
    { cbn [flushQueue]. fold (flushStep tpl elem (flushQueue tpl rest) w).
      now rewrite Hrun1. }
    destruct Hstep1 as [H1 H2 H3 _ _].
    split; [congruence|].
    intros Hl Hd Hreg.
    destruct (Hone Hl Hd Hreg) as [Hkeep1 Hwait1].
    destruct Hrest as [Hkeep Hwait]; [congruence|congruence|congruence|].
    split; [intros Hs; apply Hkeep, Hkeep1, Hs|].
    intros Hw. destruct (Hwait1 Hw) as [Hhit Hmiss].
    destruct (decide (elem = E)) as [Heq|Hne].
    + pose proof (Hkeep (Hhit Heq)) as Hact.
      split; [intros _; exact Hact|now right].
    + destruct (Hwait (Hmiss Hne)) as [Hin Hor].
      split; [|exact Hor].
      intros [Heq|Hin']; [congruence|now apply Hin].
Qed.

End DefaultTemplate.

(** X26. In a loaded window whose elements can be set up, an element
    without [template] attribute that was connected before any template
    was registered waits in the queue entry of [undefined].  The first registration, of a name that
    no element waits for, makes that name the default template and makes
    the element Active with the template registered. *)
Theorem first_registration_builds_default_elements
  (N : string) (d : Descriptor.t) (t : Template) (E : nat) (q : list nat) (w : World) :
  checkTemplate d = inr t -> Tame w ->
  windowLoaded w = true -> defaultTemplate w = None ->
  templateNotYetRegisteredQueue w !! N = None ->
  templateNotYetRegisteredQueue w !! "undefined" = Some q -> In E q ->
  WaitingDefault E w ->
  exists w',
    registerTemplate N d w = Done w'
    /\ defaultTemplate w' = Some N
    /\ ActiveDefault t E w'.
Proof.
  intros Hcheck HT Hloaded Hnone HqN Hq Hin Hwait.
  unfold registerTemplate. rewrite Hcheck.
  set (w0 := set_usedTemplates w (<[N := t]> (usedTemplates w))).
  change (templateNotYetRegisteredQueue w0) with (templateNotYetRegisteredQueue w).
  rewrite HqN. cbn [andThen].
  change (defaultTemplate w0) with (defaultTemplate w). rewrite Hnone.
  set (w2 := set_defaultTemplate w0 (Some N)).
  change (templateNotYetRegisteredQueue w2) with (templateNotYetRegisteredQueue w).
  change (keyOf None) with "undefined". rewrite Hq.
  assert (HT2 : Tame w2).
  { apply Tame_set_defaultTemplate; [now apply Tame_set_usedTemplates|].
    cbn. rewrite lookup_insert_eq. eauto. }
  destruct (flushQueue_default N E t t q w2 HT2) as (w' & Hrun & Hd & Hbuild).
  exists w'. split; [exact Hrun|]. split; [exact Hd|].
  destruct Hbuild as [_ Hbuild];
    [exact Hloaded|reflexivity|apply lookup_insert_eq|].
  destruct (Hbuild Hwait) as [Hact _]. now apply Hact.
Qed.

Lemma first_registration_builds_default_elements_witness :
  exists w',
    registerTemplate "X" plainDescriptor defaultWaitingWorld = Done w'
    /\ defaultTemplate w' = Some "X"
    /\ ActiveDefault plainTemplate 1 w'.
Proof.
  apply (first_registration_builds_default_elements "X" plainDescriptor plainTemplate
           1 [1] defaultWaitingWorld);
    [reflexivity|apply Tame_tameb; vm_compute; reflexivity|reflexivity|reflexivity
    |vm_compute; reflexivity|vm_compute; reflexivity|now left|].
  eexists. split; [vm_compute; reflexivity|]. repeat split.
Defined.

(** ** The templates that the library offers *)

Section Slices.

Lemma substring_take (n : nat) (s : string) : substring 0 n s = takeChars n s.
Proof.
  revert n. induction s as [|c s IH]; intros [|n]; try reflexivity.
  cbn [substring takeChars]. now rewrite IH.
Qed.

Lemma substring_all (s : string) : substring 0 (String.length s) s = s.
Proof.
  induction s as [|c s IH]; [reflexivity|].
  cbn [String.length substring]. now rewrite IH.
Qed.

Lemma substring_drop (n : nat) (s : string) :
  n <= String.length s -> substring n (String.length s - n) s = dropChars n s.
Proof.
  revert n. induction s as [|c s IH]; intros [|n] Hn; try reflexivity.
  - rewrite Nat.sub_0_r. apply substring_all.
  - cbn [String.length] in Hn. cbn [String.length Nat.sub substring dropChars].
    apply IH. lia.
Qed.

Lemma takeChars_dropChars (n : nat) (s : string) :
  takeChars n s +:+ dropChars n s = s.
Proof.
  revert n. induction s as [|c s IH]; intros [|n]; try reflexivity.
  cbn [takeChars dropChars String.append]. now rewrite IH.
Qed.

Lemma takeChars_none (s : string) : takeChars 0 s = "".
Proof. now destruct s. Qed.

Lemma dropChars_length (n : nat) (s : string) :
  String.length (dropChars n s) = String.length s - n.
Proof.
  revert n. induction s as [|c s IH]; intros [|n]; try reflexivity.
  cbn [dropChars String.length Nat.sub]. apply IH.
Qed.

Lemma sliceIndex_le (len : nat) (i : Z) : sliceIndex len i <= len.
Proof. unfold sliceIndex. destruct (i <? 0)%Z eqn:Hi; lia. Qed.

(** The two slices that [characterLimit] takes. *)
Lemma slice_head (k : Z) (s : string) :
  slice 0 (Some k) s = takeChars (sliceIndex (String.length s) k) s.
Proof.
  unfold slice. cbv zeta.
  change (sliceIndex (String.length s) 0) with (Nat.min 0 (String.length s)).
  rewrite Nat.min_0_l, Nat.sub_0_r.
  destruct (sliceIndex (String.length s) k) as [|j].
  - cbn [Nat.leb]. now rewrite takeChars_none.
  - cbn [Nat.leb]. apply substring_take.
Qed.

Lemma slice_tail (k : Z) (s : string) :
  slice k None s = dropChars (sliceIndex (String.length s) k) s.
Proof.
  unfold slice. cbv zeta.
  pose proof (sliceIndex_le (String.length s) k) as Hle.
  destruct (String.length s <=? sliceIndex (String.length s) k)%nat eqn:Hcmp.
  - apply Nat.leb_le in Hcmp.
    assert (Heq : sliceIndex (String.length s) k = String.length s) by lia.
    rewrite Heq. symmetry. apply dropChars_all.
  - now apply substring_drop.
Qed.

Lemma escapeHtml_length (s : string) : String.length s <= String.length (escapeHtml s).
Proof.
  rewrite escapeHtml_flatMap. induction s as [|c s IH]; [reflexivity|].
  cbn [flatMap String.length]. unfold escapeChar at 1.
  destruct (Ascii.eqb c "&"); [cbn [String.append String.length]; lia|].
  destruct (Ascii.eqb c "<"); cbn [String.append String.length]; lia.
Qed.

Lemma checkPlugins_instances (i : nat) (ps : list Plugin) :
  checkPlugins i (map VPlugin ps) = inr ps.
Proof.
  revert i. induction ps as [|p ps IH]; intros i; [reflexivity|].
  cbn [map checkPlugins]. now rewrite IH.
Qed.

End Slices.


(** X28. With a limit that is not negative, the [characterLimit]
    template shows the overflow message exactly when the value is longer
    than the limit: a value within the limit gives the escaped value and
    an empty overflow mark; a longer value gives its first characters
    escaped and the others escaped inside the overflow mark, read back
    from the [code] node, and then the message, which is the attribute
    [data-overflow-msg] of the element as it is written, or the standard
    text when the attribute is missing or empty. *)
Theorem characterLimit_message (number : option string -> Z)
  (serialize : string -> string) (limit : nat) (codeInput : Owner) :
  number (ownerAttributes codeInput !! "data-character-limit") = Z.of_nat limit ->
  characterLimitHighlight number serialize codeInput
  = if (limit <? String.length (ownerValue codeInput))%nat
    then serialize
           (escapeHtml (takeChars limit (ownerValue codeInput))
            +:+ "<mark class=" +:+ quote +:+ "overflow" +:+ quote +:+ ">"
            +:+ escapeHtml (dropChars limit (ownerValue codeInput)) +:+ "</mark>")
         +:+ " <mark class=" +:+ quote +:+ "overflow-msg" +:+ quote +:+ ">"
         +:+ match ownerAttributes codeInput !! "data-overflow-msg" with
             | Some msg => if String.eqb msg "" then "(Character limit reached)" else msg
             | None => "(Character limit reached)"
             end
         +:+ "</mark>"
    else escapeHtml (ownerValue codeInput)
         +:+ "<mark class=" +:+ quote +:+ "overflow" +:+ quote +:+ "></mark>".
Proof.
  intros Hlimit.
  unfold characterLimitHighlight, characterLimitMarkup, characterLimitMessage.
  cbv zeta. rewrite Hlimit.
  set (value := ownerValue codeInput).
  rewrite slice_head, slice_tail.
  assert (Hidx : sliceIndex (String.length value) (Z.of_nat limit)
                 = Nat.min limit (String.length value)).
  { unfold sliceIndex. destruct (Z.of_nat limit <? 0)%Z eqn:Hneg; [lia|].
    now rewrite Nat2Z.id. }
  rewrite Hidx.
  destruct (limit <? String.length value)%nat eqn:Hcmp.
  - apply Nat.ltb_lt in Hcmp. rewrite Nat.min_l by lia.
    assert (Hlen : (0 <? String.length (escapeHtml (dropChars limit value)))%nat = true).
    { apply Nat.ltb_lt.
      pose proof (escapeHtml_length (dropChars limit value)) as Hle.
      rewrite dropChars_length in Hle. lia. }
    rewrite Hlen.
    assert (Hmsg : default "" (orElse (ownerAttributes codeInput !! "data-overflow-msg")
                                 (Some "(Character limit reached)"))
                   = match ownerAttributes codeInput !! "data-overflow-msg" with
                     | Some msg =>
                         if String.eqb msg "" then "(Character limit reached)" else msg
                     | None => "(Character limit reached)"
                     end).
    { destruct (ownerAttributes codeInput !! "data-overflow-msg") as [msg|];
        [|reflexivity].
      cbn [orElse]. now destruct (String.eqb msg ""). }
    now rewrite Hmsg.
  - apply Nat.ltb_ge in Hcmp. rewrite Nat.min_r by lia.
    rewrite dropChars_all.
    assert (Htake : takeChars (String.length value) value = value).
    { pose proof (takeChars_dropChars (String.length value) value) as H.
      now rewrite dropChars_all, append_nil_r in H. }
    rewrite Htake. reflexivity.
Qed.

Lemma characterLimit_message_witness :
  characterLimitHighlight limitOfThree (fun markup => markup)
    (mkOwner "abcdef" {[ "data-character-limit" := "3" ]})
  = "abc<mark class=" +:+ quote +:+ "overflow" +:+ quote +:+ ">def</mark>"
    +:+ " <mark class=" +:+ quote +:+ "overflow-msg" +:+ quote
    +:+ ">(Character limit reached)</mark>".
Proof.
  rewrite (characterLimit_message limitOfThree (fun markup => markup) 3
             (mkOwner "abcdef" {[ "data-character-limit" := "3" ]}));
    [|vm_compute; reflexivity].
  vm_compute. reflexivity.
Defined.

(** X29. The templates made by [templates.prism] and [templates.hljs]
    from a highlight function and an array of plugins pass the checks of
    [registerTemplate], also when the array is left out; the one made by
    [templates.characterLimit] passes them with an array of plugins, and
    is refused for its plugins when the array is left out, as the
    function has no default for it. *)
Theorem offered_templates_checked (f : HighlightFn) (ps : list Plugin)
  (number : option string -> Z) (serialize : string -> string) :
  checkTemplate (templates.prism (VFunction f) (VArray (map VPlugin ps)))
  = inr (mkTemplate f true true false ps)
  /\ checkTemplate (templates.prism (VFunction f) VUndefined)
     = inr (mkTemplate f true true false [])
  /\ checkTemplate (templates.hljs (VFunction f) (VArray (map VPlugin ps)))
     = inr (mkTemplate f false true false ps)
  /\ checkTemplate (templates.hljs (VFunction f) VUndefined)
     = inr (mkTemplate f false true false [])
  /\ (exists t,
        checkTemplate (templates.characterLimit number serialize (VArray (map VPlugin ps)))
        = inr t
        /\ preElementStyled t = true /\ isCode t = false
        /\ includeCodeInputInHighlightFunc t = true /\ plugins t = ps
        /\ forall content codeInput,
             highlight t content (Some codeInput)
             = characterLimitHighlight number serialize codeInput)
  /\ checkTemplate (templates.characterLimit number serialize VUndefined) = inl FPlugins
  /\ forall N w,
       registerTemplate N (templates.characterLimit number serialize VUndefined) w
       = Throw (InvalidTemplate N FPlugins) w.
Proof.
  unfold templates.prism, templates.hljs, templates.characterLimit, checkTemplate.
  cbn [Descriptor.highlight Descriptor.includeCodeInputInHighlightFunc
       Descriptor.preElementStyled Descriptor.isCode Descriptor.plugins
       asBoolean pluginsOrEmpty].
  rewrite !checkPlugins_instances.
  split; [reflexivity|]. split; [reflexivity|]. split; [reflexivity|].
  split; [reflexivity|].
  split; [eexists; split; [reflexivity|]; repeat split|].
  split; [reflexivity|].
  intros N w. reflexivity.
Qed.

(** X30. On an Active element whose template was made by
    [templates.characterLimit], [update] leaves in the [code] node what
    the highlight function of the template makes of the value and the
    attributes of the element: the content that [update] wrote there
    first, with the space that follows a final line feed, is replaced as
    a whole. *)
Theorem characterLimit_display (number : option string -> Z)
  (serialize : string -> string)
  (pluginsGiven : JsVal) (t : Template) (T : string) (e : CodeInput) :
  checkTemplate (templates.characterLimit number serialize pluginsGiven) = inr t ->
  Active e -> template e = Some (Registered t) ->
  exists e' code',
    update T e = Done e'
    /\ getValue e' = T
    /\ codeElement e' = Some code'
    /\ Node.innerHTML code'
       = characterLimitHighlight number serialize (mkOwner T (attributes e))
    /\ highlighted (log e') = (highlighted (log e) ++ [displayCopy T])%list.
Proof.
  intros Hcheck [[ta Hta] _ [code Hcode] _ Hflag] Ht.
  assert (Hshape : includeCodeInputInHighlightFunc t = true
                   /\ forall content codeInput,
                        highlight t content (Some codeInput)
                        = characterLimitHighlight number serialize codeInput).
  { unfold templates.characterLimit, checkTemplate in Hcheck.
    cbn [Descriptor.highlight Descriptor.includeCodeInputInHighlightFunc
         Descriptor.preElementStyled Descriptor.isCode Descriptor.plugins
         asBoolean] in Hcheck.
    destruct pluginsGiven as [| | | | | | |items| |]; try discriminate.
    destruct (checkPlugins 0 items) as [field|ps]; [discriminate|].
    injection Hcheck as <-. split; [reflexivity|]. intros content value. reflexivity. }
  destruct Hshape as [Hinc Hhl].
  destruct (update_render T e ta code t Hta Hcode Ht Hflag)
    as (e' & Hupd & Hval & _ & Hcode' & Hlog & _).
  rewrite Hinc, Hhl in Hcode'.
  eexists e', _. split; [exact Hupd|]. split; [exact Hval|].
  split; [exact Hcode'|]. split; [reflexivity|].
  now rewrite Hlog, highlighted_app, highlighted_renderEvents.
Qed.

Lemma characterLimit_display_witness :
  exists t e1 e' code',
    checkTemplate (templates.character_limit limitOfThree (fun markup => markup)) = inr t
    /\ setup (set_template (newCodeInput {[ "data-character-limit" := "3" ]} "")
                (Some (Registered t))) 0 = Done (e1, 3)
    /\ update ("abcdef" +:+ String "010" "") e1 = Done e'
    /\ codeElement e' = Some code'
    /\ Node.innerHTML code'
       = "abc<mark class=" +:+ quote +:+ "overflow" +:+ quote +:+ ">def"
         +:+ String "010" "</mark> <mark class=" +:+ quote +:+ "overflow-msg" +:+ quote
         +:+ ">(Character limit reached)</mark>".
Proof.
  set (t := mkTemplate
              (fun content codeInput =>
                 match codeInput with
                 | Some codeInput =>
                     characterLimitHighlight limitOfThree (fun markup => markup) codeInput
                 | None => content
                 end) true false true []).
  assert (Hcheck : checkTemplate
                     (templates.character_limit limitOfThree (fun markup => markup))
                   = inr t) by reflexivity.
  assert (Hlang : langValid (set_template
                               (newCodeInput {[ "data-character-limit" := "3" ]} "")
                               (Some (Registered t)))).
  { intros l Hl. vm_compute in Hl. discriminate. }
  destruct (setup_fresh (set_template
                           (newCodeInput {[ "data-character-limit" := "3" ]} "")
                           (Some (Registered t))) 0 t eq_refl eq_refl Hlang)
    as (e1 & initial & Hrun & Hs & Ha & Ht2 & _ & Hflag2 & _).
  destruct (surfaces_Built e1 _ _ _ Hs) as (Hta & Hpre & Hcode).
  assert (Hact : Active e1).
  { split; [exact Hta|exact Hpre|exact Hcode|rewrite Ht2; eauto|exact Hflag2]. }
  destruct (characterLimit_display limitOfThree (fun markup => markup) (VArray []) t
              ("abcdef" +:+ String "010" "") e1 Hcheck Hact Ht2)
    as (e' & code' & Hupd & _ & Hcode' & Hhtml & _).
  exists t, e1, e', code'. split; [exact Hcheck|]. split; [exact Hrun|].
  split; [exact Hupd|]. split; [exact Hcode'|].
  rewrite Hhtml, Ha. vm_compute. reflexivity.
Defined.
